(** * tk-shotgun-r8spublish: a shallow embedding of the publish hook, the
    application entry point and the Draft utility scripts.

    The Python sources are embedded as total functions.  Exceptions are
    values of [result]; dictionaries are [gmap]s; the host toolkit, which
    the repository only consumes, is an interface ([Toolkit]) over which the
    hook is parametrised. *)

From Stdlib Require Import ZArith Ascii String List.
From Stdlib Require Import Decimal DecimalString DecimalZ DecimalPos.
From Stdlib Require Import Sorting.Sorted.
From stdpp Require Import base option list gmap strings sorting.

Open Scope Z_scope.

(** ** Python values shared by the modules *)

(** The exceptions that the embedded code raises or lets through. *)
Inductive exn : Type :=
| StandardError (msg : string)
| PyException (msg : string)
| ValueError
| TypeError
| AttributeError
| KeyError
| IndexError
| IOError
| HostError (msg : string).

Inductive result (A : Type) : Type :=
| Ok (a : A)
| Raise (e : exn).
Arguments Ok {A} a.
Arguments Raise {A} e.

#[global] Instance exn_eq_dec : EqDecision exn.
Proof. solve_decision. Defined.

#[global] Instance result_ret : MRet result := fun A a => Ok a.
#[global] Instance result_bind : MBind result := fun A B f m =>
  match m with
  | Ok a => f a
  | Raise e => Raise e
  end.
#[global] Instance result_fmap : FMap result := fun A B f m =>
  match m with
  | Ok a => Ok (f a)
  | Raise e => Raise e
  end.

(** ** Python string primitives *)

Module PyStr.

Definition newline : ascii := "010"%char.

(** [str.isspace] on a byte string, which is also the class [\s] of [re]. *)
Definition is_ws (c : ascii) : bool :=
  match c with
  | "009" | "010" | "011" | "012" | "013" | " " => true
  | _ => false
  end%char.

(** The class [\d] of [re] on a byte string. *)
Definition is_digit (c : ascii) : bool :=
  match c with
  | "0" | "1" | "2" | "3" | "4" | "5" | "6" | "7" | "8" | "9" => true
  | _ => false
  end%char.

(** [s[:n]] and [s[n:]] for a non-negative index [n]. *)
Fixpoint take (n : nat) (s : string) : string :=
  match n, s with
  | S k, String c s' => String c (take k s')
  | _, _ => EmptyString
  end.

Fixpoint drop (n : nat) (s : string) : string :=
  match n, s with
  | S k, String _ s' => drop k s'
  | _, _ => s
  end.

(** [string.find(s, c, start)] for a one-character needle; [None] is -1. *)
Fixpoint find (c : ascii) (start : nat) (s : string) : option nat :=
  match s with
  | EmptyString => None
  | String a s' =>
      match start with
      | O => if Ascii.eqb a c then Some O else S <$> find c O s'
      | S k => S <$> find c k s'
      end
  end.

(** [s.rfind(c)]; [None] is -1. *)
Fixpoint rfind (c : ascii) (s : string) : option nat :=
  match s with
  | EmptyString => None
  | String a s' =>
      match rfind c s' with
      | Some i => Some (S i)
      | None => if Ascii.eqb a c then Some O else None
      end
  end.

Fixpoint lstrip (s : string) : string :=
  match s with
  | String c s' => if is_ws c then lstrip s' else s
  | EmptyString => EmptyString
  end.

Fixpoint rstrip (s : string) : string :=
  match s with
  | EmptyString => EmptyString
  | String c s' =>
      match rstrip s' with
      | EmptyString => if is_ws c then EmptyString else String c EmptyString
      | r => String c r
      end
  end.

Definition strip (s : string) : string := rstrip (lstrip s).

(** [prefix p s] is [Some rest] when [s] is [p] followed by [rest]. *)
Fixpoint prefix (p s : string) : option string :=
  match p, s with
  | EmptyString, _ => Some s
  | String a p', String b s' => if Ascii.eqb a b then prefix p' s' else None
  | String _ _, EmptyString => None
  end.

(** [needle in s] on strings. *)
Fixpoint contains (needle s : string) : bool :=
  match prefix needle s with
  | Some _ => true
  | None =>
      match s with
      | EmptyString => false
      | String _ s' => contains needle s'
      end
  end.

(** Every character of [s] satisfies [P]. *)
Fixpoint all_chars (P : ascii -> bool) (s : string) : bool :=
  match s with
  | EmptyString => true
  | String c s' => P c && all_chars P s'
  end.

(** [c in s] for one character. *)
Fixpoint mem (c : ascii) (s : string) : bool :=
  match s with
  | EmptyString => false
  | String a s' => Ascii.eqb a c || mem c s'
  end.

(** The longest prefix of digits, and what follows it. *)
Fixpoint span_digits (s : string) : string * string :=
  match s with
  | String c s' =>
      if is_digit c
      then let '(d, r) := span_digits s' in (String c d, r)
      else (EmptyString, s)
  | EmptyString => (EmptyString, EmptyString)
  end.

(** [int(s)] on a string: surrounding white space is dropped, one sign is
    allowed, at least one decimal digit is required. *)
Definition int (s : string) : result Z :=
  match strip s with
  | String "+" s' =>
      match NilZero.uint_of_string s' with
      | Some d => Ok (Z.of_uint d)
      | None => Raise ValueError
      end
  | s0 =>
      match NilZero.int_of_string s0 with
      | Some d => Ok (Z.of_int d)
      | None => Raise ValueError
      end
  end.

(** [str(z)] for an integer. *)
Definition of_Z (z : Z) : string := NilZero.string_of_int (Z.to_int z).

(** [re.split] with a pattern that is an alternation of runs [k+] of
    character classes: [sep_of c] names the class of a separator character.
    A maximal run of one class is one match; the pieces between the matches,
    empty ones included, are returned.  [inrun] is the class of the run the
    scan is inside of. *)
Section re_split.
Context {K : Type} `{EqDecision K} (sep_of : ascii -> option K).

Fixpoint re_split_runs (inrun : option K) (s : string) : list string :=
  match s with
  | EmptyString => [EmptyString]
  | String c s' =>
      match sep_of c with
      | None =>
          match re_split_runs None s' with
          | p :: ps => String c p :: ps
          | [] => [String c EmptyString]
          end
      | Some k =>
          if decide (inrun = Some k)
          then re_split_runs (Some k) s'
          else EmptyString :: re_split_runs (Some k) s'
      end
  end.
End re_split.

(** [range(a, b)] of Python 2, a list. *)
Definition range (a b : Z) : list Z :=
  (fun i : nat => a + Z.of_nat i) <$> seq 0 (Z.to_nat (b - a)).

(** [s.split(c, 1)]: one piece when [c] does not occur, else the text before
    the first [c] and everything after it. *)
Fixpoint split_once (c : ascii) (s : string) : list string :=
  match s with
  | EmptyString => [EmptyString]
  | String a s' =>
      if Ascii.eqb a c then [EmptyString; s']
      else match split_once c s' with
           | [k; v] => [String a k; v]
           | _ => [s]
           end
  end.

(** [s.replace("%", "%%")]. *)
Fixpoint escape_percent (s : string) : string :=
  match s with
  | EmptyString => EmptyString
  | String c s' =>
      if Ascii.eqb c "%" then String "%" (String "%" (escape_percent s'))
      else String c (escape_percent s')
  end.

Fixpoint repeat_char (c : ascii) (n : nat) : string :=
  match n with
  | O => EmptyString
  | S k => String c (repeat_char c k)
  end.

(** [ds] padded on the left with [c] up to [k] characters. *)
Definition pad_left (c : ascii) (k : nat) (ds : string) : string :=
  repeat_char c (k - String.length ds) +:+ ds.

(** The value of a run of decimal digits; the empty run is 0. *)
Definition nat_of_digits (ds : string) : nat :=
  match NilEmpty.uint_of_string ds with
  | Some d => N.to_nat (Pos.of_uint d)
  | None => O
  end.

(** *** The [%] operator, one integer argument

    [format fmt n] is [fmt % n] on the fragment of the conversion syntax
    made of literal text, [%%], and [%<width>.<precision>d] (also [i], [u])
    without flags.  The result is [None] where the format string leaves the
    fragment (flags, [*], mapping keys, length modifiers, the conversions
    of strings, floats, characters and other bases, a precision above 100);
    errors are raised in the order the interpreter scans the string. *)

(** [%<width>.<precision>d]: the sign, the digits padded with zeros up to
    the precision, then blanks on the left up to the width. *)
Definition format_d (width : string) (prec : option string) (n : Z) : option string :=
  let p := match prec with
           | None => 1%nat
           | Some ds => nat_of_digits ds
           end in
  if (100 <? p)%nat then None
  else if (p =? 0)%nat && (n =? 0) then None
  else
    let sign : string := if n <? 0 then "-"%string else EmptyString in
    let body := sign +:+ pad_left "0" p (of_Z (Z.abs n)) in
    Some (pad_left " " (nat_of_digits width) body).

Inductive fstate :=
| FLit
| FWidth (width : string)
| FPrec (width prec : string).

Definition unmodelled_conv (c : ascii) : bool :=
  mem c "-+ #*(hlLsrcoxXeEfFgG".

(** What a conversion does: it writes [out] and leaves the argument used or
    not, or it ends the scan with an error or outside the fragment. *)
Inductive conv_act :=
| ConvEmit (out : string) (used : bool)
| ConvStop (r : option (result string)).

(** [used] tells whether the argument was consumed by a conversion. *)
Definition conv_action (used : bool) (n : Z) (width : string) (prec : option string)
    (c : ascii) : conv_act :=
  if Ascii.eqb c "%" then
    match width, prec with
    | EmptyString, None => ConvEmit "%" used
    | _, _ => ConvStop None
    end
  else if unmodelled_conv c then ConvStop None
  else if used then ConvStop (Some (Raise TypeError))
  else if mem c "diu" then
    match format_d width prec n with
    | Some out => ConvEmit out true
    | None => ConvStop None
    end
  else ConvStop (Some (Raise ValueError)).

Definition emit (out : string) (r : option (result string)) : option (result string) :=
  match r with
  | Some (Ok s) => Some (Ok (out +:+ s))
  | _ => r
  end.

Fixpoint format_go (st : fstate) (used : bool) (n : Z) (fmt : string)
  : option (result string) :=
  match fmt with
  | EmptyString =>
      match st with
      | FLit => Some (if used then Ok EmptyString else Raise TypeError)
      | _ => Some (Raise ValueError)
      end
  | String c rest =>
      match st with
      | FLit =>
          if Ascii.eqb c "%" then format_go (FWidth EmptyString) used n rest
          else emit (String c EmptyString) (format_go FLit used n rest)
      | FWidth w =>
          if is_digit c then
            if Ascii.eqb c "0" && bool_decide (w = EmptyString) then None
            else format_go (FWidth (w +:+ String c EmptyString)) used n rest
          else if Ascii.eqb c "." then format_go (FPrec w EmptyString) used n rest
          else match conv_action used n w None c with
               | ConvEmit out used' => emit out (format_go FLit used' n rest)
               | ConvStop r => r
               end
      | FPrec w p =>
          if is_digit c then format_go (FPrec w (p +:+ String c EmptyString)) used n rest
          else match conv_action used n w (Some p) c with
               | ConvEmit out used' => emit out (format_go FLit used' n rest)
               | ConvStop r => r
               end
      end
  end.

Definition format (fmt : string) (n : Z) : option (result string) :=
  format_go FLit false n fmt.

(** [os.path.splitext] of [posixpath]: the extension starts at the last dot
    of the last path component, unless only dots precede it there. *)
Definition splitext (p : string) : string * string :=
  match rfind "." p with
  | None => (p, EmptyString)
  | Some dotIndex =>
      let filenameIndex :=
        match rfind "/" p with
        | None => O
        | Some sepIndex => S sepIndex
        end in
      if (filenameIndex <=? dotIndex)%nat
         && negb (forallb (Ascii.eqb ".")
                    (list_ascii_of_string
                       (take (dotIndex - filenameIndex) (drop filenameIndex p))))
      then (take dotIndex p, drop dotIndex p)
      else (p, EmptyString)
  end.

(** [s.split(c)] for a one-character separator: every [c] separates. *)
Fixpoint split (c : ascii) (s : string) : list string :=
  match s with
  | EmptyString => [EmptyString]
  | String a s' =>
      if Ascii.eqb a c then EmptyString :: split c s'
      else match split c s' with
           | p :: ps => String a p :: ps
           | [] => [String a EmptyString]
           end
  end.

(** [s[0]] and [s[-1]]; [None] is the IndexError of the empty string. *)
Definition first (s : string) : option ascii :=
  match s with
  | String c _ => Some c
  | EmptyString => None
  end.

Fixpoint last (s : string) : option ascii :=
  match s with
  | EmptyString => None
  | String c EmptyString => Some c
  | String _ s' => last s'
  end.

(** [s[1:-1]]. *)
Definition inner (s : string) : string :=
  drop 1 (take (String.length s - 1) s).

(** The longest prefix of characters of the class [P], and what follows
    it. *)
Fixpoint span (P : ascii -> bool) (s : string) : string * string :=
  match s with
  | String c s' =>
      if P c
      then let '(d, r) := span P s' in (String c d, r)
      else (EmptyString, s)
  | EmptyString => (EmptyString, EmptyString)
  end.

End PyStr.

(** ** python/draft/DraftParamParser.py *)

Module DraftParamParser.

Inductive frame_sep := SepSpace | SepComma.

#[global] Instance frame_sep_eq_dec : EqDecision frame_sep.
Proof. solve_decision. Defined.

(** The classes of the pattern ['\s+|,+']. *)
Definition frame_sep_of (c : ascii) : option frame_sep :=
  if PyStr.is_ws c then Some SepSpace
  else if Ascii.eqb c "," then Some SepComma
  else None.

(** The alternatives of [(x|step|by|every)], in the order the pattern tries
    them. *)
Definition step_words : list string := ["x"; "step"; "by"; "every"]%string.

(** The optional group [(?:(x|step|by|every)(\d+))?] at the head of [s]:
    the separator word and the digits of the step when the group matches. *)
Fixpoint match_step (words : list string) (s : string) : option (string * string) :=
  match words with
  | [] => None
  | w :: ws =>
      match PyStr.prefix w s with
      | Some rest =>
          match PyStr.span_digits rest with
          | (EmptyString, _) => match_step ws s
          | (ds, _) => Some (w, ds)
          end
      | None => match_step ws s
      end
  end.

(** [re.match("(-?\d+)(?:(x|step|by|every)(\d+))?", s)]: group 1, and
    groups 2 and 3 when the optional group took part in the match. *)
Definition match_end (s : string) : option (string * option (string * string)) :=
  let '(sign, s1) :=
    match s with
    | String "-" s' => ("-"%string, s')
    | _ => (EmptyString, s)
    end in
  match PyStr.span_digits s1 with
  | (EmptyString, _) => None
  | (ds, s2) => Some (sign +:+ ds, match_step step_words s2)
  end.

(** The [while (frame * dir) <= (endFrame * dir)] loop; [None] when the
    fuel runs out before the loop condition fails. *)
Fixpoint frame_loop (fuel : nat) (frame dir endFrame byFrame : Z) : option (list Z) :=
  match fuel with
  | O => None
  | S f =>
      if frame * dir <=? endFrame * dir
      then (frame ::.) <$> frame_loop f (frame + byFrame * dir) dir endFrame byFrame
      else Some []
  end.

(** The body of the [for token in frameRangeTokens] loop: the frames the
    token adds.  The handler of the [try] prints and re-raises. *)
Definition token_frames (fuel : nat) (token : string) : option (result (list Z)) :=
  if (0 <? String.length token)%nat then
    match PyStr.find "-" 1 token with
    | None =>
        Some (startFrame ← PyStr.int token; Ok [startFrame])
    | Some dashIndex =>
        match PyStr.int (PyStr.take dashIndex token) with
        | Raise e => Some (Raise e)
        | Ok startFrame =>
            match match_end (PyStr.drop (S dashIndex) token) with
            | None =>
                Some (Raise (StandardError "Second part of Token failed regex match"))
            | Some (g1, g23) =>
                match PyStr.int g1 with
                | Raise e => Some (Raise e)
                | Ok endFrame =>
                    match g23 with
                    | None => Some (Ok (PyStr.range startFrame (endFrame + 1)))
                    | Some (_, g3) =>
                        match PyStr.int g3 with
                        | Raise e => Some (Raise e)
                        | Ok byFrame =>
                            let dir := if endFrame <? startFrame then -1 else 1 in
                            Ok <$> frame_loop fuel startFrame dir endFrame byFrame
                        end
                    end
                end
            end
        end
    end
  else Some (Ok []).

Fixpoint tokens_frames (fuel : nat) (tokens : list string) (frames : list Z)
  : option (result (list Z)) :=
  match tokens with
  | [] => Some (Ok frames)
  | token :: rest =>
      match token_frames fuel token with
      | None => None
      | Some (Raise e) => Some (Raise e)
      | Some (Ok fs) => tokens_frames fuel rest (frames ++ fs)
      end
  end.

(** [frames = list(set(frames)); frames.sort()]. *)
Definition set_sorted (frames : list Z) : list Z :=
  merge_sort Z.le (elements (list_to_set frames : gset Z)).

Definition FrameRangeToFrames (fuel : nat) (frameString : string)
  : option (result (list Z)) :=
  match tokens_frames fuel (PyStr.re_split_runs frame_sep_of None frameString) [] with
  | Some (Ok frames) => Some (Ok (set_sorted frames))
  | r => r
  end.

(** *** ParseParamFile_TypeAgnostic *)

Definition nl : string := String PyStr.newline EmptyString.

(** The values [f.readline()] returns one after the other until it returns
    the empty string: the lines of the file, each with its newline. *)
Fixpoint readlines (content : string) : list string :=
  match content with
  | EmptyString => []
  | String c rest =>
      if Ascii.eqb c PyStr.newline then String c EmptyString :: readlines rest
      else match readlines rest with
           | [] => [String c EmptyString]
           | l :: ls => String c l :: ls
           end
  end.

(** [if arg[-1] == '\n': arg = arg[:-1]] on a non-empty [arg]. *)
Fixpoint chomp (arg : string) : string :=
  match arg with
  | EmptyString => EmptyString
  | String c EmptyString => if Ascii.eqb c PyStr.newline then EmptyString else arg
  | String c rest => String c (chomp rest)
  end.

(** [arg and not arg[0] == '#']. *)
Definition is_param_line (arg : string) : bool :=
  match arg with
  | EmptyString => false
  | String c _ => negb (Ascii.eqb c "#")
  end.

Definition bad_argument (arg : string) : exn :=
  StandardError ("Bad argument: " +:+ arg +:+ ".  Should be in the form 'arg=value'.").

(** One turn of the [while (arg)] loop on the line [arg] just read. *)
Definition param_step (params : gmap string string) (arg : string)
  : result (gmap string string) :=
  let arg := chomp arg in
  if is_param_line arg then
    match PyStr.split_once "=" arg with
    | [key; value] => Ok (<[key := value]> params)
    | _ => Raise (bad_argument arg)
    end
  else Ok params.

Fixpoint param_loop (params : gmap string string) (lines : list string)
  : result (gmap string string) :=
  match lines with
  | [] => Ok params
  | arg :: rest => params' ← param_step params arg; param_loop params' rest
  end.

(** [open_file paramFile] is the text of the file, [None] when [open]
    fails.  The [print] statements are not modelled. *)
Definition ParseParamFile_TypeAgnostic
    (open_file : string -> option string) (paramFile : string)
  : result (gmap string string) :=
  match open_file paramFile with
  | None => Raise IOError
  | Some content => param_loop ∅ (readlines content)
  end.

(** *** ReplaceFilenameHashesWithNumber *)

(** The only class of the pattern ['#*']; [re.split] of Python 2 never
    splits on an empty match, so the matches are the maximal runs of [#]. *)
Definition hash_sep_of (c : ascii) : option unit :=
  if Ascii.eqb c "#" then Some () else None.

(** The number of maximal runs of [#] in [s]; [in_run] tells whether the
    character before [s] is a [#]. *)
Fixpoint hash_runs (in_run : bool) (s : string) : nat :=
  match s with
  | EmptyString => O
  | String c s' =>
      if Ascii.eqb c "#"
      then ((if in_run then 0 else 1) + hash_runs true s')%nat
      else hash_runs false s'
  end.

Definition too_many_hashes : exn :=
  StandardError
    "Provided sequence must contain no more than one contiguous sequence of '#' symbols to be replaced.".

Definition ReplaceFilenameHashesWithNumber (path : string) (n : Z)
  : option (result string) :=
  let sSplit := PyStr.re_split_runs hash_sep_of None path in
  if (2 <? length sSplit)%nat then Some (Raise too_many_hashes)
  else
    let s := path in
    (* [s.replace( "%", "%%" )]: the new string is dropped, [s] is as before *)
    let _ := PyStr.escape_percent s in
    match sSplit with
    | [s0; s1] =>
        let numHashes :=
          Z.of_nat (String.length s) - Z.of_nat (String.length s0)
            - Z.of_nat (String.length s1) in
        PyStr.format
          (s0 +:+ "%" +:+ PyStr.of_Z numHashes +:+ "." +:+ PyStr.of_Z numHashes
              +:+ "d" +:+ s1) n
    | _ =>
        let s := PyStr.splitext s in
        PyStr.format (s.1 +:+ "%4.4d" +:+ s.2) n
    end.

(** *** StringTupleToStringList, StringTupleToNumList *)

Definition dquote : string := String "034"%char EmptyString.

Definition not_enclosed : exn :=
  StandardError ("Tuple must be enclosed in parentheses: "
                 +:+ dquote +:+ "( )" +:+ dquote +:+ ".").

Definition wrong_size (n : Z) : exn :=
  StandardError ("Tuple must have " +:+ PyStr.of_Z n +:+ " elements.").

Definition StringTupleToStringList (s : string) (n : Z) : result (list string) :=
  match PyStr.first s, PyStr.last s with
  | Some a, Some b =>
      if negb (Ascii.eqb a "(") || negb (Ascii.eqb b ")")
      then Raise not_enclosed
      else
        let sList := PyStr.split "," (PyStr.inner s) in
        if negb (Z.of_nat (length sList) =? n) then Raise (wrong_size n)
        else Ok sList
  | _, _ => Raise IndexError
  end.

(** An [int] or a [float]; the floats are those of the interpreter. *)
Inductive num (Float : Type) : Type :=
| NInt (z : Z)
| NFloat (x : Float).
Arguments NInt {Float} z.
Arguments NFloat {Float} x.

(** What [TypeCastArg] returns: a string, a number, or a list of such. *)
#[warnings="-register-all"] Inductive pvalue (Float : Type) : Type :=
| PStr (s : string)
| PInt (z : Z)
| PFloat (x : Float)
| PList (l : list (pvalue Float)).
Arguments PStr {Float} s.
Arguments PInt {Float} z.
Arguments PFloat {Float} x.
Arguments PList {Float} l.

Definition not_a_number (n : Z) (elt : string) : exn :=
  StandardError ("Tuple elements must be integers or floats.  Element "
                 +:+ PyStr.of_Z n +:+ " is not: " +:+ elt).

Definition not_a_tuple (arg : string) : exn :=
  StandardError ("ERROR: Expected a tuple, but found: '" +:+ arg +:+ "'").

Definition tuple_length_mismatch (expected found : nat) : exn :=
  StandardError ("ERROR: Expected a tuple of length "
                 +:+ PyStr.of_Z (Z.of_nat expected)
                 +:+ ", but found a tuple of length "
                 +:+ PyStr.of_Z (Z.of_nat found)).

Definition unknown_type (expectedType : string) : exn :=
  StandardError ("ERROR: Unknown or malformed parameter type '"
                 +:+ expectedType +:+ "'").

Definition not_found (key : string) : exn :=
  StandardError ("ERROR: Expected parameter '" +:+ key +:+ "' was not found.").

(** *** TokenizeTupleString *)

(** The scan from the character after the last comma that was split at;
    the first token of the result is the one the scan is in. *)
Fixpoint tokenize_go (stackCounter : Z) (strTuple : string) : list string :=
  let keep c tokens :=
    match tokens with
    | t :: ts => String c t :: ts
    | [] => [String c EmptyString]
    end in
  match strTuple with
  | EmptyString => [EmptyString]
  | String c rest =>
      if Ascii.eqb c "(" then keep c (tokenize_go (stackCounter + 1) rest)
      else if Ascii.eqb c ")" then keep c (tokenize_go (stackCounter - 1) rest)
      else if Ascii.eqb c "," && (stackCounter =? 0)
      then EmptyString :: tokenize_go stackCounter rest
      else keep c (tokenize_go stackCounter rest)
  end.

Definition TokenizeTupleString (strTuple : string) : list string :=
  tokenize_go 0 strTuple.

(** [s[0] == '(' and s[-1] == ')']. *)
Definition enclosed (s : string) : result bool :=
  match PyStr.first s, PyStr.last s with
  | Some a, Some b => Ok (Ascii.eqb a "(" && Ascii.eqb b ")")
  | _, _ => Raise IndexError
  end.

Section casts.
Context {Float : Type} (float : string -> option Float).

(** [float(s)] on a string. *)
Definition py_float (s : string) : result Float :=
  match float s with
  | Some x => Ok x
  | None => Raise ValueError
  end.

(** The [for i in range(0,n)] loop, on the elements from [i] on. *)
Fixpoint num_loop (n : Z) (sList : list string) : result (list (num Float)) :=
  match sList with
  | [] => Ok []
  | elt :: rest =>
      x ← match PyStr.int elt with
          | Ok z => Ok (NInt z)
          | Raise _ =>
              match float elt with
              | Some x => Ok (NFloat x)
              | None => Raise (not_a_number n elt)
              end
          end;
      xs ← num_loop n rest;
      Ok (x :: xs)
  end.

(** The first four statements are those of [StringTupleToStringList]. *)
Definition StringTupleToNumList (s : string) (n : Z) : result (list (num Float)) :=
  sList ← StringTupleToStringList s n;
  num_loop n sList.

(** *** TypeCastArg *)

(** The [for i in range(0, len(argList))] loop with the recursive call
    [cast]; the two lists have the same length. *)
Fixpoint cast_each (cast : string -> string -> option (result (pvalue Float)))
    (expectedTypeList argList : list string)
  : option (result (list (pvalue Float))) :=
  match expectedTypeList, argList with
  | ty :: tys, arg :: args =>
      match cast ty arg with
      | None => None
      | Some (Raise e) => Some (Raise e)
      | Some (Ok v) =>
          match cast_each cast tys args with
          | None => None
          | Some (Raise e) => Some (Raise e)
          | Some (Ok vs) => Some (Ok (v :: vs))
          end
      end
  | _, _ => Some (Ok [])
  end.

(** [fuel] bounds the depth of the recursion; [None] is a recursion that
    goes deeper. *)
Fixpoint TypeCastArg (fuel : nat) (expectedType arg : string)
  : option (result (pvalue Float)) :=
  match fuel with
  | O => None
  | S fuel =>
      let arg := PyStr.strip arg in
      if decide (expectedType = "<string>") then Some (Ok (PStr arg))
      else if decide (expectedType = "<int>") then Some (PInt <$> PyStr.int arg)
      else if decide (expectedType = "<float>") then Some (PFloat <$> py_float arg)
      else
        match enclosed expectedType with
        | Raise e => Some (Raise e)
        | Ok false => Some (Raise (unknown_type expectedType))
        | Ok true =>
            match enclosed arg with
            | Raise e => Some (Raise e)
            | Ok false => Some (Raise (not_a_tuple arg))
            | Ok true =>
                let expectedTypeList :=
                  TokenizeTupleString (PyStr.inner expectedType) in
                let argList := TokenizeTupleString (PyStr.inner arg) in
                if negb (length expectedTypeList =? length argList)%nat
                then Some (Raise (tuple_length_mismatch
                                    (length expectedTypeList) (length argList)))
                else
                  match cast_each (TypeCastArg fuel) expectedTypeList argList with
                  | None => None
                  | Some (Raise e) => Some (Raise e)
                  | Some (Ok list) => Some (Ok (PList list))
                  end
            end
        end
  end.

(** *** ParseParams *)

(** [TypeCastArg(expectedType, v)] on a value of the dictionary: only a
    string has [strip]. *)
Definition cast_value (fuel : nat) (expectedType : string) (v : pvalue Float)
  : option (result (pvalue Float)) :=
  match v with
  | PStr arg => TypeCastArg fuel expectedType arg
  | _ => Some (Raise AttributeError)
  end.

(** [expectedTypes] is the dictionary in the order [for key in] visits it.
    The result is the dictionary [params] as the call leaves it, and the
    exception if one was raised; without one the call returns [params]. *)
Fixpoint ParseParams (fuel : nat) (expectedTypes : list (string * string))
    (params : gmap string (pvalue Float))
  : option (gmap string (pvalue Float) * option exn) :=
  match expectedTypes with
  | [] => Some (params, None)
  | (key, expectedType) :: rest =>
      match params !! key with
      | None => Some (params, Some (not_found key))
      | Some v =>
          match cast_value fuel expectedType v with
          | None => None
          | Some (Raise e) => Some (params, Some e)
          | Some (Ok v') => ParseParams fuel rest (<[key := v']> params)
          end
      end
  end.

Definition returned {A} (outcome : A * option exn) : result A :=
  match outcome.2 with
  | None => Ok outcome.1
  | Some e => Raise e
  end.

(** *** ParseCommandLine_TypeAgnostic, ParseParamFile, ParseCommandLine *)

(** One turn of the [for i in range(1, len(argv))] loop. *)
Definition arg_step (params : gmap string string) (arg : string)
  : result (gmap string string) :=
  match PyStr.split_once "=" arg with
  | [key; value] => Ok (<[key := value]> params)
  | _ => Raise (bad_argument arg)
  end.

Fixpoint arg_loop (params : gmap string string) (args : list string)
  : result (gmap string string) :=
  match args with
  | [] => Ok params
  | arg :: rest => params' ← arg_step params arg; arg_loop params' rest
  end.

Definition ParseCommandLine_TypeAgnostic
    (open_file : string -> option string) (argv : list string)
  : result (gmap string string) :=
  params ← arg_loop ∅ (tail argv);
  match params !! "paramFile" with
  | Some paramFile => ParseParamFile_TypeAgnostic open_file paramFile
  | None => Ok params
  end.

Definition ParseParamFile (fuel : nat) (open_file : string -> option string)
    (expected : list (string * string)) (paramFile : string)
  : option (result (gmap string (pvalue Float))) :=
  match ParseParamFile_TypeAgnostic open_file paramFile with
  | Raise e => Some (Raise e)
  | Ok params => returned <$> ParseParams fuel expected (PStr <$> params)
  end.

(** [del params['paramFile']] changes a dictionary that is not used
    again. *)
Definition ParseCommandLine (fuel : nat) (open_file : string -> option string)
    (expected : list (string * string)) (argv : list string)
  : option (result (gmap string (pvalue Float))) :=
  match ParseCommandLine_TypeAgnostic open_file argv with
  | Raise e => Some (Raise e)
  | Ok params =>
      match params !! "paramFile" with
      | Some paramFile => ParseParamFile fuel open_file expected paramFile
      | None => returned <$> ParseParams fuel expected (PStr <$> params)
      end
  end.

End casts.

(** *** SplitDataType *)

(** The class [[a-z]] under [re.I]. *)
Definition is_letter (c : ascii) : bool :=
  let n := nat_of_ascii c in
  ((65 <=? n) && (n <=? 90) || (97 <=? n) && (n <=? 122))%nat.

Definition invalid_data_type (dataTypeString : string) : exn :=
  StandardError ("Error: Invalid data type: " +:+ dataTypeString
                 +:+ ". A valid data type is made of a strictly positive number followed by an optional group of letters.").

(** [re.match] with the pattern of a group of one or more [[0-9]], a group
    of any number of [[a-z]] and [$], under [re.I]: the two classes are
    disjoint, so the groups are the longest runs; [$] is the end of the
    string or the place before a newline that ends it. *)
Definition SplitDataType (dataTypeString : string) : result (string * string) :=
  let '(number, rest) := PyStr.span_digits dataTypeString in
  let '(letters, rest) := PyStr.span is_letter rest in
  let m := negb (bool_decide (number = EmptyString))
           && (bool_decide (rest = EmptyString) || bool_decide (rest = nl)) in
  if negb m || bool_decide (number = "0")
  then Raise (invalid_data_type dataTypeString)
  else Ok (number, letters).

(** *** GetDeadlineJobProperties *)

(** An element of [xml.etree.ElementTree]: its tag, its text, which may be
    [None], and its sub elements. *)
#[warnings="-register-all"] Inductive Element : Type :=
| Elem (tag : string) (text : option string) (children : list Element).

Definition tag (e : Element) : string := let 'Elem t _ _ := e in t.
Definition text (e : Element) : option string := let 'Elem _ x _ := e in x.
Definition children (e : Element) : list Element := let 'Elem _ _ c := e in c.

(** [e.findtext(path, default)] for a path that is a tag: the text of the
    first sub element with the tag, the empty string when that has no
    text; [None] is the default. *)
Definition findtext (e : Element) (path : string) : option string :=
  match filter (fun c => tag c = path) (children e) with
  | c :: _ => Some (default EmptyString (text c))
  | [] => None
  end.

(** The value of a job property: the text of an element, the list of the
    texts of its sub elements, or the dictionary of the extra info. *)
Inductive job_prop : Type :=
| JText (t : option string)
| JList (l : list (option string))
| JDict (d : gmap string string).

(** [os.path.join(path, *p)] of [posixpath]. *)
Definition posix_join (path : string) (p : list string) : string :=
  foldl (fun path b =>
           if bool_decide (PyStr.first b = Some "/"%char) then b
           else if bool_decide (path = EmptyString)
                   || bool_decide (PyStr.last path = Some "/"%char)
           then path +:+ b
           else path +:+ "/" +:+ b) path p.

(** The [for child in element] loop of the extra info. *)
Definition extra_info (element : Element) : gmap string string :=
  foldl (fun propDict child =>
           let key := findtext child "Key" in
           let value := default EmptyString (findtext child "Value") in
           match key with
           | Some key => <[key := value]> propDict
           | None => propDict
           end) ∅ (children element).

(** The body of the [for element in root] loop: the value stored under
    the tag of [element]. *)
Definition element_prop (element : Element) : job_prop :=
  if bool_decide (0 < length (children element))%nat then
    if bool_decide (tag element = "ExtraInfoKeyValues"%string)
    then JDict (extra_info element)
    else JList (text <$> children element)
  else JText (text element).

Definition job_props (root : Element) : gmap string job_prop :=
  foldl (fun jobProps element => <[tag element := element_prop element]> jobProps)
    ∅ (children root).

(** The file system and the parser are those of the caller: [normpath] is
    [os.path.normpath], [isfile] is [os.path.isfile], [read] opens the file
    and reads it, [fromstring] is [ElemTree.fromstring].  The [print]
    statement is not modelled. *)
Definition GetDeadlineJobProperties (normpath : string -> string)
    (isfile : string -> bool) (read : string -> result string)
    (fromstring : string -> result Element) (repoPath jobID : string)
  : result (gmap string job_prop) :=
  let repoPath := normpath repoPath in
  let jobFileName := posix_join repoPath ["jobs"%string; jobID; jobID +:+ ".job"] in
  if negb (isfile jobFileName) then Ok ∅
  else
    strData ← read jobFileName;
    root ← fromstring strData;
    Ok (job_props root).

End DraftParamParser.


(** ** python/draft/DraftASCCDLReader.py *)

Module DraftASCCDLReader.

(** A component of a split node value: still the text read from the file,
    or already the float it was converted to. *)
Inductive comp (F : Type) : Type :=
| CStr (s : string)
| CFloat (f : F).
Arguments CStr {F} s.
Arguments CFloat {F} f.

(** What the reader uses of [xml.dom.minidom], of [float] and of [Draft]. *)
Class Draft := {
  Doc : Type;
  Elem : Type;
  Node : Type;
  Float : Type;
  LUT : Type;
  minidom_parse : string -> result Doc;
  getElementsByTagName : Doc -> string -> list Elem;
  firstChild : Elem -> option Node;
  nodeValue : Node -> option string;
  float : string -> result Float;
  CreateASCCDL :
    list (comp Float) -> list (comp Float) -> list (comp Float) -> Float -> result LUT
}.

(** What the function wrote with [print]. *)
Inductive printed :=
| Warning (msg : string) (e : exn).

Definition warning_text : string :=
  "WARNING:  unable to process requested ASC CDL file, continuing without one.  Error message: ".

Section reader.
Context `{Draft}.

(** [cdl.getElementsByTagName( tag )[0].firstChild.nodeValue.split()]. *)
Definition first_components (cdl : Doc) (tag : string) : result (list (comp Float)) :=
  match getElementsByTagName cdl tag with
  | [] => Raise IndexError
  | e :: _ =>
      match firstChild e with
      | None => Raise AttributeError
      | Some n =>
          match nodeValue n with
          | None => Raise AttributeError
          | Some v => Ok (CStr <$> String.words v)
          end
      end
  end.

(** [l[i] = float( l[i] )]. *)
Definition float_at (i : nat) (l : list (comp Float)) : result (list (comp Float)) :=
  match l !! i with
  | None => Raise IndexError
  | Some (CStr s) => f ← float s; Ok (<[i := CFloat f]> l)
  | Some (CFloat _) => Ok l
  end.

(** The body of [for i in range( 0,3 )], for the indices left. *)
Fixpoint convert_loop (indices : list nat) (slope offset power : list (comp Float))
  : result (list (comp Float) * list (comp Float) * list (comp Float)) :=
  match indices with
  | [] => Ok (slope, offset, power)
  | i :: rest =>
      slope ← float_at i slope;
      offset ← float_at i offset;
      power ← float_at i power;
      convert_loop rest slope offset power
  end.

(** The block under [try]. *)
Definition try_block (filename : string) : result LUT :=
  cdl ← minidom_parse filename;
  slope ← first_components cdl "Slope";
  offset ← first_components cdl "Offset";
  power ← first_components cdl "Power";
  saturation ← first_components cdl "Saturation";
  '(slope, offset, power) ← convert_loop [0; 1; 2]%nat slope offset power;
  saturation ← match saturation with
               | [] => Raise IndexError
               | CStr s :: _ => float s
               | CFloat f :: _ => Ok f
               end;
  CreateASCCDL slope offset power saturation.

(** The result, [None] being Python's, and what was printed.  A call that
    leaves [raiseExceptionOnError] out passes [true]. *)
Definition ReadASCCDL (filename : string) (raiseExceptionOnError : bool)
  : result (option LUT) * list printed :=
  match try_block filename with
  | Ok asccdllut => (Ok (Some asccdllut), [])
  | Raise e =>
      if raiseExceptionOnError then (Raise e, [])
      else (Ok None, [Warning warning_text e])
  end.

End reader.

End DraftASCCDLReader.

(** ** app.py *)

Module App.

(** The module [tk_multi_publish2] as [import_module] returns it: the class
    and the two modules it exports, by name. *)
Record publish2_module := {
  PublishManager : string;
  util : string;
  base_hooks : string
}.

(** [lambda: tk_multi_publish2.show_dialog(self)]. *)
Inductive callback :=
| ShowDialog (m : publish2_module).

(** The application object, the commands the engine was asked to register,
    and the heap of instances, an instance being the name of its class. *)
Record world := {
  log : list string;
  _manager_class : option string;
  _util : option string;
  _base_hooks : option string;
  engine_commands : list (string * callback);
  heap : list string
}.

Definition init_app (import_module : string -> result publish2_module) (w : world)
  : result world :=
  let w := {| log := log w ++ ["Initializing tk-multi-r8spublish"%string];
              _manager_class := _manager_class w;
              _util := _util w;
              _base_hooks := _base_hooks w;
              engine_commands := engine_commands w;
              heap := heap w |} in
  tk_multi_publish2 ← import_module "tk_multi_publish2"%string;
  let cb := ShowDialog tk_multi_publish2 in
  let menu_caption := "R8S Publish"%string in
  Ok {| log := log w;
        _manager_class := Some (PublishManager tk_multi_publish2);
        _util := Some (util tk_multi_publish2);
        _base_hooks := Some (base_hooks tk_multi_publish2);
        engine_commands := engine_commands w ++ [(menu_caption, cb)];
        heap := heap w |}.

(** [return self._manager_class()]: the address of the new instance. *)
Definition create_publish_manager (w : world) : result (nat * world) :=
  match _manager_class w with
  | None => Raise AttributeError
  | Some cls =>
      Ok (length (heap w),
          {| log := log w;
             _manager_class := _manager_class w;
             _util := _util w;
             _base_hooks := _base_hooks w;
             engine_commands := engine_commands w;
             heap := heap w ++ [cls] |})
  end.

End App.

(** ** hooks/publish_file.py *)

Module PublishFile.

(** The Python values that flow through the hook: item properties, the
    values of entities and of template fields, the values of settings.  A
    template object is known by the name the configuration gives it. *)
Inductive pyval :=
| VNone
| VInt (z : Z)
| VStr (s : string)
| VTemplate (name : string)
| VStrs (l : list string).

#[global] Instance pyval_eq_dec : EqDecision pyval.
Proof. solve_decision. Defined.

(** [bool(v)]. *)
Definition truthy (v : pyval) : bool :=
  match v with
  | VNone => false
  | VInt z => negb (z =? 0)
  | VStr s => negb (bool_decide (s = EmptyString))
  | VTemplate _ => true
  | VStrs l => negb (bool_decide (l = []))
  end.

(** [int(v)]. *)
Definition py_int (v : pyval) : result Z :=
  match v with
  | VInt z => Ok z
  | VStr s => PyStr.int s
  | _ => Raise TypeError
  end.

(** [needle in v] for a string [needle]. *)
Definition py_in (needle : string) (v : pyval) : result bool :=
  match v with
  | VStr s => Ok (PyStr.contains needle s)
  | VStrs l => Ok (bool_decide (needle ∈ l))
  | _ => Raise TypeError
  end.

Definition lower_char (c : ascii) : ascii :=
  let n := nat_of_ascii c in
  if ((65 <=? n) && (n <=? 90))%nat then ascii_of_nat (n + 32) else c.

Definition upper_char (c : ascii) : ascii :=
  let n := nat_of_ascii c in
  if ((97 <=? n) && (n <=? 122))%nat then ascii_of_nat (n - 32) else c.

Fixpoint lower (s : string) : string :=
  match s with
  | EmptyString => EmptyString
  | String c s' => String (lower_char c) (lower s')
  end.

Definition capitalize (s : string) : string :=
  match s with
  | EmptyString => EmptyString
  | String c s' => String (upper_char c) (lower s')
  end.

(** [s.lstrip(".")]. *)
Fixpoint lstrip_dots (s : string) : string :=
  match s with
  | String c s' => if Ascii.eqb c "." then lstrip_dots s' else s
  | EmptyString => EmptyString
  end.

(** [item.context]. *)
Record Context := {
  project : option (gmap string pyval);
  entity : option (gmap string pyval);
  step : option (gmap string pyval);
  task : option (gmap string pyval)
}.

Record Item := {
  properties : gmap string pyval;
  local_properties : gmap string pyval;
  context : Context
}.

(** [not item.context.entity]: [None] and the empty dictionary are false. *)
Definition entity_truthy (e : option (gmap string pyval)) : bool :=
  match e with
  | None => false
  | Some d => negb (bool_decide (d = ∅))
  end.

(** The settings the plugin declares; a field is [None] when the key is
    not in the dictionary, else the [value] of the [Setting]. *)
Record Settings := {
  File_Types : option (list (list string));
  Export_Name : option pyval;
  Publish_Version : option pyval
}.

(** The host toolkit, as far as the hook calls it. *)
Class Toolkit := {
  (* [item.get_property(name)] *)
  get_property : Item -> string -> pyval;
  (* [template.validate(path)], [.get_fields(path)], [.apply_fields(fields)] *)
  template_validate : string -> pyval -> bool;
  template_get_fields : string -> pyval -> gmap string pyval;
  template_apply_fields : string -> gmap string pyval -> result string;
  (* the names in [publisher.sgtk.templates] *)
  templates : gset string;
  (* [publisher.tank.context_from_path(path).entity] *)
  context_from_path_entity : pyval -> option (gmap string pyval);
  (* [context.as_template_fields(template)] *)
  as_template_fields : Context -> string -> gmap string pyval;
  (* [publisher.util.get_file_path_components(path)["extension"]] *)
  path_extension : pyval -> option string;
  (* [publisher.util.get_publish_name(path, sequence=...)] *)
  get_publish_name : pyval -> bool -> string;
  (* [publisher.util.get_conflicting_publishes(context, path, name, ...)] *)
  get_conflicting_publishes : Context -> pyval -> string -> list (gmap string pyval);
  (* [publisher.util.get_version_number(path)] *)
  get_version_number : pyval -> option Z;
  (* [publisher.util.get_next_version_path(path)] *)
  get_next_version_path : pyval -> option string
}.

Inductive level := Debug | Info | Warn | Error.

(** What a method call changes: the values of the settings, and the log.
    A log entry keeps the level and the text before interpolation. *)
Record state := {
  settings : Settings;
  logger : list (level * string)
}.

(** A method of the hook: the result, or the exception, and the state. *)
Definition hook (A : Type) : Type := state -> result A * state.

#[global] Instance hook_ret : MRet hook := fun A a st => (Ok a, st).
#[global] Instance hook_bind : MBind hook := fun A B f m st =>
  match m st with
  | (Ok a, st') => f a st'
  | (Raise e, st') => (Raise e, st')
  end.

Definition raise {A} (e : exn) : hook A := fun st => (Raise e, st).

Definition lift {A} (r : result A) : hook A := fun st => (r, st).

Definition log (l : level) (msg : string) : hook unit := fun st =>
  (Ok (), {| settings := settings st; logger := logger st ++ [(l, msg)] |}).

Definition get_settings : hook Settings := fun st => (Ok (settings st), st).

(** [settings.get('Publish Version').value = v]. *)
Definition set_publish_version (v : pyval) : hook unit := fun st =>
  match Publish_Version (settings st) with
  | None => (Raise AttributeError, st)
  | Some _ =>
      (Ok (), {| settings := {| File_Types := File_Types (settings st);
                                Export_Name := Export_Name (settings st);
                                Publish_Version := Some v |};
                 logger := logger st |})
  end.

(** [settings.get('Export Name').value = v]. *)
Definition set_export_name (v : pyval) : hook unit := fun st =>
  match Export_Name (settings st) with
  | None => (Raise AttributeError, st)
  | Some _ =>
      (Ok (), {| settings := {| File_Types := File_Types (settings st);
                                Export_Name := Some v;
                                Publish_Version := Publish_Version (settings st) |};
                 logger := logger st |})
  end.

(** [item.properties.path]: attribute access, an error when the key is
    absent. *)
Definition properties_attr (item : Item) (name : string) : result pyval :=
  match properties item !! name with
  | Some v => Ok v
  | None => Raise AttributeError
  end.

(** [item.properties.get(name)]. *)
Definition properties_get (item : Item) (name : string) : pyval :=
  default VNone (properties item !! name).

Section plugin.
Context `{Toolkit}.

(** [t.validate(path)] on a value that may not be a template. *)
Definition validate_path (t : pyval) (path : pyval) : result bool :=
  match t with
  | VTemplate name => Ok (template_validate name path)
  | _ => Raise AttributeError
  end.

Definition get_fields (t : pyval) (path : pyval) : result (gmap string pyval) :=
  match t with
  | VTemplate name => Ok (template_get_fields name path)
  | _ => Raise AttributeError
  end.

Definition apply_fields (t : pyval) (fields : gmap string pyval) : result string :=
  match t with
  | VTemplate name => template_apply_fields name fields
  | _ => Raise AttributeError
  end.

Definition get_publish_template (item : Item) : pyval :=
  get_property item "publish_template".

(** The [for type_def in settings["File Types"].value] loop;
    [publish_engine] is the variable the loop overwrites. *)
Fixpoint file_types_loop (extension : string) (type_defs : list (list string))
    (publish_engine : string) : result (option (string * string) * string) :=
  match type_defs with
  | [] => Ok (None, publish_engine)
  | type_def :: rest =>
      match type_def with
      | publish_type :: publish_engine' :: file_extensions =>
          if bool_decide (extension ∈ file_extensions)
          then Ok (Some (publish_type, publish_engine'), publish_engine')
          else file_types_loop extension rest publish_engine'
      | _ => Raise IndexError
      end
  end.

Definition get_publish_type (s : Settings) (item : Item) : result (pyval * string) :=
  let publish_type := get_property item "publish_type" in
  let publish_engine := "elements"%string in
  if truthy publish_type then Ok (publish_type, publish_engine)
  else
    path ← properties_attr item "path";
    (* [None] and the empty string are both false, and used nowhere else *)
    let extension := default EmptyString (path_extension path) in
    '(found, extension, publish_engine) ←
      (if negb (bool_decide (extension = EmptyString)) then
         let extension := lower (lstrip_dots extension) in
         match File_Types s with
         | None => Raise KeyError
         | Some type_defs =>
             '(found, publish_engine) ←
               file_types_loop extension type_defs publish_engine;
             Ok (found, extension, publish_engine)
         end
       else Ok (None, extension, publish_engine));
    match found with
    | Some (publish_type, publish_engine) => Ok (VStr publish_type, publish_engine)
    | None =>
        if negb (bool_decide (extension = EmptyString))
        then Ok (VStr (capitalize extension +:+ " File"), publish_engine)
        else Ok (VStr "Texture Folder", publish_engine)
    end.

(** [bool(work_fields)]: [None] and the empty dictionary are false. *)
Definition fields_truthy (work_fields : option (gmap string pyval)) : bool :=
  match work_fields with
  | None => false
  | Some fields => negb (bool_decide (fields = ∅))
  end.

(** The fields of [path] when the item has a work template that validates
    it, else [None]:
    [if work_template: if work_template.validate(path): work_fields = ...]. *)
Definition work_fields_of (item : Item) (path : pyval) (note : hook unit)
  : hook (option (gmap string pyval)) :=
  let work_template := properties_get item "work_template" in
  if truthy work_template then
    valid ← lift (validate_path work_template path);
    if (valid : bool) then
      _ ← note;
      fields ← lift (get_fields work_template path);
      mret (Some fields)
    else mret None
  else mret None.

Definition get_publish_version (item : Item) : hook pyval :=
  let publish_version := get_property item "publish_version" in
  if truthy publish_version then mret publish_version
  else
    path ← lift (properties_attr item "path");
    work_fields ←
      work_fields_of item path
        (log Debug "Work file template configured and matches file.");
    if fields_truthy work_fields then
      match default ∅ work_fields !! "version" with
      | Some version =>
          _ ← log Debug "Retrieved version number via work file template.";
          mret version
      | None => mret VNone
      end
    else
      _ ← log Debug "Using path info hook to determine publish version.";
      mret (VInt (default 1 (get_version_number path))).

(** [x + 1] for the value of a field. *)
Definition py_succ (v : pyval) : result pyval :=
  match v with
  | VInt z => Ok (VInt (z + 1))
  | _ => Raise TypeError
  end.

Definition of_option_str (o : option string) : pyval :=
  match o with
  | Some s => VStr s
  | None => VNone
  end.

(** [(next_version_path, version)]. *)
Definition _get_next_version_info (path : pyval) (item : Item) : hook (pyval * pyval) :=
  if negb (truthy path) then
    _ ← log Debug "Path is None. Can not determine version info.";
    mret (VNone, VNone)
  else
    work_fields ← work_fields_of item path (mret ());
    match (if fields_truthy work_fields then default ∅ work_fields !! "version"
           else None) with
    | Some version =>
        (* [work_fields["version"] += 1] updates the dictionary in place *)
        version ← lift (py_succ version);
        let work_fields := <["version" := version]> (default ∅ work_fields) in
        next_version_path ←
          lift (apply_fields (properties_get item "work_template") work_fields);
        mret (VStr next_version_path, version)
    | None =>
        let next_version_path := get_next_version_path path in
        let cur_version := get_version_number path in
        mret (of_option_str next_version_path,
              match cur_version with
              | Some v => VInt (v + 1)
              | None => VNone
              end)
    end.

(** [(publish_name, publish_path)]. *)
Definition _get_publish_path (item : Item) : hook (string * pyval) :=
  s ← get_settings;
  let path := properties_get item "path" in
  let path_entity := context_from_path_entity path in
  publish_type ← lift (get_publish_type s item);
  is_images ← lift (py_in "images" (VStr publish_type.2));
  is_folder ← (if (is_images : bool) then mret false
               else lift (py_in "Texture Folder" publish_type.1));
  let isSequence :=
    if (is_images : bool) then ("sequence"%string, true)
    else if (is_folder : bool) then ("texturefolder"%string, false)
    else ("scene"%string, false) in
  entity_type ← match entity (context item) with
                | None => raise AttributeError
                | Some e => mret (default VNone (e !! "type"))
                end;
  publish_path ←
    (if bool_decide (path_entity = entity (context item)) then
       _ ← log Info
             "@@@ R8S Custom @@@ This files already in right place, no need to copying.";
       mret path
     else
       entity_type ← match entity_type with
                     | VStr t => mret (lower t)
                     | _ => raise AttributeError
                     end;
       let name := entity_type +:+ "_standalone_" +:+ isSequence.1 +:+ "_location" in
       standalone_template ←
         (if bool_decide (name ∈ templates) then mret (VTemplate name)
          else raise KeyError);
       let fields := as_template_fields (context item) name in
       is_folder ← lift (py_in "Texture Folder" publish_type.1);
       let fields :=
         if (is_folder : bool) then fields
         else <["extension" := of_option_str (path_extension path)]> fields in
       export_name ← match Export_Name s with
                     | Some v => mret v
                     | None => raise AttributeError
                     end;
       let fields := <["name" := export_name]> fields in
       let fields := <["sna_engine" := VStr publish_type.2]> fields in
       version ← match Publish_Version s with
                 | Some v => lift (py_int v)
                 | None => raise AttributeError
                 end;
       let fields := <["version" := VInt version]> fields in
       publish_path ← lift (apply_fields standalone_template fields);
       mret (VStr publish_path));
  let publish_name := get_publish_name publish_path isSequence.2 in
  mret (publish_name, publish_path).

Definition link_error : string :=
  "You Need to Link Publish element to Shot or Asset".

Definition conflict_error : string :=
  "Can not validate file path. There is already a publish in Shotgun that matches this path. Please uncheck this plugin or save the file to a different path.".

Definition validate (item : Item) : hook bool :=
  let path := properties_get item "path" in
  publish_info ← _get_publish_path item;
  let publish_name := publish_info.1 in
  let publish_path := publish_info.2 in
  _ ← log Debug "!!!!!!!!!!!!!!!!!!!!!!!: %s";
  let publishes :=
    get_conflicting_publishes (context item) publish_path publish_name in
  _ ← (if negb (entity_truthy (entity (context item))) then
         _ ← log Error link_error;
         raise (PyException link_error)
       else mret ());
  _ ← (if negb (bool_decide (publishes = [])) then
         _ ← log Debug "Conflicting publishes: %s";
         let publish_template := get_publish_template item in
         if bool_decide (is_Some (properties item !! "work_template"))
            || truthy publish_template
         then
           _ ← log Error conflict_error;
           raise (PyException conflict_error)
         else
           log Warn "Found %s conflicting publishes in Shotgun"
       else mret ());
  _ ← log Info "A Publish will be created in Shotgun and linked to:";
  _ ← log Info "  %s";
  mret true.

Definition accept (item : Item) : hook (gmap string bool) :=
  path ← lift (properties_attr item "path");
  let tex_variation := properties_get item "tex_variation" in
  publish_version ← get_publish_version item;
  _ ← set_publish_version publish_version;
  _ ← (if truthy tex_variation then set_export_name tex_variation else mret ());
  _ ← log Info "File publisher plugin accepted: %s";
  mret {["accepted" := true]}.

End plugin.

Section versions.
Context `{Toolkit}.

(** [os.path.exists(p)]: a string is looked up on the disk, which is
    [path_exists]; another value is refused. *)
Definition os_path_exists (path_exists : string -> bool) (p : pyval) : result bool :=
  match p with
  | VStr s => Ok (path_exists s)
  | _ => Raise TypeError
  end.

(** [save_callback] is the callback of the caller; what it does to the
    settings and the log is its own. *)
Definition _save_to_next_version (path_exists : string -> bool)
    (save_callback : pyval -> hook unit) (path : pyval) (item : Item) : hook pyval :=
  info ← _get_next_version_info path item;
  let next_version_path := info.1 in
  let version := info.2 in
  if bool_decide (version = VNone) then
    _ ← log Debug
          "No version number detected in the publish path. Skipping the bump file version step.";
    mret VNone
  else
    _ ← log Info "Incrementing file version number...";
    if negb (truthy next_version_path) then
      _ ← log Warn "Could not determine the next version path.";
      mret VNone
    else
      found ← lift (os_path_exists path_exists next_version_path);
      if (found : bool) then
        _ ← log Warn "The next version of the path already exists";
        mret VNone
      else
        _ ← save_callback next_version_path;
        _ ← log Info "File saved as: %s";
        mret next_version_path.

End versions.

End PublishFile.

(** ** Vocabulary of the statements, and the inputs of the examples *)

Definition not_ws (c : ascii) : bool := negb (PyStr.is_ws c).

Definition not_percent (c : ascii) : bool := negb (Ascii.eqb c "%").

Definition not_hash (c : ascii) : bool := negb (Ascii.eqb c "#").

Definition no_frame_sep (c : ascii) : bool :=
  bool_decide (DraftParamParser.frame_sep_of c = None).

Definition hash_run_state (in_run : bool) : option unit :=
  if in_run then Some () else None.

(** The line [l] assigns [value] to [key]: it is not skipped, and [key] is
    its text before the first [=]. *)
Definition assigns (l key value : string) : Prop :=
  DraftParamParser.is_param_line l = true
  /\ PyStr.mem "=" key = false
  /\ l = key +:+ "=" +:+ value.

(** [n] with its digits padded with zeros up to [k], the sign first. *)
Definition zero_padded (k : nat) (n : Z) : string :=
  (if n <? 0 then "-"%string else EmptyString)
    +:+ PyStr.pad_left "0" k (PyStr.of_Z (Z.abs n)).

Definition param_file_good : string :=
  "a=1" +:+ DraftParamParser.nl +:+ "#c" +:+ DraftParamParser.nl
    +:+ DraftParamParser.nl +:+ "b=2=3" +:+ DraftParamParser.nl +:+ "a=9".

Definition param_file_bad : string :=
  "a=1" +:+ DraftParamParser.nl +:+ "bad" +:+ DraftParamParser.nl +:+ "c=3".

(** The text of the first element named [tag], when it has one. *)
Definition element_text `{DraftASCCDLReader.Draft} (cdl : DraftASCCDLReader.Doc)
    (tag : string) : option string :=
  match DraftASCCDLReader.getElementsByTagName cdl tag with
  | [] => None
  | e :: _ =>
      n ← DraftASCCDLReader.firstChild e; DraftASCCDLReader.nodeValue n
  end.

(** The first three words of [v] are the numerals of [f0], [f1] and [f2],
    and [rest] are the words after them. *)
Definition three_floats `{DraftASCCDLReader.Draft} (v : string)
    (f0 f1 f2 : DraftASCCDLReader.Float) (rest : list string) : Prop :=
  exists s0 s1 s2,
    String.words v = s0 :: s1 :: s2 :: rest
    /\ DraftASCCDLReader.float s0 = Ok f0
    /\ DraftASCCDLReader.float s1 = Ok f1
    /\ DraftASCCDLReader.float s2 = Ok f2.

(** A document is the list of its elements, tag and text; numbers are
    integers; a LUT is the arguments it was created from. *)
Definition test_draft : DraftASCCDLReader.Draft := {|
  DraftASCCDLReader.Doc := list (string * option string);
  DraftASCCDLReader.Elem := option string;
  DraftASCCDLReader.Node := string;
  DraftASCCDLReader.Float := Z;
  DraftASCCDLReader.LUT :=
    list (DraftASCCDLReader.comp Z) * list (DraftASCCDLReader.comp Z)
      * list (DraftASCCDLReader.comp Z) * Z;
  DraftASCCDLReader.minidom_parse filename :=
    if bool_decide (filename = "grade.cdl"%string)
    then Ok [("Slope", Some "1 2 3"); ("Offset", Some "0 0 0 9");
             ("Power", Some "1 1 1"); ("Saturation", Some "1")]%string
    else if bool_decide (filename = "empty.cdl"%string) then Ok []
    else Raise IOError;
  DraftASCCDLReader.getElementsByTagName cdl tag :=
    snd <$> filter (fun e => e.1 = tag) cdl;
  DraftASCCDLReader.firstChild e := e;
  DraftASCCDLReader.nodeValue n := Some n;
  DraftASCCDLReader.float := PyStr.int;
  DraftASCCDLReader.CreateASCCDL slope offset power saturation :=
    Ok (slope, offset, power, saturation)
|}.

Definition test_import (name : string) : result App.publish2_module :=
  if bool_decide (name = "tk_multi_publish2"%string)
  then Ok {| App.PublishManager := "tk_multi_publish2.PublishManager";
             App.util := "tk_multi_publish2.util";
             App.base_hooks := "tk_multi_publish2.base_hooks" |}
  else Raise (HostError "no such module").

Definition test_world : App.world :=
  {| App.log := []; App._manager_class := None; App._util := None;
     App._base_hooks := None; App.engine_commands := []; App.heap := [] |}.

(** The fields of [path] under the work template of [item], when the item
    has one that validates [path]. *)
Definition extracted_fields `{PublishFile.Toolkit} (item : PublishFile.Item)
    (path : PublishFile.pyval) : option (gmap string PublishFile.pyval) :=
  match PublishFile.properties_get item "work_template" with
  | PublishFile.VTemplate name =>
      if PublishFile.template_validate name path
      then Some (PublishFile.template_get_fields name path)
      else None
  | _ => None
  end.

Definition fallback_note : PublishFile.level * string :=
  (PublishFile.Debug, "Using path info hook to determine publish version."%string).

(** The entries [st'] has after those of [st]. *)
Definition new_entries (st st' : PublishFile.state) : list (PublishFile.level * string) :=
  drop (length (PublishFile.logger st)) (PublishFile.logger st').

(** The default values of the settings the plugin declares. *)
Definition default_settings : PublishFile.Settings :=
  {| PublishFile.File_Types :=
       Some [["Alembic Cache"; "elements"; "abc"];
             ["3dsmax Scene"; "3dsmax"; "max"];
             ["NukeStudio Project"; "nukestudio"; "hrox"];
             ["Houdini Scene"; "houdini"; "hip"; "hipnc"];
             ["Maya Scene"; "maya"; "ma"; "mb"];
             ["Cinema Project File"; "cinema"; "c4d"];
             ["Premier Project"; "premier"; "prproj"];
             ["Fusion Composition"; "fusion"; "comp"];
             ["Motion Builder FBX"; "elements"; "fbx"];
             ["Nuke Script"; "nuke"; "nk"];
             ["Photoshop Image"; "photoshop"; "psd"; "psb"];
             ["Rendered Image"; "images"; "dpx"; "exr"];
             ["Texture"; "elements"; "tiff"; "tx"; "tga"; "dds"];
             ["Image"; "images"; "jpeg"; "jpg"; "png"];
             ["Movie"; "elements"; "mov"; "mp4"];
             ["PDF"; "pdf"];
             ["OpenVDB Cache"; "vdb"]]%string;
     PublishFile.Export_Name := Some (PublishFile.VStr "standalone");
     PublishFile.Publish_Version := Some (PublishFile.VInt 1) |}.

Definition test_state : PublishFile.state :=
  {| PublishFile.settings := default_settings; PublishFile.logger := [] |}.

(** A toolkit for the examples.  Work templates validate the paths under
    [/work/]; [work_versioned] extracts a name and version 3, [work_named]
    a name only, any other template no field.  One location template is
    configured, for shots; the paths under [/shots/] belong to a shot; one
    path has a conflicting publish.  The path-info hook is a parameter. *)
Definition test_toolkit_with (version_number : PublishFile.pyval -> option Z)
    (next_version_path : PublishFile.pyval -> option string) : PublishFile.Toolkit :=
  {| PublishFile.get_property item name :=
       let v := default PublishFile.VNone (PublishFile.local_properties item !! name) in
       if PublishFile.truthy v then v
       else default PublishFile.VNone (PublishFile.properties item !! name);
     PublishFile.template_validate name path :=
       match path with
       | PublishFile.VStr s => bool_decide (is_Some (PyStr.prefix "/work/" s))
       | _ => false
       end;
     PublishFile.template_get_fields name path :=
       if bool_decide (name = "work_versioned"%string)
       then {[ "name"%string := PublishFile.VStr "shot";
               "version"%string := PublishFile.VInt 3 ]}
       else if bool_decide (name = "work_named"%string)
       then {[ "name"%string := PublishFile.VStr "shot" ]}
       else ∅;
     PublishFile.template_apply_fields name fields :=
       match fields !! "version"%string with
       | Some (PublishFile.VInt v) =>
           Ok ("/" +:+ name +:+ "/shot.v" +:+ PyStr.of_Z v +:+ ".ma")
       | _ => Raise (HostError "missing keys")
       end;
     PublishFile.templates := {[ "shot_standalone_scene_location"%string ]};
     PublishFile.context_from_path_entity path :=
       match path with
       | PublishFile.VStr s =>
           if bool_decide (is_Some (PyStr.prefix "/shots/" s))
           then Some {[ "type"%string := PublishFile.VStr "Shot" ]}
           else None
       | _ => None
       end;
     PublishFile.as_template_fields ctx name := ∅;
     PublishFile.path_extension path :=
       match path with
       | PublishFile.VStr s => Some (PyStr.drop 1 (PyStr.splitext s).2)
       | _ => None
       end;
     PublishFile.get_publish_name path sequence := "shot.ma"%string;
     PublishFile.get_conflicting_publishes ctx path name :=
       if bool_decide (path = PublishFile.VStr "/shots/published.ma")
       then [ {[ "id"%string := PublishFile.VInt 7 ]} ]
       else [];
     PublishFile.get_version_number := version_number;
     PublishFile.get_next_version_path := next_version_path |}.

Definition test_toolkit : PublishFile.Toolkit :=
  test_toolkit_with (fun _ => None) (fun _ => None).

Definition test_context (entity : option (gmap string PublishFile.pyval))
  : PublishFile.Context :=
  {| PublishFile.project := Some {[ "type"%string := PublishFile.VStr "Project" ]};
     PublishFile.entity := entity;
     PublishFile.step := None;
     PublishFile.task := None |}.

Definition shot_entity : gmap string PublishFile.pyval :=
  {[ "type"%string := PublishFile.VStr "Shot" ]}.

Definition asset_entity : gmap string PublishFile.pyval :=
  {[ "type"%string := PublishFile.VStr "Asset" ]}.

Definition test_item (properties : gmap string PublishFile.pyval)
    (entity : option (gmap string PublishFile.pyval)) : PublishFile.Item :=
  {| PublishFile.properties := properties;
     PublishFile.local_properties := ∅;
     PublishFile.context := test_context entity |}.

(** [st] with the entries [l] added to its log. *)
Definition add_log (st : PublishFile.state) (l : list (PublishFile.level * string))
  : PublishFile.state :=
  {| PublishFile.settings := PublishFile.settings st;
     PublishFile.logger := PublishFile.logger st ++ l |}.

Definition matched_note : PublishFile.level * string :=
  (PublishFile.Debug, "Work file template configured and matches file."%string).

Definition info_note : PublishFile.level * string :=
  (PublishFile.Debug, "!!!!!!!!!!!!!!!!!!!!!!!: %s"%string).

Definition conflicts_note : PublishFile.level * string :=
  (PublishFile.Debug, "Conflicting publishes: %s"%string).

Definition conflicts_warning : PublishFile.level * string :=
  (PublishFile.Warn, "Found %s conflicting publishes in Shotgun"%string).

Definition linked_notes : list (PublishFile.level * string) :=
  [(PublishFile.Info, "A Publish will be created in Shotgun and linked to:"%string);
   (PublishFile.Info, "  %s"%string)].

Definition accepted_item : PublishFile.Item :=
  test_item {[ "path"%string := PublishFile.VStr "/work/shot.ma";
               "work_template"%string := PublishFile.VTemplate "work_versioned" ]}
            (Some shot_entity).

(** An item whose work template matches its path and extracts no field. *)
Definition static_item : PublishFile.Item :=
  test_item {[ "path"%string := PublishFile.VStr "/work/shot.ma";
               "work_template"%string := PublishFile.VTemplate "work_static" ]}
            (Some shot_entity).

(** An item whose work template extracts a name and no version. *)
Definition named_item : PublishFile.Item :=
  test_item {[ "path"%string := PublishFile.VStr "/work/shot.ma";
               "work_template"%string := PublishFile.VTemplate "work_named" ]}
            (Some shot_entity).

(** An item linked to an asset, for which no location template is
    configured, and an item that is linked to nothing. *)
Definition asset_item : PublishFile.Item :=
  test_item {[ "path"%string := PublishFile.VStr "/work/shot.ma" ]} (Some asset_entity).

Definition unlinked_item : PublishFile.Item :=
  test_item {[ "path"%string := PublishFile.VStr "/work/shot.ma" ]} None.

(** Items in place under their shot: without and with a conflicting
    publish, and with a work template besides. *)
Definition placed_item : PublishFile.Item :=
  test_item {[ "path"%string := PublishFile.VStr "/shots/shot.ma" ]} (Some shot_entity).

Definition conflicting_item : PublishFile.Item :=
  test_item {[ "path"%string := PublishFile.VStr "/shots/published.ma" ]}
            (Some shot_entity).

Definition conflicting_template_item : PublishFile.Item :=
  test_item {[ "path"%string := PublishFile.VStr "/shots/published.ma";
               "work_template"%string := PublishFile.VTemplate "work_versioned" ]}
            (Some shot_entity).

(** A path-info hook that reports version 5 for every path. *)
Definition eager_toolkit : PublishFile.Toolkit :=
  test_toolkit_with (fun _ => Some 5) (fun _ => Some "/work/next.ma"%string).

(** One goal for each of the words of the step. *)
Ltac step_word_cases Hw :=
  unfold DraftParamParser.step_words in Hw;
  repeat (apply elem_of_cons in Hw as [->|Hw]);
  [| | | |by apply elem_of_nil in Hw].


(** ** More vocabulary *)

Definition is_frame_sep (c : ascii) : bool :=
  bool_decide (is_Some (DraftParamParser.frame_sep_of c)).

(** The tokens of a frame string that are not empty. *)
Definition frame_tokens (s : string) : list string :=
  filter (fun t => t <> EmptyString)
    (PyStr.re_split_runs DraftParamParser.frame_sep_of None s).

(** [tail] does not go on with a digit, nor with a step word and a digit. *)
Definition no_step_suffix (tail : string) : Prop :=
  PyStr.all_chars PyStr.is_digit (PyStr.take 1 tail) = false
  /\ forall w rest,
       w ∈ DraftParamParser.step_words -> tail = w +:+ rest ->
       PyStr.all_chars PyStr.is_digit (PyStr.take 1 rest) = false
       \/ rest = EmptyString.

(** [s] has no newline. *)
Definition one_line (s : string) : Prop := PyStr.mem PyStr.newline s = false.

(** [key] does not start with [#]. *)
Definition no_comment_mark (key : string) : Prop :=
  forall rest, key <> String "#" rest.

(** [sep.join(l)]. *)
Fixpoint join (sep : string) (l : list string) : string :=
  match l with
  | [] => EmptyString
  | x :: l' =>
      match l' with
      | [] => x
      | _ :: _ => x +:+ sep +:+ join sep l'
      end
  end.

(** [s] in parentheses. *)
Definition tuple_of (s : string) : string := "(" +:+ s +:+ ")".

(** Read with [d] parentheses open, [s] closes them all and every one it
    opens, and closes none that is not open. *)
Fixpoint closes (d : nat) (s : string) : bool :=
  match s with
  | EmptyString => bool_decide (d = 0%nat)
  | String c s' =>
      if Ascii.eqb c "(" then closes (S d) s'
      else if Ascii.eqb c ")" then
        match d with
        | O => false
        | S d' => closes d' s'
        end
      else closes d s'
  end.

Definition balanced (s : string) : Prop := closes 0 s = true.

(** A text that [TokenizeTupleString] leaves in one piece: its parentheses
    match and its commas are inside them. *)
Definition one_token (s : string) : Prop :=
  balanced s /\ DraftParamParser.TokenizeTupleString s = [s].

Definition no_comma (s : string) : Prop := PyStr.mem "," s = false.

Definition no_paren (c : ascii) : bool :=
  negb (Ascii.eqb c "(") && negb (Ascii.eqb c ")").

(** [int(e)] or [float(e)] returns. *)
Definition is_number {Float : Type} (float : string -> option Float) (e : string)
  : Prop :=
  (exists z, PyStr.int e = Ok z) \/ is_Some (float e).

(** A [float] for the examples: it reads [1.5] and nothing else. *)
Definition test_float (s : string) : option string :=
  if decide (PyStr.strip s = "1.5"%string) then Some "1.5"%string else None.

(** The command-line argument [arg] gives [value] to [key]: [key] is its
    text before the first [=]. *)
Definition gives (arg key value : string) : Prop :=
  PyStr.mem "=" key = false /\ arg = key +:+ "=" +:+ value.

(** A parameter file for the examples: it names another one. *)
Definition test_files (paramFile : string) : option string :=
  if decide (paramFile = "first.txt"%string)
  then Some ("a=1" +:+ DraftParamParser.nl +:+ "paramFile=second.txt")
  else if decide (paramFile = "second.txt"%string)
  then Some ("a= 2" +:+ DraftParamParser.nl +:+ "b=(3, 1.5)")
  else None.

(** No row of the table of file types lists [extension]; every row has a
    type and a second entry. *)
Definition unlisted (extension : string) (type_defs : list (list string)) : Prop :=
  Forall (fun type_def =>
            exists publish_type publish_engine file_extensions,
              type_def = publish_type :: publish_engine :: file_extensions
              /\ extension ∉ file_extensions) type_defs.

(** The second entry of the last row of the table; [elements] for an
    empty table. *)
Definition last_engine (type_defs : list (list string)) : string :=
  default "elements"%string (last type_defs ≫= (.!! 1%nat)).

Definition pdf_item : PublishFile.Item :=
  test_item {[ "path"%string := PublishFile.VStr "/shots/notes.PDF" ]}
            (Some shot_entity).

Definition bump_note : PublishFile.level * string :=
  (PublishFile.Info, "Incrementing file version number..."%string).

Definition saved_note : PublishFile.level * string :=
  (PublishFile.Info, "File saved as: %s"%string).

(** A save callback for the examples: it logs the call. *)
Definition test_callback (p : PublishFile.pyval) : PublishFile.hook unit :=
  PublishFile.log PublishFile.Debug "save_callback".

(** The job file of the examples, parsed. *)
Definition test_job : DraftParamParser.Element :=
  DraftParamParser.Elem "Job" None
    [DraftParamParser.Elem "Name" (Some "first"%string) [];
     DraftParamParser.Elem "Frames" None
       [DraftParamParser.Elem "int" (Some "1"%string) [];
        DraftParamParser.Elem "int" None []];
     DraftParamParser.Elem "ExtraInfoKeyValues" None
       [DraftParamParser.Elem "KeyValue" None
          [DraftParamParser.Elem "Key" (Some "shot"%string) [];
           DraftParamParser.Elem "Value" (Some "a"%string) []];
        DraftParamParser.Elem "KeyValue" None
          [DraftParamParser.Elem "Value" (Some "lost"%string) []];
        DraftParamParser.Elem "KeyValue" None
          [DraftParamParser.Elem "Key" (Some "shot"%string) []]];
     DraftParamParser.Elem "Name" (Some "second"%string) []].

(** A disk for the examples: one job file, found whatever the repository. *)
Definition test_isfile (path : string) : bool :=
  bool_decide (path = "/tmp/job.job"%string).

Definition test_read (path : string) : result string :=
  if test_isfile path then Ok "<Job/>"%string else Raise IOError.

Definition test_fromstring (data : string) : result DraftParamParser.Element :=
  Ok test_job.

(** * Properties *)


(** ** Strings *)

Section string_facts.
Implicit Types (s t r : string) (c : ascii).

Lemma app_cons c s t : String c s +:+ t = String c (s +:+ t).
Proof. reflexivity. Qed.

Lemma app_empty_l t : EmptyString +:+ t = t.
Proof. reflexivity. Qed.

Lemma app_empty_r s : s +:+ EmptyString = s.
Proof. induction s as [|c s IH]; [done|]. by rewrite app_cons, IH. Qed.

Lemma str_app_assoc s t r : (s +:+ t) +:+ r = s +:+ (t +:+ r).
Proof. induction s as [|c s IH]; [done|]. by rewrite !app_cons, IH. Qed.

Lemma str_length_app s t :
  String.length (s +:+ t) = (String.length s + String.length t)%nat.
Proof. induction s as [|c s IH]; [done|]. rewrite app_cons. simpl. by rewrite IH. Qed.

Lemma all_chars_app P s t :
  PyStr.all_chars P (s +:+ t) = PyStr.all_chars P s && PyStr.all_chars P t.
Proof.
  induction s as [|c s IH]; [done|].
  rewrite app_cons. simpl. rewrite IH. by rewrite andb_assoc.
Qed.

Lemma all_chars_impl (P Q : ascii -> bool) s :
  (forall c, P c = true -> Q c = true) ->
  PyStr.all_chars P s = true -> PyStr.all_chars Q s = true.
Proof.
  intros HPQ. induction s as [|c s IH]; [done|]. simpl.
  intros [Hc Hs]%andb_true_iff. rewrite (HPQ _ Hc). simpl. auto.
Qed.

Lemma str_take_app s t : PyStr.take (String.length s) (s +:+ t) = s.
Proof.
  induction s as [|c s IH]; [by destruct t|].
  rewrite app_cons. simpl. by rewrite IH.
Qed.

Lemma str_drop_app s t : PyStr.drop (String.length s) (s +:+ t) = t.
Proof.
  induction s as [|c s IH]; [by destruct t|].
  rewrite app_cons. simpl. by rewrite IH.
Qed.

End string_facts.

(** ** Decimal numerals *)

Lemma digit_not_ws c : PyStr.is_digit c = true -> not_ws c = true.
Proof. destruct c as [[] [] [] [] [] [] [] []]; done. Qed.

Lemma digit_not_dash c : PyStr.is_digit c = true -> Ascii.eqb c "-" = false.
Proof. destruct c as [[] [] [] [] [] [] [] []]; done. Qed.

Lemma digits_of_uint d : PyStr.all_chars PyStr.is_digit (NilEmpty.string_of_uint d) = true.
Proof. induction d; simpl; auto. Qed.

Lemma digits_of_uint_nonempty d : d <> Nil -> NilEmpty.string_of_uint d <> EmptyString.
Proof. by destruct d. Qed.

(** The numeral of [z]: a dash when [z] is negative, then one digit at
    least. *)
Lemma of_Z_shape z :
  exists ds, PyStr.of_Z z = (if z <? 0 then "-"%string else EmptyString) +:+ ds
    /\ ds <> EmptyString /\ PyStr.all_chars PyStr.is_digit ds = true.
Proof.
  unfold PyStr.of_Z. destruct z as [|p|p]; simpl.
  - exists "0"%string. done.
  - exists (NilEmpty.string_of_uint (Pos.to_uint p)).
    pose proof (Unsigned.to_uint_nonnil p) as Hnn.
    split_and!.
    + unfold NilZero.string_of_uint. by destruct (Pos.to_uint p).
    + by apply digits_of_uint_nonempty.
    + apply digits_of_uint.
  - exists (NilEmpty.string_of_uint (Pos.to_uint p)).
    pose proof (Unsigned.to_uint_nonnil p) as Hnn.
    split_and!.
    + unfold NilZero.string_of_uint. by destruct (Pos.to_uint p).
    + by apply digits_of_uint_nonempty.
    + apply digits_of_uint.
Qed.

Lemma rstrip_id s : PyStr.all_chars not_ws s = true -> PyStr.rstrip s = s.
Proof.
  induction s as [|c s IH]; [done|]. simpl.
  intros [Hc Hs]%andb_true_iff. rewrite (IH Hs).
  destruct s; [|done]. unfold not_ws in Hc. by destruct (PyStr.is_ws c).
Qed.

Lemma lstrip_id s : PyStr.all_chars not_ws s = true -> PyStr.lstrip s = s.
Proof.
  destruct s as [|c s]; [done|]. simpl.
  intros [Hc Hs]%andb_true_iff. unfold not_ws in Hc. by destruct (PyStr.is_ws c).
Qed.

Lemma strip_id s : PyStr.all_chars not_ws s = true -> PyStr.strip s = s.
Proof. intros Hs. unfold PyStr.strip. by rewrite lstrip_id, rstrip_id. Qed.

Lemma of_Z_not_ws z : PyStr.all_chars not_ws (PyStr.of_Z z) = true.
Proof.
  destruct (of_Z_shape z) as (ds & -> & _ & Hds).
  rewrite all_chars_app. apply andb_true_iff. split.
  - by destruct (z <? 0).
  - eapply all_chars_impl; [apply digit_not_ws|done].
Qed.

(** [int(str(z)) == z]. *)
Lemma int_of_Z z : PyStr.int (PyStr.of_Z z) = Ok z.
Proof.
  unfold PyStr.int. rewrite strip_id by apply of_Z_not_ws.
  assert (NilZero.int_of_string (PyStr.of_Z z) = Some (Z.to_int z)) as Hparse.
  { unfold PyStr.of_Z. apply NilZero.isi.
    - destruct z as [|p|p]; simpl; [done| |done].
      intros [= Hp]. by apply (Unsigned.to_uint_nonnil p).
    - destruct z as [|p|p]; simpl; [done|done|].
      intros [= Hp]. by apply (Unsigned.to_uint_nonnil p). }
  assert (forall r, PyStr.of_Z z <> String "+" r) as Hplus.
  { intros r Hr. destruct (of_Z_shape z) as (ds & Heq & Hne & Hds).
    rewrite Heq in Hr. destruct (z <? 0); [done|].
    rewrite app_empty_l in Hr. subst ds. by simpl in Hds. }
  destruct (PyStr.of_Z z) as [|c r] eqn:Hs.
  - by rewrite Hparse, DecimalZ.of_to.
  - destruct (decide (c = "+"%char)) as [->|Hc].
    + by destruct (Hplus r).
    + assert (match String c r with
              | String "+" s' =>
                  match NilZero.uint_of_string s' with
                  | Some d => Ok (Z.of_uint d)
                  | None => Raise ValueError
                  end
              | s0 =>
                  match NilZero.int_of_string s0 with
                  | Some d => Ok (Z.of_int d)
                  | None => Raise ValueError
                  end
              end = match NilZero.int_of_string (String c r) with
                  | Some d => Ok (Z.of_int d)
                  | None => Raise ValueError
                  end) as ->.
      { destruct c as [[] [] [] [] [] [] [] []]; done. }
      by rewrite Hparse, DecimalZ.of_to.
Qed.

(** ** Scanning *)

Lemma re_split_runs_no_sep {K} `{EqDecision K} (sep_of : ascii -> option K) s :
  PyStr.all_chars (fun c => bool_decide (sep_of c = None)) s = true ->
  PyStr.re_split_runs sep_of None s = [s].
Proof.
  induction s as [|c s IH]; [done|]. simpl.
  intros [Hc Hs]%andb_true_iff. apply bool_decide_eq_true in Hc.
  by rewrite Hc, (IH Hs).
Qed.

Lemma span_digits_app ds rest :
  PyStr.all_chars PyStr.is_digit ds = true ->
  PyStr.all_chars PyStr.is_digit (PyStr.take 1 rest) = false \/ rest = EmptyString ->
  PyStr.span_digits (ds +:+ rest) = (ds, rest).
Proof.
  intros Hds Hrest. induction ds as [|c ds IH].
  - rewrite app_empty_l. destruct rest as [|c r]; [done|].
    destruct Hrest as [Hr|]; [|done]. simpl in *.
    destruct (PyStr.is_digit c); [done|done].
  - rewrite app_cons. simpl in *. apply andb_true_iff in Hds as [Hc Hds].
    by rewrite Hc, (IH Hds).
Qed.

Lemma span_digits_all ds :
  PyStr.all_chars PyStr.is_digit ds = true ->
  PyStr.span_digits ds = (ds, EmptyString).
Proof.
  intros Hds. rewrite <- (app_empty_r ds) at 1. apply span_digits_app; auto.
Qed.

(** The first dash at or after index 1 of a numeral followed by a dash is
    the dash that follows it. *)
Lemma find_dash_after_numeral z rest :
  PyStr.find "-" 1 (PyStr.of_Z z +:+ String "-" rest)
  = Some (String.length (PyStr.of_Z z)).
Proof.
  assert (forall ds r, PyStr.all_chars PyStr.is_digit ds = true ->
            PyStr.find "-" 0 (ds +:+ String "-" r) = Some (String.length ds)) as Hgo.
  { intros ds r. induction ds as [|c ds IH]; [done|].
    rewrite app_cons. simpl. intros [Hc Hds]%andb_true_iff.
    by rewrite (digit_not_dash _ Hc), (IH Hds). }
  destruct (of_Z_shape z) as (ds & -> & Hne & Hds).
  destruct (z <? 0).
  - rewrite !app_cons, !app_empty_l. simpl. by rewrite Hgo.
  - rewrite !app_empty_l. destruct ds as [|c ds]; [done|].
    rewrite app_cons. simpl in *. apply andb_true_iff in Hds as [_ Hds].
    by rewrite Hgo.
Qed.

Lemma match_end_numeral z rest :
  PyStr.all_chars PyStr.is_digit (PyStr.take 1 rest) = false \/ rest = EmptyString ->
  DraftParamParser.match_end (PyStr.of_Z z +:+ rest)
  = Some (PyStr.of_Z z, DraftParamParser.match_step DraftParamParser.step_words rest).
Proof.
  intros Hrest. destruct (of_Z_shape z) as (ds & -> & Hne & Hds).
  unfold DraftParamParser.match_end. destruct (z <? 0).
  - rewrite !app_cons, !app_empty_l.
    rewrite (span_digits_app _ _ Hds Hrest). by destruct ds.
  - rewrite !app_empty_l.
    assert (match ds +:+ rest with
            | String "-" s' => ("-"%string, s')
            | _ => (EmptyString, ds +:+ rest)
            end = (EmptyString, ds +:+ rest)) as ->.
    { destruct ds as [|c ds]; [done|]. rewrite app_cons. simpl in Hds.
      apply andb_true_iff in Hds as [Hc _].
      destruct c as [[] [] [] [] [] [] [] []]; done. }
    rewrite (span_digits_app _ _ Hds Hrest). by destruct ds.
Qed.

Lemma match_step_empty :
  DraftParamParser.match_step DraftParamParser.step_words EmptyString = None.
Proof. reflexivity. Qed.

Lemma match_step_word w ds :
  w ∈ DraftParamParser.step_words ->
  ds <> EmptyString -> PyStr.all_chars PyStr.is_digit ds = true ->
  DraftParamParser.match_step DraftParamParser.step_words (w +:+ ds) = Some (w, ds).
Proof.
  intros Hw Hne Hds.
  assert (PyStr.span_digits ds = (ds, EmptyString)) as Hspan
    by by apply span_digits_all.
  step_word_cases Hw; unfold DraftParamParser.step_words;
    rewrite ?app_cons, ?app_empty_l; simpl; rewrite Hspan; by destruct ds.
Qed.

(** ** Frames *)

Lemma elem_of_range a b x : x ∈ PyStr.range a b <-> a <= x < b.
Proof.
  unfold PyStr.range. rewrite list_elem_of_fmap. split.
  - intros (i & -> & Hi). apply elem_of_seq in Hi. lia.
  - intros Hx. exists (Z.to_nat (x - a)). split; [lia|].
    apply elem_of_seq. lia.
Qed.

(** With a positive step the loop ends within the fuel that covers the
    distance, and it collects the frames of the progression up to the end
    frame. *)
Lemma frame_loop_spec dir endFrame byFrame :
  (dir = 1 \/ dir = -1) -> 0 < byFrame ->
  forall fuel frame,
    (0 < fuel)%nat -> endFrame * dir - frame * dir + 1 < Z.of_nat fuel ->
    exists l, DraftParamParser.frame_loop fuel frame dir endFrame byFrame = Some l
      /\ forall x, x ∈ l <->
           exists k, 0 <= k /\ x = frame + k * (byFrame * dir)
                     /\ x * dir <= endFrame * dir.
Proof.
  intros Hdir Hby. induction fuel as [|fuel IH]; intros frame Hpos Hfuel; [lia|].
  simpl. destruct (Z.leb_spec (frame * dir) (endFrame * dir)) as [Hle|Hgt].
  - destruct (IH (frame + byFrame * dir)) as (l & -> & Hl); [lia|nia|].
    exists (frame :: l). split; [done|]. intros x.
    rewrite elem_of_cons, Hl. split.
    + intros [->|(k & Hk & -> & Hx)].
      * exists 0. split_and!; lia.
      * exists (k + 1). split_and!; lia.
    + intros (k & Hk & -> & Hx).
      destruct (decide (k = 0)) as [->|Hk0]; [left; lia|].
      right. exists (k - 1). split_and!; lia.
  - exists []. split; [done|]. intros x. split; [by intros ?%elem_of_nil|].
    intros (k & Hk & -> & Hx). nia.
Qed.

(** Without a step the loop never ends. *)
Lemma frame_loop_zero_step dir endFrame fuel frame :
  frame * dir <= endFrame * dir ->
  DraftParamParser.frame_loop fuel frame dir endFrame 0 = None.
Proof.
  intros Hle. induction fuel as [|fuel IH]; [done|]. simpl.
  destruct (Z.leb_spec (frame * dir) (endFrame * dir)); [|lia].
  replace (frame + 0 * dir) with frame by lia. by rewrite IH.
Qed.

Lemma set_sorted_elem_of frames x :
  x ∈ DraftParamParser.set_sorted frames <-> x ∈ frames.
Proof.
  unfold DraftParamParser.set_sorted.
  rewrite merge_sort_Permutation, elem_of_elements. set_solver.
Qed.

Lemma set_sorted_NoDup frames : NoDup (DraftParamParser.set_sorted frames).
Proof.
  unfold DraftParamParser.set_sorted.
  rewrite merge_sort_Permutation. apply NoDup_elements.
Qed.

Lemma StronglySorted_le_lt (l : list Z) :
  StronglySorted Z.le l -> NoDup l -> StronglySorted Z.lt l.
Proof.
  induction 1 as [|x l Hl IH Hx]; [constructor|].
  intros [Hnotin Hnd]%NoDup_cons. constructor; [by apply IH|].
  apply Forall_forall. intros y Hy.
  rewrite Forall_forall in Hx. specialize (Hx y Hy).
  assert (x <> y) by (intros ->; done). lia.
Qed.

Lemma set_sorted_increasing frames :
  StronglySorted Z.lt (DraftParamParser.set_sorted frames).
Proof.
  apply StronglySorted_le_lt; [|apply set_sorted_NoDup].
  unfold DraftParamParser.set_sorted. apply StronglySorted_merge_sort; apply _.
Qed.

Lemma digit_no_frame_sep c : PyStr.is_digit c = true -> no_frame_sep c = true.
Proof. destruct c as [[] [] [] [] [] [] [] []]; done. Qed.

Lemma of_Z_no_frame_sep z : PyStr.all_chars no_frame_sep (PyStr.of_Z z) = true.
Proof.
  destruct (of_Z_shape z) as (ds & -> & _ & Hds).
  rewrite all_chars_app. apply andb_true_iff. split.
  - by destruct (z <? 0).
  - eapply all_chars_impl; [apply digit_no_frame_sep|done].
Qed.

Lemma step_word_no_frame_sep w :
  w ∈ DraftParamParser.step_words -> PyStr.all_chars no_frame_sep w = true.
Proof.
  intros Hw. step_word_cases Hw; done.
Qed.

Lemma step_word_not_digit w ds :
  w ∈ DraftParamParser.step_words ->
  PyStr.all_chars PyStr.is_digit (PyStr.take 1 (w +:+ ds)) = false.
Proof.
  intros Hw. step_word_cases Hw; done.
Qed.

Lemma of_Z_nonempty z : (0 <? String.length (PyStr.of_Z z))%nat = true.
Proof.
  destruct (of_Z_shape z) as (ds & -> & Hne & _). rewrite str_length_app.
  destruct ds; [done|]. simpl. apply Nat.ltb_lt. lia.
Qed.

(** A token made of two numerals around a dash, and a tail that does not
    go on with a digit: the start and the end frame are the two numbers, and
    the tail decides between the plain range and the stepped one. *)
Lemma token_frames_numerals fuel a b rest :
  PyStr.all_chars PyStr.is_digit (PyStr.take 1 rest) = false \/ rest = EmptyString ->
  DraftParamParser.token_frames fuel (PyStr.of_Z a +:+ "-" +:+ PyStr.of_Z b +:+ rest)
  = match DraftParamParser.match_step DraftParamParser.step_words rest with
    | None => Some (Ok (PyStr.range a (b + 1)))
    | Some (_, g3) =>
        match PyStr.int g3 with
        | Raise e => Some (Raise e)
        | Ok byFrame =>
            Ok <$> DraftParamParser.frame_loop fuel a (if b <? a then -1 else 1) b byFrame
        end
    end.
Proof.
  intros Hrest. unfold DraftParamParser.token_frames.
  rewrite str_length_app.
  assert ((0 <? String.length (PyStr.of_Z a)
                + String.length ("-" +:+ PyStr.of_Z b +:+ rest))%nat = true) as ->.
  { pose proof (of_Z_nonempty a) as Ha. apply Nat.ltb_lt in Ha. apply Nat.ltb_lt. lia. }
  rewrite app_cons, app_empty_l, find_dash_after_numeral.
  rewrite str_take_app, int_of_Z.
  assert (PyStr.drop (S (String.length (PyStr.of_Z a)))
            (PyStr.of_Z a +:+ String "-" (PyStr.of_Z b +:+ rest))
          = PyStr.of_Z b +:+ rest) as ->.
  { generalize (PyStr.of_Z a). intros s. induction s as [|c s IH]; [done|].
    rewrite app_cons. simpl. apply IH. }
  rewrite (match_end_numeral _ _ Hrest), int_of_Z.
  by destruct (DraftParamParser.match_step _ rest) as [[? ?]|].
Qed.

Lemma FrameRangeToFrames_one_token fuel token :
  PyStr.all_chars no_frame_sep token = true ->
  DraftParamParser.FrameRangeToFrames fuel token
  = match DraftParamParser.token_frames fuel token with
    | Some (Ok fs) => Some (Ok (DraftParamParser.set_sorted fs))
    | r => r
    end.
Proof.
  intros Htok. unfold DraftParamParser.FrameRangeToFrames.
  rewrite re_split_runs_no_sep by done. simpl.
  by destruct (DraftParamParser.token_frames fuel token) as [[fs|e]|].
Qed.

(** C3: a token [a-b] with [a <= b] gives exactly the integers from [a] to
    [b]; a token [a-b] followed by [x], [step], [by] or [every] and a
    positive step [s] gives exactly the frames [a], [a+s], [a+2s], ... not
    beyond [b] when [a <= b], and [a], [a-s], [a-2s], ... not below [b] when
    [a > b], once the fuel covers the distance from [a] to [b]. *)
Theorem FrameRangeToFrames_token (a b : Z) :
  (a <= b ->
   forall fuel, exists frames,
     DraftParamParser.FrameRangeToFrames fuel (PyStr.of_Z a +:+ "-" +:+ PyStr.of_Z b)
       = Some (Ok frames)
     /\ forall x, x ∈ frames <-> a <= x <= b)
  /\ (forall sep s fuel,
        sep ∈ DraftParamParser.step_words -> 0 < s ->
        Z.abs (b - a) + 1 < Z.of_nat fuel ->
        exists frames,
          DraftParamParser.FrameRangeToFrames fuel
            (PyStr.of_Z a +:+ "-" +:+ PyStr.of_Z b +:+ sep +:+ PyStr.of_Z s)
            = Some (Ok frames)
          /\ forall x, x ∈ frames <->
               exists k, 0 <= k /\
                 (if decide (a <= b) then x = a + k * s /\ x <= b
                  else x = a - k * s /\ b <= x)).
Proof.
  split.
  - intros Hab fuel. exists (DraftParamParser.set_sorted (PyStr.range a (b + 1))).
    split.
    + rewrite FrameRangeToFrames_one_token.
      * rewrite <- (app_empty_r (PyStr.of_Z b)).
        rewrite token_frames_numerals by auto. by rewrite match_step_empty.
      * rewrite !all_chars_app, !of_Z_no_frame_sep. done.
    + intros x. rewrite set_sorted_elem_of, elem_of_range. lia.
  - intros sep s fuel Hsep Hs Hfuel.
    destruct (of_Z_shape s) as (ds & Hds_eq & Hne & Hds).
    assert ((s <? 0) = false) as Hneg by lia. rewrite Hneg, app_empty_l in Hds_eq.
    pose proof (frame_loop_spec (if b <? a then -1 else 1) b s) as Hloop.
    destruct (Hloop (ltac:(destruct (b <? a); auto)) Hs fuel a)
      as (l & Hl & Hmem); [lia| |].
    { destruct (Z.ltb_spec b a); lia. }
    exists (DraftParamParser.set_sorted l). split.
    + rewrite FrameRangeToFrames_one_token.
      * rewrite token_frames_numerals by (left; by apply step_word_not_digit).
        rewrite Hds_eq, (match_step_word _ _ Hsep Hne Hds).
        rewrite <- Hds_eq, int_of_Z, Hl. done.
      * rewrite !all_chars_app, !of_Z_no_frame_sep, (step_word_no_frame_sep _ Hsep).
        done.
    + intros x. rewrite set_sorted_elem_of, Hmem.
      destruct (Z.ltb_spec b a); destruct (decide (a <= b)); try lia;
        split; intros (k & Hk & Hx); exists k; (split; [done|]); lia.
Qed.

(** A run of [FrameRangeToFrames_token] on the tokens [3-6] and [10-3x2]. *)
Lemma FrameRangeToFrames_token_witness :
  (exists frames,
     DraftParamParser.FrameRangeToFrames 0 (PyStr.of_Z 3 +:+ "-" +:+ PyStr.of_Z 6)
       = Some (Ok frames)
     /\ forall x, x ∈ frames <-> 3 <= x <= 6)
  /\ (exists frames,
        DraftParamParser.FrameRangeToFrames 9
          (PyStr.of_Z 10 +:+ "-" +:+ PyStr.of_Z 3 +:+ "x" +:+ PyStr.of_Z 2)
          = Some (Ok frames)
        /\ forall x, x ∈ frames <->
             exists k, 0 <= k /\
               (if decide (10 <= 3) then x = 10 + k * 2 /\ x <= 3
                else x = 10 - k * 2 /\ 3 <= x)).
Proof.
  split.
  - apply (proj1 (FrameRangeToFrames_token 3 6)). lia.
  - apply (proj2 (FrameRangeToFrames_token 10 3) "x"%string 2 9%nat).
    + unfold DraftParamParser.step_words. set_solver.
    + lia.
    + lia.
Defined.

(** C9: whatever the tokens, what [FrameRangeToFrames] returns is strictly
    increasing, hence free of duplicates. *)
Theorem FrameRangeToFrames_sorted fuel frameString frames :
  DraftParamParser.FrameRangeToFrames fuel frameString = Some (Ok frames) ->
  StronglySorted Z.lt frames /\ NoDup frames.
Proof.
  unfold DraftParamParser.FrameRangeToFrames.
  destruct (DraftParamParser.tokens_frames _ _ _) as [[fs|e]|]; [|done..].
  intros [= <-]. split; [apply set_sorted_increasing|apply set_sorted_NoDup].
Qed.

Lemma FrameRangeToFrames_sorted_witness :
  StronglySorted Z.lt [-2; -1; 1; 3; 4; 5; 7; 10] /\ NoDup [-2; -1; 1; 3; 4; 5; 7; 10].
Proof.
  apply (FrameRangeToFrames_sorted 10 "5-3x1, 10-4x3 1 ,-2--1 3-5,7").
  vm_compute. reflexivity.
Defined.

Example frames_1 :
  DraftParamParser.FrameRangeToFrames 10 "3-5, 10-4x3 1 ,-2--1" =
  Some (Ok [-2; -1; 1; 3; 4; 5; 7; 10]).
Proof. vm_compute. reflexivity. Qed.

Example frames_2 :
  DraftParamParser.FrameRangeToFrames 10 "1-3y" = Some (Ok [1; 2; 3]) /\
  DraftParamParser.FrameRangeToFrames 10 "a" = Some (Raise ValueError) /\
  DraftParamParser.FrameRangeToFrames 10 "1-x" =
    Some (Raise (StandardError "Second part of Token failed regex match")) /\
  DraftParamParser.FrameRangeToFrames 10 "1-5x0" = None /\
  DraftParamParser.FrameRangeToFrames 10 "1-9every4" = Some (Ok [1; 5; 9]).
Proof. vm_compute. repeat split; reflexivity. Qed.


(** ** Parameter files *)

Lemma split_once_none l :
  PyStr.mem "=" l = false -> PyStr.split_once "=" l = [l].
Proof.
  induction l as [|c l IH]; [done|]. simpl.
  intros [Hc Hl]%orb_false_iff. rewrite Hc, (IH Hl). by destruct l.
Qed.

Lemma split_once_some key value :
  PyStr.mem "=" key = false ->
  PyStr.split_once "=" (key +:+ "=" +:+ value) = [key; value].
Proof.
  change ("=" +:+ value) with (String "=" value).
  induction key as [|c key IH]; [done|].
  intros Hmem. simpl in Hmem. apply orb_false_iff in Hmem as [Hc Hl].
  rewrite app_cons. simpl. by rewrite Hc, (IH Hl).
Qed.

Lemma mem_split l :
  PyStr.mem "=" l = true ->
  exists key value, PyStr.mem "=" key = false /\ l = key +:+ "=" +:+ value.
Proof.
  induction l as [|c l IH]; [done|]. simpl.
  destruct (Ascii.eqb c "=") eqn:Hc.
  - apply Ascii.eqb_eq in Hc as ->. intros _. by exists EmptyString, l.
  - simpl. intros (key & value & Hkey & ->)%IH.
    exists (String c key), value. simpl. by rewrite Hc, Hkey.
Qed.

Lemma mem_app_eq key value : PyStr.mem "=" (key +:+ "=" +:+ value) = true.
Proof.
  change ("=" +:+ value) with (String "=" value).
  induction key as [|c key IH]; [done|]. rewrite app_cons. simpl.
  rewrite IH. apply orb_true_r.
Qed.

Lemma assigns_inj l key value key' value' :
  assigns l key value -> assigns l key' value' -> key = key' /\ value = value'.
Proof.
  intros (_ & Hk & ->) (_ & Hk' & Heq).
  apply (f_equal (PyStr.split_once "=")) in Heq.
  rewrite !split_once_some in Heq by done. by simplify_eq.
Qed.

(** One line: skipped, refused, or one assignment. *)
Lemma param_step_spec params arg :
  let l := DraftParamParser.chomp arg in
  (DraftParamParser.is_param_line l = false
   /\ DraftParamParser.param_step params arg = Ok params)
  \/ (DraftParamParser.is_param_line l = true /\ PyStr.mem "=" l = false
      /\ DraftParamParser.param_step params arg
         = Raise (DraftParamParser.bad_argument l))
  \/ (exists key value, assigns l key value
      /\ DraftParamParser.param_step params arg = Ok (<[key := value]> params)).
Proof.
  intros l. unfold DraftParamParser.param_step. fold l.
  destruct (DraftParamParser.is_param_line l) eqn:Hline; [|by left].
  right. destruct (PyStr.mem "=" l) eqn:Hmem.
  - right. destruct (mem_split _ Hmem) as (key & value & Hkey & Heq).
    exists key, value. split; [done|]. by rewrite Heq, split_once_some.
  - left. by rewrite split_once_none.
Qed.

Lemma param_loop_raise params lines i l :
  (DraftParamParser.chomp <$> lines) !! i = Some l ->
  DraftParamParser.is_param_line l = true -> PyStr.mem "=" l = false ->
  (forall j l', (j < i)%nat -> (DraftParamParser.chomp <$> lines) !! j = Some l' ->
     DraftParamParser.is_param_line l' = true -> PyStr.mem "=" l' = true) ->
  DraftParamParser.param_loop params lines = Raise (DraftParamParser.bad_argument l).
Proof.
  revert params i. induction lines as [|arg lines IH]; intros params i Hi Hline Hmem Hbefore.
  { done. }
  simpl. destruct i as [|i].
  - simpl in Hi. injection Hi as <-.
    destruct (param_step_spec params arg) as [[Hs _]|[(_ & _ & ->)|(k & v & Ha & _)]].
    + congruence.
    + done.
    + destruct Ha as (_ & _ & Heq). rewrite Heq, mem_app_eq in Hmem. done.
  - destruct (param_step_spec params arg) as [[_ ->]|[(Hl & Hm & _)|(k & v & _ & ->)]].
    + simpl. apply (IH _ i Hi Hline Hmem).
      intros j l' Hj. apply (Hbefore (S j)). lia.
    + specialize (Hbefore 0%nat _ ltac:(lia) eq_refl Hl). congruence.
    + simpl. apply (IH _ i Hi Hline Hmem).
      intros j l' Hj. apply (Hbefore (S j)). lia.
Qed.

Lemma param_loop_ok params lines :
  (forall l, l ∈ DraftParamParser.chomp <$> lines ->
     DraftParamParser.is_param_line l = true -> PyStr.mem "=" l = true) ->
  exists params',
    DraftParamParser.param_loop params lines = Ok params'
    /\ forall key value,
         params' !! key = Some value <->
           (exists i l, (DraftParamParser.chomp <$> lines) !! i = Some l
              /\ assigns l key value
              /\ forall j l' value', (i < j)%nat ->
                   (DraftParamParser.chomp <$> lines) !! j = Some l' ->
                   ~ assigns l' key value')
           \/ (params !! key = Some value
               /\ forall j l' value',
                    (DraftParamParser.chomp <$> lines) !! j = Some l' ->
                    ~ assigns l' key value').
Proof.
  revert params. induction lines as [|arg lines IH]; intros params Hall.
  { exists params. split; [done|]. intros key value. split.
    - intros Hk. right. split; [done|]. intros j l' value' Hj. done.
    - intros [(i & l & Hi & _)|[Hk _]]; done. }
  assert (forall l, l ∈ DraftParamParser.chomp <$> lines ->
     DraftParamParser.is_param_line l = true -> PyStr.mem "=" l = true) as Hall'.
  { intros l Hl. apply Hall. rewrite fmap_cons. apply elem_of_cons. by right. }
  simpl.
  destruct (param_step_spec params arg)
    as [[Hskip ->]|[(Hl & Hm & _)|(k & v & Ha & ->)]].
  - simpl. destruct (IH params Hall') as (params' & -> & Hspec).
    exists params'. split; [done|]. intros key value. rewrite Hspec. split.
    + intros [(i & l & Hi & Hal & Hlast)|[Hk Hno]].
      * left. exists (S i), l. split_and!; [done..|].
        intros [|j] l' value' Hj Hj'; [lia|]. apply (Hlast j); [lia|done].
      * right. split; [done|]. intros [|j] l' value' Hj.
        -- simpl in Hj. injection Hj as <-. intros (? & _). congruence.
        -- by apply (Hno j).
    + intros [(i & l & Hi & Hal & Hlast)|[Hk Hno]].
      * destruct i as [|i].
        { simpl in Hi. injection Hi as <-. destruct Hal as (? & _). congruence. }
        left. exists i, l. split_and!; [done..|].
        intros j l' value' Hj Hj'. apply (Hlast (S j)); [lia|done].
      * right. split; [done|]. intros j l' value' Hj. by apply (Hno (S j)).
  - rewrite (Hall (DraftParamParser.chomp arg)) in Hm; [done| |done].
    rewrite fmap_cons. apply elem_of_cons. by left.
  - simpl. destruct (IH (<[k:=v]> params) Hall') as (params' & -> & Hspec).
    exists params'. split; [done|]. intros key value. rewrite Hspec. split.
    + intros [(i & l & Hi & Hal & Hlast)|[Hk Hno]].
      * left. exists (S i), l. split_and!; [done..|].
        intros [|j] l' value' Hj Hj'; [lia|]. apply (Hlast j); [lia|done].
      * destruct (decide (k = key)) as [->|Hne].
        -- rewrite lookup_insert_eq in Hk. injection Hk as ->.
           left. exists 0%nat, (DraftParamParser.chomp arg). split_and!; [done..|].
           intros [|j] l' value' Hj Hj'; [lia|]. by apply (Hno j).
        -- rewrite lookup_insert_ne in Hk by done.
           right. split; [done|]. intros [|j] l' value' Hj.
           ++ simpl in Hj. injection Hj as <-. intros Ha'.
              destruct (assigns_inj _ _ _ _ _ Ha Ha'). done.
           ++ by apply (Hno j).
    + intros [(i & l & Hi & Hal & Hlast)|[Hk Hno]].
      * destruct i as [|i].
        -- simpl in Hi. injection Hi as <-.
           destruct (assigns_inj _ _ _ _ _ Ha Hal) as [-> ->].
           right. split; [by rewrite lookup_insert_eq|].
           intros j l' value' Hj. apply (Hlast (S j)); [lia|done].
        -- left. exists i, l. split_and!; [done..|].
           intros j l' value' Hj Hj'. apply (Hlast (S j)); [lia|done].
      * destruct (decide (k = key)) as [->|Hne].
        { exfalso. by apply (Hno 0%nat (DraftParamParser.chomp arg) v). }
        right. split; [by rewrite lookup_insert_ne|].
        intros j l' value' Hj. by apply (Hno (S j)).
Qed.

(** The lines read are the text of the file, cut after each newline. *)
Lemma readlines_concat content :
  foldr String.app EmptyString (DraftParamParser.readlines content) = content.
Proof.
  induction content as [|c rest IH]; [done|]. simpl.
  destruct (Ascii.eqb c PyStr.newline).
  - simpl. by rewrite app_cons, app_empty_l, IH.
  - destruct (DraftParamParser.readlines rest) as [|l ls].
    + simpl in *. by rewrite <- IH.
    + simpl in *. by rewrite app_cons, IH.
Qed.

(** C6: a line that is empty or starts with [#] assigns nothing and raises
    nothing; the first other line without [=] ends the parse with the error
    that names it; when every other line has an [=], the dictionary maps
    each key to the text after the first [=] of the last line that has this
    key before its first [=]. *)
Theorem ParseParamFile_TypeAgnostic_spec open_file paramFile content :
  open_file paramFile = Some content ->
  let lines := DraftParamParser.chomp <$> DraftParamParser.readlines content in
  (forall i l,
     lines !! i = Some l ->
     DraftParamParser.is_param_line l = true -> PyStr.mem "=" l = false ->
     (forall j l', (j < i)%nat -> lines !! j = Some l' ->
        DraftParamParser.is_param_line l' = true -> PyStr.mem "=" l' = true) ->
     DraftParamParser.ParseParamFile_TypeAgnostic open_file paramFile
       = Raise (DraftParamParser.bad_argument l))
  /\ ((forall l, l ∈ lines ->
         DraftParamParser.is_param_line l = true -> PyStr.mem "=" l = true) ->
      exists params,
        DraftParamParser.ParseParamFile_TypeAgnostic open_file paramFile = Ok params
        /\ forall key value,
             params !! key = Some value <->
               exists i l, lines !! i = Some l
                 /\ assigns l key value
                 /\ forall j l' value', (i < j)%nat -> lines !! j = Some l' ->
                      ~ assigns l' key value').
Proof.
  intros Hopen lines. unfold DraftParamParser.ParseParamFile_TypeAgnostic.
  rewrite Hopen. split.
  - intros i l Hi Hline Hmem Hbefore. by eapply param_loop_raise.
  - intros Hall.
    destruct (param_loop_ok ∅ (DraftParamParser.readlines content) Hall)
      as (params & -> & Hspec).
    exists params. split; [done|]. intros key value. rewrite Hspec. split.
    + intros [Hl|[Hk _]]; [done|]. by rewrite lookup_empty in Hk.
    + intros Hl. by left.
Qed.

(** A run of [ParseParamFile_TypeAgnostic_spec] on a file that parses and
    on a file with a bad line. *)
Lemma ParseParamFile_TypeAgnostic_witness :
  (exists params,
     DraftParamParser.ParseParamFile_TypeAgnostic (fun _ => Some param_file_good) "job"
       = Ok params
     /\ forall key value,
          params !! key = Some value <->
            exists i l,
              (DraftParamParser.chomp <$> DraftParamParser.readlines param_file_good) !! i
                = Some l
              /\ assigns l key value
              /\ forall j l' value', (i < j)%nat ->
                   (DraftParamParser.chomp <$> DraftParamParser.readlines param_file_good)
                     !! j = Some l' ->
                   ~ assigns l' key value')
  /\ DraftParamParser.ParseParamFile_TypeAgnostic (fun _ => Some param_file_bad) "job"
     = Raise (DraftParamParser.bad_argument "bad").
Proof.
  split.
  - apply (proj2 (ParseParamFile_TypeAgnostic_spec
                    (fun _ => Some param_file_good) "job" param_file_good eq_refl)).
    intros l Hl.
    change (DraftParamParser.chomp <$> DraftParamParser.readlines param_file_good)
      with ["a=1"; "#c"; EmptyString; "b=2=3"; "a=9"]%string in Hl.
    repeat (apply elem_of_cons in Hl as [->|Hl]); try done.
    by apply elem_of_nil in Hl.
  - apply (proj1 (ParseParamFile_TypeAgnostic_spec
                    (fun _ => Some param_file_bad) "job" param_file_bad eq_refl)
             1%nat "bad"%string); try done.
    intros [|j] l' Hj; [|lia]. by intros [= <-].
Defined.


(** ** File names with hashes *)

Lemma emit_app out1 out2 r :
  PyStr.emit (out1 +:+ out2) r = PyStr.emit out1 (PyStr.emit out2 r).
Proof. destruct r as [[s|e]|]; simpl; [|done..]. by rewrite str_app_assoc. Qed.

(** Text without [%] is copied. *)
Lemma format_go_literal used n lit rest :
  PyStr.all_chars not_percent lit = true ->
  PyStr.format_go PyStr.FLit used n (lit +:+ rest)
  = PyStr.emit lit (PyStr.format_go PyStr.FLit used n rest).
Proof.
  induction lit as [|c lit IH].
  - intros _. rewrite app_empty_l. by destruct (PyStr.format_go _ _ _ _) as [[?|?]|].
  - intros Hlit. simpl in Hlit. apply andb_true_iff in Hlit as [Hc Hlit].
    rewrite app_cons. simpl. unfold not_percent in Hc.
    destruct (Ascii.eqb c "%"); [done|]. rewrite (IH Hlit).
    by rewrite <- emit_app.
Qed.

Lemma format_go_literal_end n lit :
  PyStr.all_chars not_percent lit = true ->
  PyStr.format_go PyStr.FLit true n lit = Some (Ok lit).
Proof.
  intros Hlit. rewrite <- (app_empty_r lit) at 1.
  rewrite format_go_literal by done. simpl. by rewrite app_empty_r.
Qed.

(** The digits of a width that does not start with a zero are read up to
    the first character that is not a digit. *)
Lemma format_go_width used n w ds rest :
  PyStr.all_chars PyStr.is_digit ds = true ->
  (w = EmptyString -> PyStr.take 1 ds <> "0"%string) ->
  PyStr.format_go (PyStr.FWidth w) used n (ds +:+ rest)
  = PyStr.format_go (PyStr.FWidth (w +:+ ds)) used n rest.
Proof.
  revert w. induction ds as [|c ds IH]; intros w Hds Hzero.
  - by rewrite app_empty_l, app_empty_r.
  - simpl in Hds. apply andb_true_iff in Hds as [Hc Hds].
    rewrite app_cons. simpl. rewrite Hc.
    assert (Ascii.eqb c "0" && bool_decide (w = EmptyString) = false) as ->.
    { destruct (decide (w = EmptyString)) as [->|Hw].
      - specialize (Hzero eq_refl). simpl in Hzero.
        destruct (Ascii.eqb_spec c "0") as [->|]; [by destruct ds|done].
      - rewrite bool_decide_eq_false_2 by done. apply andb_false_r. }
    rewrite IH; [|done|by destruct w].
    by rewrite str_app_assoc, app_cons, app_empty_l.
Qed.

Lemma format_go_prec used n w p ds rest :
  PyStr.all_chars PyStr.is_digit ds = true ->
  PyStr.format_go (PyStr.FPrec w p) used n (ds +:+ rest)
  = PyStr.format_go (PyStr.FPrec w (p +:+ ds)) used n rest.
Proof.
  revert p. induction ds as [|c ds IH]; intros p Hds.
  - by rewrite app_empty_l, app_empty_r.
  - simpl in Hds. apply andb_true_iff in Hds as [Hc Hds].
    rewrite app_cons. simpl. rewrite Hc, IH by done.
    by rewrite str_app_assoc, app_cons, app_empty_l.
Qed.

Lemma nat_of_digits_of_Z k : 0 <= k -> PyStr.nat_of_digits (PyStr.of_Z k) = Z.to_nat k.
Proof.
  intros Hk. unfold PyStr.nat_of_digits, PyStr.of_Z. destruct k as [|p|p]; [done| |lia].
  simpl. pose proof (Unsigned.to_uint_nonnil p) as Hnn.
  assert (NilZero.string_of_uint (Pos.to_uint p)
          = NilEmpty.string_of_uint (Pos.to_uint p)) as ->
    by (unfold NilZero.string_of_uint; by destruct (Pos.to_uint p)).
  rewrite NilEmpty.usu, Unsigned.of_to. simpl. lia.
Qed.

Lemma length_repeat_char c n : String.length (PyStr.repeat_char c n) = n.
Proof. induction n as [|n IH]; simpl; auto. Qed.

Lemma length_pad_left c k ds :
  (k <= String.length (PyStr.pad_left c k ds))%nat.
Proof. unfold PyStr.pad_left. rewrite str_length_app, length_repeat_char. lia. Qed.

Lemma format_d_same k n :
  0 < k <= 100 ->
  PyStr.format_d (PyStr.of_Z k) (Some (PyStr.of_Z k)) n = Some (zero_padded (Z.to_nat k) n).
Proof.
  intros Hk. unfold PyStr.format_d. rewrite nat_of_digits_of_Z by lia.
  assert ((100 <? Z.to_nat k)%nat = false) as -> by (apply Nat.ltb_ge; lia).
  assert ((Z.to_nat k =? 0)%nat = false) as -> by (apply Nat.eqb_neq; lia).
  simpl. f_equal. fold (zero_padded (Z.to_nat k) n).
  unfold PyStr.pad_left at 1.
  assert (Z.to_nat k <= String.length (zero_padded (Z.to_nat k) n))%nat as Hlen.
  { unfold zero_padded. rewrite str_length_app.
    pose proof (length_pad_left "0" (Z.to_nat k) (PyStr.of_Z (Z.abs n))). lia. }
  replace (Z.to_nat k - String.length (zero_padded (Z.to_nat k) n))%nat with 0%nat by lia.
  done.
Qed.

Lemma nzhead_not_D0 d d' : nzhead d <> D0 d'.
Proof. induction d; simpl; done. Qed.

(** The numeral of a positive number does not start with a zero. *)
Lemma of_Z_pos_head k : 0 < k -> PyStr.take 1 (PyStr.of_Z k) <> "0"%string.
Proof.
  intros Hk. destruct k as [|p|p]; [lia| |lia]. unfold PyStr.of_Z. simpl.
  pose proof (Unsigned.to_of (Pos.to_uint p)) as Hnorm.
  rewrite Unsigned.of_to in Hnorm. simpl in Hnorm.
  pose proof (Unsigned.to_uint_nonzero p) as Hnz.
  pose proof (Unsigned.to_uint_nonnil p) as Hnn.
  destruct (Pos.to_uint p) as [|d|d|d|d|d|d|d|d|d|d] eqn:Hp; simpl; try done.
  exfalso. unfold unorm in Hnorm. simpl in Hnorm.
  destruct (nzhead d) eqn:Hd; try done.
  injection Hnorm as ->. by apply (nzhead_not_D0 u u).
Qed.

(** The conversion [%k.kd] between two texts without [%]. *)
Lemma format_hashes s0 s1 k n :
  0 < k <= 100 ->
  PyStr.all_chars not_percent s0 = true ->
  PyStr.all_chars not_percent s1 = true ->
  PyStr.format (s0 +:+ "%" +:+ PyStr.of_Z k +:+ "." +:+ PyStr.of_Z k +:+ "d" +:+ s1) n
  = Some (Ok (s0 +:+ zero_padded (Z.to_nat k) n +:+ s1)).
Proof.
  intros Hk Hs0 Hs1. unfold PyStr.format.
  rewrite format_go_literal by done.
  destruct (of_Z_shape k) as (ds & Heq & Hne & Hds).
  assert ((k <? 0) = false) as Hneg by lia. rewrite Hneg, app_empty_l in Heq.
  rewrite app_cons, app_empty_l. simpl.
  rewrite format_go_width; [|by rewrite Heq|intros _; apply of_Z_pos_head; lia].
  rewrite app_empty_l, app_cons, app_empty_l. simpl.
  rewrite format_go_prec by (by rewrite Heq).
  rewrite app_empty_l, app_cons, app_empty_l. simpl.
  unfold PyStr.conv_action. simpl.
  rewrite format_d_same by done.
  rewrite format_go_literal_end by done. done.
Qed.

(** [re.split] returns one piece more than there are runs of [#]. *)
Lemma length_split_hashes in_run s :
  length (PyStr.re_split_runs DraftParamParser.hash_sep_of (hash_run_state in_run) s)
  = S (DraftParamParser.hash_runs in_run s).
Proof.
  revert in_run. induction s as [|c s IH]; intros in_run; [done|]. simpl.
  unfold DraftParamParser.hash_sep_of at 1. destruct (Ascii.eqb c "#").
  - pose proof (IH true) as IHt. simpl in IHt.
    destruct in_run; simpl; by rewrite IHt.
  - specialize (IH false). simpl in IH.
    destruct (PyStr.re_split_runs _ None s); simpl in *; [done|lia].
Qed.

Lemma not_hash_no_sep s :
  PyStr.all_chars not_hash s = true ->
  PyStr.all_chars (fun c => bool_decide (DraftParamParser.hash_sep_of c = None)) s = true.
Proof.
  apply all_chars_impl. intros c. unfold not_hash, DraftParamParser.hash_sep_of.
  by destruct (Ascii.eqb c "#").
Qed.

Lemma split_hashes_in_run k s1 :
  PyStr.all_chars not_hash s1 = true ->
  PyStr.re_split_runs DraftParamParser.hash_sep_of (Some ())
    (PyStr.repeat_char "#" k +:+ s1) = [s1].
Proof.
  intros Hs1. induction k as [|k IH].
  - rewrite app_empty_l. destruct s1 as [|c s1]; [done|].
    simpl in *. apply andb_true_iff in Hs1 as [Hc Hs1].
    unfold DraftParamParser.hash_sep_of. unfold not_hash in Hc.
    destruct (Ascii.eqb c "#"); [done|].
    by rewrite (re_split_runs_no_sep _ _ (not_hash_no_sep _ Hs1)).
  - change (PyStr.repeat_char "#" (S k) +:+ s1)
      with (String "#" (PyStr.repeat_char "#" k +:+ s1)).
    simpl. apply IH.
Qed.

Lemma split_hashes_one_run s0 k s1 :
  (0 < k)%nat ->
  PyStr.all_chars not_hash s0 = true -> PyStr.all_chars not_hash s1 = true ->
  PyStr.re_split_runs DraftParamParser.hash_sep_of None
    (s0 +:+ PyStr.repeat_char "#" k +:+ s1) = [s0; s1].
Proof.
  intros Hk Hs0 Hs1. induction s0 as [|c s0 IH].
  - rewrite app_empty_l. destruct k as [|k]; [lia|].
    change (PyStr.repeat_char "#" (S k) +:+ s1)
      with (String "#" (PyStr.repeat_char "#" k +:+ s1)).
    simpl. by rewrite split_hashes_in_run.
  - simpl in Hs0. apply andb_true_iff in Hs0 as [Hc Hs0].
    rewrite app_cons. simpl. unfold DraftParamParser.hash_sep_of at 1.
    unfold not_hash in Hc. destruct (Ascii.eqb c "#"); [done|].
    by rewrite (IH Hs0).
Qed.

Lemma str_take_drop n s : PyStr.take n s +:+ PyStr.drop n s = s.
Proof.
  revert s. induction n as [|n IH]; intros [|c s]; try done.
  simpl. by rewrite app_cons, IH.
Qed.

(** The two parts [os.path.splitext] returns make up the path. *)
Lemma splitext_app p : (PyStr.splitext p).1 +:+ (PyStr.splitext p).2 = p.
Proof.
  unfold PyStr.splitext. destruct (PyStr.rfind "." p) as [dotIndex|].
  - destruct (_ && _); simpl; [apply str_take_drop|apply app_empty_r].
  - apply app_empty_r.
Qed.

(** Where the file name has no [%]: more than one run of [#] is refused;
    one run of [k] hashes is replaced by [n] padded with zeros to [k]
    digits; without hashes, [n] padded to 4 digits goes before the
    extension. *)
Lemma ReplaceFilenameHashesWithNumber_many path n :
  (1 < DraftParamParser.hash_runs false path)%nat ->
  DraftParamParser.ReplaceFilenameHashesWithNumber path n
  = Some (Raise DraftParamParser.too_many_hashes).
Proof.
  intros Hruns. unfold DraftParamParser.ReplaceFilenameHashesWithNumber.
  pose proof (length_split_hashes false path) as Hlen. simpl in Hlen.
  rewrite Hlen. by rewrite (proj2 (Nat.ltb_lt _ _)) by lia.
Qed.

Lemma ReplaceFilenameHashesWithNumber_one_run s0 k s1 n :
  (0 < k <= 100)%nat ->
  PyStr.all_chars not_hash s0 = true -> PyStr.all_chars not_hash s1 = true ->
  PyStr.all_chars not_percent s0 = true -> PyStr.all_chars not_percent s1 = true ->
  DraftParamParser.ReplaceFilenameHashesWithNumber
    (s0 +:+ PyStr.repeat_char "#" k +:+ s1) n
  = Some (Ok (s0 +:+ zero_padded k n +:+ s1)).
Proof.
  intros Hk Hh0 Hh1 Hp0 Hp1. unfold DraftParamParser.ReplaceFilenameHashesWithNumber.
  rewrite split_hashes_one_run by (done || lia). simpl.
  rewrite !str_length_app, length_repeat_char.
  replace (Z.of_nat (String.length s0 + (k + String.length s1))
           - Z.of_nat (String.length s0) - Z.of_nat (String.length s1))
    with (Z.of_nat k) by lia.
  rewrite format_hashes by (done || lia). by rewrite Nat2Z.id.
Qed.

Lemma ReplaceFilenameHashesWithNumber_no_hash path n :
  PyStr.all_chars not_hash path = true -> PyStr.all_chars not_percent path = true ->
  DraftParamParser.ReplaceFilenameHashesWithNumber path n
  = Some (Ok ((PyStr.splitext path).1 +:+ zero_padded 4 n +:+ (PyStr.splitext path).2)).
Proof.
  intros Hh Hp. unfold DraftParamParser.ReplaceFilenameHashesWithNumber.
  rewrite (re_split_runs_no_sep _ _ (not_hash_no_sep _ Hh)). simpl.
  pose proof (splitext_app path) as Happ.
  rewrite <- Happ, all_chars_app in Hp. apply andb_true_iff in Hp as [Hp0 Hp1].
  apply (format_hashes _ _ 4 n); [lia|done..].
Qed.

(** C10, at a file name with a [%]: the run of hashes is not replaced, the
    [%] of the name is read as a conversion and the call raises. *)
Theorem ReplaceFilenameHashesWithNumber_percent :
  DraftParamParser.hash_runs false "comp_50%_####.exr" = 1%nat
  /\ DraftParamParser.ReplaceFilenameHashesWithNumber "comp_50%_####.exr" 7
     = Some (Raise ValueError)
  /\ DraftParamParser.ReplaceFilenameHashesWithNumber "comp_50_####.exr" 7
     = Some (Ok "comp_50_0007.exr"%string).
Proof. vm_compute. done. Qed.


(** ** The CDL reader *)

Section reader_facts.
Context `{DraftASCCDLReader.Draft}.
Import DraftASCCDLReader.

Lemma first_components_text cdl tag v :
  element_text cdl tag = Some v ->
  first_components cdl tag = Ok (CStr <$> String.words v).
Proof.
  unfold element_text, first_components.
  destruct (getElementsByTagName cdl tag) as [|e ?]; [done|].
  destruct (firstChild e) as [n|]; [|done]. simpl.
  by intros ->.
Qed.

(** The loop converts the first three components and keeps the others. *)
Lemma convert_loop_three vS vO vP a0 a1 a2 rA b0 b1 b2 rB c0 c1 c2 rC :
  three_floats vS a0 a1 a2 rA -> three_floats vO b0 b1 b2 rB ->
  three_floats vP c0 c1 c2 rC ->
  convert_loop [0; 1; 2]%nat
    (CStr <$> String.words vS) (CStr <$> String.words vO) (CStr <$> String.words vP)
  = Ok ([CFloat a0; CFloat a1; CFloat a2] ++ (CStr <$> rA),
        [CFloat b0; CFloat b1; CFloat b2] ++ (CStr <$> rB),
        [CFloat c0; CFloat c1; CFloat c2] ++ (CStr <$> rC)).
Proof.
  intros (s0 & s1 & s2 & -> & Ha0 & Ha1 & Ha2) (o0 & o1 & o2 & -> & Hb0 & Hb1 & Hb2)
         (p0 & p1 & p2 & -> & Hc0 & Hc1 & Hc2).
  simpl. unfold float_at. simpl.
  rewrite Ha0. simpl. rewrite Hb0. simpl. rewrite Hc0. simpl.
  rewrite Ha1. simpl. rewrite Hb1. simpl. rewrite Hc1. simpl.
  rewrite Ha2. simpl. rewrite Hb2. simpl. rewrite Hc2. simpl.
  done.
Qed.

(** C5: when the block under [try] fails, the exception propagates if
    [raiseExceptionOnError] is set, and otherwise the function prints the
    warning and returns [None]; when it succeeds the function returns its
    LUT, which is created from the first [Slope], [Offset] and [Power]
    elements, their first three components converted to floats, and the
    first component of the first [Saturation] element, converted too. *)
Theorem ReadASCCDL_spec filename :
  (forall e, try_block filename = Raise e ->
     ReadASCCDL filename true = (Raise e, [])
     /\ ReadASCCDL filename false = (Ok None, [Warning warning_text e]))
  /\ (forall lut, try_block filename = Ok lut ->
        forall raiseExceptionOnError,
          ReadASCCDL filename raiseExceptionOnError = (Ok (Some lut), []))
  /\ (forall cdl vS vO vP vT a0 a1 a2 rA b0 b1 b2 rB c0 c1 c2 rC t rT sat,
        minidom_parse filename = Ok cdl ->
        element_text cdl "Slope" = Some vS -> element_text cdl "Offset" = Some vO ->
        element_text cdl "Power" = Some vP -> element_text cdl "Saturation" = Some vT ->
        three_floats vS a0 a1 a2 rA -> three_floats vO b0 b1 b2 rB ->
        three_floats vP c0 c1 c2 rC ->
        String.words vT = t :: rT -> float t = Ok sat ->
        try_block filename
        = CreateASCCDL ([CFloat a0; CFloat a1; CFloat a2] ++ (CStr <$> rA))
                       ([CFloat b0; CFloat b1; CFloat b2] ++ (CStr <$> rB))
                       ([CFloat c0; CFloat c1; CFloat c2] ++ (CStr <$> rC)) sat)
  /\ (forall e, minidom_parse filename = Raise e -> try_block filename = Raise e)
  /\ (forall cdl, minidom_parse filename = Ok cdl ->
        getElementsByTagName cdl "Slope" = [] -> try_block filename = Raise IndexError).
Proof.
  split_and!.
  - intros e He. unfold ReadASCCDL. by rewrite He.
  - intros lut Hlut b. unfold ReadASCCDL. by rewrite Hlut.
  - intros cdl vS vO vP vT a0 a1 a2 rA b0 b1 b2 rB c0 c1 c2 rC t rT sat
           Hparse HS HO HP HT HfS HfO HfP HwT Hsat.
    unfold try_block. rewrite Hparse. cbn [mbind result_bind].
    rewrite (first_components_text _ _ _ HS), (first_components_text _ _ _ HO),
      (first_components_text _ _ _ HP), (first_components_text _ _ _ HT).
    cbn [mbind result_bind].
    rewrite (convert_loop_three _ _ _ _ _ _ _ _ _ _ _ _ _ _ _ HfS HfO HfP).
    cbn [mbind result_bind]. rewrite HwT. simpl. by rewrite Hsat.
  - intros e He. unfold try_block. by rewrite He.
  - intros cdl Hparse Hnone. unfold try_block, first_components.
    rewrite Hparse. simpl. by rewrite Hnone.
Qed.

End reader_facts.

(** A run of [ReadASCCDL_spec] on a file that reads and on two that do
    not. *)
Lemma ReadASCCDL_witness :
  @DraftASCCDLReader.ReadASCCDL test_draft "grade.cdl" true
    = (Ok (Some ([DraftASCCDLReader.CFloat 1; DraftASCCDLReader.CFloat 2;
                  DraftASCCDLReader.CFloat 3],
                 [DraftASCCDLReader.CFloat 0; DraftASCCDLReader.CFloat 0;
                  DraftASCCDLReader.CFloat 0; DraftASCCDLReader.CStr "9"],
                 [DraftASCCDLReader.CFloat 1; DraftASCCDLReader.CFloat 1;
                  DraftASCCDLReader.CFloat 1], 1)), [])
  /\ (@DraftASCCDLReader.ReadASCCDL test_draft "missing.cdl" true = (Raise IOError, [])
      /\ @DraftASCCDLReader.ReadASCCDL test_draft "missing.cdl" false
         = (Ok None, [DraftASCCDLReader.Warning DraftASCCDLReader.warning_text IOError]))
  /\ (@DraftASCCDLReader.ReadASCCDL test_draft "empty.cdl" true = (Raise IndexError, [])
      /\ @DraftASCCDLReader.ReadASCCDL test_draft "empty.cdl" false
         = (Ok None,
            [DraftASCCDLReader.Warning DraftASCCDLReader.warning_text IndexError])).
Proof.
  pose proof (@ReadASCCDL_spec test_draft "grade.cdl") as (_ & Hok & _).
  pose proof (@ReadASCCDL_spec test_draft "missing.cdl") as (Hmissing & _).
  pose proof (@ReadASCCDL_spec test_draft "empty.cdl") as (Hempty & _).
  split; [|split].
  - apply Hok. reflexivity.
  - apply Hmissing. reflexivity.
  - apply Hempty. reflexivity.
Defined.

(** ** The application *)

(** C4: once the module is imported, [init_app] asks the engine to register
    one command more, captioned [R8S Publish], and stores the manager class;
    from then on [create_publish_manager] returns a new instance of that
    class. *)
Theorem init_app_spec import_module m w :
  import_module "tk_multi_publish2"%string = Ok m ->
  exists w',
    App.init_app import_module w = Ok w'
    /\ App.engine_commands w'
       = App.engine_commands w ++ [("R8S Publish"%string, App.ShowDialog m)]
    /\ App._manager_class w' = Some (App.PublishManager m)
    /\ App.heap w' = App.heap w
    /\ exists w'',
         App.create_publish_manager w' = Ok (length (App.heap w'), w'')
         /\ App.heap w' !! length (App.heap w') = None
         /\ App.heap w'' !! length (App.heap w') = Some (App.PublishManager m)
         /\ (forall i cls, App.heap w' !! i = Some cls -> App.heap w'' !! i = Some cls)
         /\ App.engine_commands w'' = App.engine_commands w'
         /\ App._manager_class w'' = App._manager_class w'.
Proof.
  intros Himport. unfold App.init_app. rewrite Himport. simpl.
  eexists. split; [done|]. simpl. split_and!; [done..|].
  unfold App.create_publish_manager. simpl. eexists. split; [done|]. simpl.
  split_and!; [| | |done..].
  - apply lookup_ge_None. lia.
  - rewrite lookup_app_r by lia. by rewrite Nat.sub_diag.
  - intros i cls Hi. by apply lookup_app_l_Some.
Qed.

Lemma init_app_witness :
  exists w',
    App.init_app test_import test_world = Ok w'
    /\ App.engine_commands w'
       = App.engine_commands test_world
           ++ [("R8S Publish"%string,
                App.ShowDialog
                  {| App.PublishManager := "tk_multi_publish2.PublishManager";
                     App.util := "tk_multi_publish2.util";
                     App.base_hooks := "tk_multi_publish2.base_hooks" |})]
    /\ App._manager_class w' = Some "tk_multi_publish2.PublishManager"%string
    /\ App.heap w' = App.heap test_world
    /\ exists w'',
         App.create_publish_manager w' = Ok (length (App.heap w'), w'')
         /\ App.heap w' !! length (App.heap w') = None
         /\ App.heap w'' !! length (App.heap w')
            = Some "tk_multi_publish2.PublishManager"%string
         /\ (forall i cls, App.heap w' !! i = Some cls -> App.heap w'' !! i = Some cls)
         /\ App.engine_commands w'' = App.engine_commands w'
         /\ App._manager_class w'' = App._manager_class w'.
Proof.
  apply (init_app_spec test_import
           {| App.PublishManager := "tk_multi_publish2.PublishManager";
              App.util := "tk_multi_publish2.util";
              App.base_hooks := "tk_multi_publish2.base_hooks" |} test_world).
  reflexivity.
Defined.


(** ** The publish hook *)

(** One step of a method: name the result and the state of the first
    computation of a sequence. *)
Lemma hook_bind_ok {A B} (m : PublishFile.hook A) (f : A -> PublishFile.hook B) st a st' :
  m st = (Ok a, st') -> (m ≫= f) st = f a st'.
Proof. intros Hm. unfold mbind, PublishFile.hook_bind. by rewrite Hm. Qed.

Lemma hook_bind_raise {A B} (m : PublishFile.hook A) (f : A -> PublishFile.hook B) st e st' :
  m st = (Raise e, st') -> (m ≫= f) st = (Raise e, st').
Proof. intros Hm. unfold mbind, PublishFile.hook_bind. by rewrite Hm. Qed.

Lemma hook_bind_inv {A B} (m : PublishFile.hook A) (f : A -> PublishFile.hook B) st b st' :
  (m ≫= f) st = (Ok b, st') ->
  exists a st1, m st = (Ok a, st1) /\ f a st1 = (Ok b, st').
Proof.
  unfold mbind, PublishFile.hook_bind. destruct (m st) as [[a|e] st1]; [|done].
  intros Hf. by exists a, st1.
Qed.

Section hook_facts.
Context `{PublishFile.Toolkit}.
Import PublishFile.

(** C7: whenever [accept] returns, it returns the dictionary whose only
    key is [accepted], with the value [True]; [enabled], [visible] and
    [checked] are not set. *)
Theorem accept_accepted item st d st' :
  accept item st = (Ok d, st') ->
  d = {[ "accepted"%string := true ]}
  /\ d !! "accepted"%string = Some true
  /\ d !! "enabled"%string = None
  /\ d !! "visible"%string = None
  /\ d !! "checked"%string = None.
Proof.
  unfold accept. intros Hrun.
  repeat (apply hook_bind_inv in Hrun as (? & ? & _ & Hrun)).
  injection Hrun as <- _. done.
Qed.

End hook_facts.

Lemma accept_accepted_witness :
  exists d st',
    @PublishFile.accept test_toolkit accepted_item test_state = (Ok d, st')
    /\ d = {[ "accepted"%string := true ]}
    /\ d !! "accepted"%string = Some true
    /\ d !! "enabled"%string = None
    /\ d !! "visible"%string = None
    /\ d !! "checked"%string = None.
Proof.
  eexists _, _. split.
  - vm_compute. reflexivity.
  - eapply (@accept_accepted test_toolkit accepted_item test_state).
    vm_compute. reflexivity.
Defined.

Section hook_versions.
Context `{PublishFile.Toolkit}.
Import PublishFile.

Lemma new_entries_add_log st l : new_entries st (add_log st l) = l.
Proof. unfold new_entries, add_log. simpl. by rewrite drop_app_length. Qed.

Lemma new_entries_same st : new_entries st st = [].
Proof. unfold new_entries. by rewrite drop_all. Qed.

(** What [work_fields_of] returns is [extracted_fields], unless the work
    template is a true value that is not a template. *)
Lemma work_fields_of_log item path lvl msg st :
  (truthy (properties_get item "work_template") = true ->
   exists name, properties_get item "work_template" = VTemplate name) ->
  work_fields_of item path (log lvl msg) st
  = (Ok (extracted_fields item path),
     if bool_decide (is_Some (extracted_fields item path))
     then add_log st [(lvl, msg)] else st).
Proof.
  intros Htmpl. unfold work_fields_of, extracted_fields.
  destruct (truthy (properties_get item "work_template")) eqn:Htruthy.
  - destruct (Htmpl eq_refl) as [name Hname]. rewrite Hname in *.
    unfold mbind, hook_bind, lift, validate_path, get_fields. simpl.
    by destruct (template_validate name path).
  - by destruct (properties_get item "work_template").
Qed.

Lemma work_fields_of_quiet item path st :
  (truthy (properties_get item "work_template") = true ->
   exists name, properties_get item "work_template" = VTemplate name) ->
  work_fields_of item path (mret ()) st = (Ok (extracted_fields item path), st).
Proof.
  intros Htmpl. unfold work_fields_of, extracted_fields.
  destruct (truthy (properties_get item "work_template")) eqn:Htruthy.
  - destruct (Htmpl eq_refl) as [name Hname]. rewrite Hname in *.
    unfold mbind, hook_bind, lift, validate_path, get_fields. simpl.
    by destruct (template_validate name path).
  - by destruct (properties_get item "work_template").
Qed.

Lemma work_fields_of_not_template item path note st :
  truthy (properties_get item "work_template") = true ->
  (forall name, properties_get item "work_template" <> VTemplate name) ->
  work_fields_of item path note st = (Raise AttributeError, st).
Proof.
  intros Htruthy Hnot. unfold work_fields_of. rewrite Htruthy.
  unfold mbind, hook_bind, lift, validate_path.
  destruct (properties_get item "work_template"); try done.
  by destruct (Hnot name).
Qed.

Lemma extracted_fields_template item path name :
  properties item !! "work_template"%string = Some (VTemplate name) ->
  template_validate name path = true ->
  extracted_fields item path = Some (template_get_fields name path).
Proof.
  intros Hprop Hvalid. unfold extracted_fields, properties_get.
  rewrite Hprop. simpl. by rewrite Hvalid.
Qed.

Lemma template_property item name :
  properties item !! "work_template"%string = Some (VTemplate name) ->
  truthy (properties_get item "work_template") = true ->
  exists name', properties_get item "work_template" = VTemplate name'.
Proof. intros Hprop _. exists name. unfold properties_get. by rewrite Hprop. Qed.

(** C8, amended: without an explicit version, and with a work template
    that validates the path, [get_publish_version] returns [None] when the
    fields extracted are not empty and have no [version]; when no field is
    extracted it takes the path-info fallback, whose value is 1 when the
    hook finds no version.  The fallback is taken only when no field was
    extracted: no template that validates the path, or an empty
    dictionary. *)
Theorem get_publish_version_fields item st path :
  truthy (get_property item "publish_version") = false ->
  properties item !! "path"%string = Some path ->
  (forall name,
     properties item !! "work_template"%string = Some (VTemplate name) ->
     template_validate name path = true ->
     (template_get_fields name path <> ∅ ->
      template_get_fields name path !! "version"%string = None ->
      get_publish_version item st = (Ok VNone, add_log st [matched_note]))
     /\ (template_get_fields name path = ∅ ->
         get_publish_version item st
         = (Ok (VInt (default 1 (get_version_number path))),
            add_log st [matched_note; fallback_note])))
  /\ (forall r st',
        get_publish_version item st = (r, st') ->
        fallback_note ∈ new_entries st st' ->
        extracted_fields item path = None \/ extracted_fields item path = Some ∅).
Proof.
  intros Hversion Hpath. split.
  - intros name Hprop Hvalid.
    pose proof (extracted_fields_template _ _ _ Hprop Hvalid) as Hfields.
    unfold get_publish_version. rewrite Hversion.
    unfold properties_attr. rewrite Hpath.
    rewrite (hook_bind_ok _ _ st path st eq_refl).
    rewrite (hook_bind_ok _ _ _ _ _
               (work_fields_of_log item path _ _ st (template_property _ _ Hprop))).
    rewrite Hfields. rewrite bool_decide_eq_true_2 by eauto. simpl. split.
    + intros Hne Hnone. rewrite bool_decide_eq_false_2 by done. simpl.
      by rewrite Hnone.
    + intros Hempty. rewrite bool_decide_eq_true_2 by done. simpl.
      unfold mbind, hook_bind, log, add_log. simpl.
      by rewrite <- app_assoc.
  - intros r st' Hrun Hnote.
    unfold get_publish_version in Hrun. rewrite Hversion in Hrun.
    unfold properties_attr in Hrun. rewrite Hpath in Hrun.
    rewrite (hook_bind_ok _ _ st path st eq_refl) in Hrun.
    destruct (truthy (properties_get item "work_template")) eqn:Htruthy;
      [destruct (properties_get item "work_template") as [| | |name|] eqn:Hwt|].
    all: try (rewrite (hook_bind_raise _ _ _ AttributeError st) in Hrun
                by (apply work_fields_of_not_template; by rewrite Hwt);
              injection Hrun as <- <-; rewrite new_entries_same in Hnote;
              by apply elem_of_nil in Hnote).
    + rewrite (hook_bind_ok _ _ _ _ _ (work_fields_of_log item path _ _ st
                 ltac:(intros _; rewrite Hwt; eauto))) in Hrun.
      destruct (extracted_fields item path) as [fields|] eqn:Hfields; [|by left].
      destruct (decide (fields = ∅)) as [->|Hne]; [by right|].
      exfalso. rewrite bool_decide_eq_true_2 in Hrun by eauto. simpl in Hrun.
      rewrite bool_decide_eq_false_2 in Hrun by done. simpl in Hrun.
      destruct (fields !! "version"%string) as [v|].
      * unfold mbind, hook_bind, log in Hrun. simpl in Hrun.
        injection Hrun as <- <-. unfold new_entries in Hnote. simpl in Hnote.
        rewrite <- app_assoc, drop_app_length in Hnote.
        repeat (apply elem_of_cons in Hnote as [Hnote|Hnote]; [done|]).
        by apply elem_of_nil in Hnote.
      * injection Hrun as <- <-. rewrite new_entries_add_log in Hnote.
        repeat (apply elem_of_cons in Hnote as [Hnote|Hnote]; [done|]).
        by apply elem_of_nil in Hnote.
    + left. unfold extracted_fields.
      by destruct (properties_get item "work_template").
Qed.

End hook_versions.

Lemma get_publish_version_fields_witness :
  (@PublishFile.get_publish_version test_toolkit named_item test_state
   = (Ok PublishFile.VNone, add_log test_state [matched_note]))
  /\ (@PublishFile.get_publish_version test_toolkit static_item test_state
      = (Ok (PublishFile.VInt 1), add_log test_state [matched_note; fallback_note])).
Proof.
  split.
  - apply (proj1 (proj1 (@get_publish_version_fields test_toolkit named_item test_state
                           (PublishFile.VStr "/work/shot.ma") eq_refl eq_refl)
                    "work_named"%string eq_refl eq_refl)).
    + vm_compute. done.
    + vm_compute. done.
  - apply (proj2 (proj1 (@get_publish_version_fields test_toolkit static_item test_state
                           (PublishFile.VStr "/work/shot.ma") eq_refl eq_refl)
                    "work_static"%string eq_refl eq_refl)).
    vm_compute. done.
Defined.

(** C8 as stated fails where the template validates the path and extracts
    no field at all: there is no [version] key, and the result is the
    fallback value 1, not [None]. *)
Lemma get_publish_version_no_fields :
  PublishFile.truthy (@PublishFile.get_property test_toolkit static_item "publish_version")
    = false
  /\ PublishFile.properties static_item !! "work_template"%string
     = Some (PublishFile.VTemplate "work_static")
  /\ @PublishFile.template_validate test_toolkit "work_static"
       (PublishFile.VStr "/work/shot.ma") = true
  /\ @PublishFile.template_get_fields test_toolkit "work_static"
       (PublishFile.VStr "/work/shot.ma") !! "version"%string = None
  /\ (@PublishFile.get_publish_version test_toolkit static_item test_state).1
     = Ok (PublishFile.VInt 1)
  /\ (@PublishFile.get_publish_version test_toolkit static_item test_state).1
     <> Ok PublishFile.VNone.
Proof. vm_compute. split_and!; done. Qed.

Section hook_next_version.
Context `{PublishFile.Toolkit}.
Import PublishFile.

(** C2, amended: for a path that is [None] or the empty string the result
    is [(None, None)]; for another path that the work template validates,
    with an integer [version] among its fields, it is the template applied
    to the fields with the version increased by 1, and that version;
    otherwise, the work template being a template when it is set, it is what
    the path-info hook gives: the next path, and the version found plus 1,
    or [None] when none is found. *)
Theorem _get_next_version_info_spec item st :
  (forall path,
     truthy path = false ->
     _get_next_version_info path item st
     = (Ok (VNone, VNone),
        add_log st [(Debug, "Path is None. Can not determine version info."%string)]))
  /\ (forall path name v,
        truthy path = true ->
        properties item !! "work_template"%string = Some (VTemplate name) ->
        template_validate name path = true ->
        template_get_fields name path !! "version"%string = Some (VInt v) ->
        _get_next_version_info path item st
        = ((fun next => (VStr next, VInt (v + 1)))
             <$> template_apply_fields name
                   (<["version"%string := VInt (v + 1)]> (template_get_fields name path)),
           st))
  /\ (forall path,
        truthy path = true ->
        (truthy (properties_get item "work_template") = true ->
         exists name, properties_get item "work_template" = VTemplate name) ->
        (extracted_fields item path = None
         \/ exists fields, extracted_fields item path = Some fields
                           /\ fields !! "version"%string = None) ->
        _get_next_version_info path item st
        = (Ok (of_option_str (get_next_version_path path),
               match get_version_number path with
               | Some v => VInt (v + 1)
               | None => VNone
               end), st)).
Proof.
  split_and!.
  - intros path Hpath. unfold _get_next_version_info. by rewrite Hpath.
  - intros path name v Hpath Hprop Hvalid Hversion.
    unfold _get_next_version_info. rewrite Hpath. simpl.
    rewrite (hook_bind_ok _ _ _ _ _
               (work_fields_of_quiet item path st (template_property _ _ Hprop))).
    rewrite (extracted_fields_template _ _ _ Hprop Hvalid). simpl.
    assert (template_get_fields name path <> ∅) as Hne.
    { intros Hempty. by rewrite Hempty, lookup_empty in Hversion. }
    rewrite bool_decide_eq_false_2 by done. simpl. rewrite Hversion.
    unfold mbind, hook_bind, lift, apply_fields, properties_get. simpl.
    rewrite Hprop. simpl.
    by destruct (template_apply_fields name _).
  - intros path Hpath Htmpl Hfields.
    unfold _get_next_version_info. rewrite Hpath. simpl.
    rewrite (hook_bind_ok _ _ _ _ _ (work_fields_of_quiet item path st Htmpl)).
    destruct Hfields as [->|(fields & -> & Hnone)]; [done|].
    simpl. rewrite Hnone. by destruct (bool_decide (fields = ∅)).
Qed.

End hook_next_version.

(** Runs of [_get_next_version_info_spec]: no path, a versioned work file,
    and a work file whose template has no version, with a path-info hook
    that finds version 5. *)
Lemma _get_next_version_info_witness :
  (@PublishFile._get_next_version_info test_toolkit PublishFile.VNone accepted_item
     test_state
   = (Ok (PublishFile.VNone, PublishFile.VNone),
      add_log test_state
        [(PublishFile.Debug, "Path is None. Can not determine version info."%string)]))
  /\ (@PublishFile._get_next_version_info test_toolkit
        (PublishFile.VStr "/work/shot.ma") accepted_item test_state
      = (Ok (PublishFile.VStr "/work_versioned/shot.v4.ma", PublishFile.VInt 4),
         test_state))
  /\ (@PublishFile._get_next_version_info eager_toolkit
        (PublishFile.VStr "/work/shot.ma") named_item test_state
      = (Ok (PublishFile.VStr "/work/next.ma", PublishFile.VInt 6), test_state)).
Proof.
  split; [|split].
  - apply (proj1 (@_get_next_version_info_spec test_toolkit accepted_item test_state)).
    reflexivity.
  - apply (proj1 (proj2 (@_get_next_version_info_spec test_toolkit accepted_item
                           test_state))
             (PublishFile.VStr "/work/shot.ma") "work_versioned"%string 3);
      reflexivity.
  - apply (proj2 (proj2 (@_get_next_version_info_spec eager_toolkit named_item
                           test_state))
             (PublishFile.VStr "/work/shot.ma")).
    + reflexivity.
    + intros _. by exists "work_named"%string.
    + right. eexists. split; reflexivity.
Defined.

(** C2 as stated fails at the empty path: it is not [None], the path-info
    hook of this toolkit finds version 5 in it, so that the fallback would
    return version 6, and the result is [(None, None)]. *)
Lemma _get_next_version_info_empty_path :
  PublishFile.VStr EmptyString <> PublishFile.VNone
  /\ @PublishFile.get_version_number eager_toolkit (PublishFile.VStr EmptyString) = Some 5
  /\ (@PublishFile._get_next_version_info eager_toolkit (PublishFile.VStr EmptyString)
        named_item test_state).1
     = Ok (PublishFile.VNone, PublishFile.VNone)
  /\ (@PublishFile._get_next_version_info eager_toolkit (PublishFile.VStr EmptyString)
        named_item test_state).1
     <> Ok (PublishFile.of_option_str
              (@PublishFile.get_next_version_path eager_toolkit (PublishFile.VStr EmptyString)),
            PublishFile.VInt (5 + 1)).
Proof. split_and!; done. Qed.

Section hook_validate.
Context `{PublishFile.Toolkit}.
Import PublishFile.

(** Once the publish path and name are resolved, [validate] raises the
    exception with the link message if the context's entity is empty, else
    the exception with the conflict message if there are conflicting
    publishes and the item has a [work_template] property or a publish
    template; else it returns [True], after a warning if there are
    conflicting publishes.  An exception raised while the path and name are
    resolved propagates. *)
Lemma validate_spec item st :
  (forall e st1,
     _get_publish_path item st = (Raise e, st1) -> validate item st = (Raise e, st1))
  /\ (forall publish_name publish_path st1,
        _get_publish_path item st = (Ok (publish_name, publish_path), st1) ->
        let publishes :=
          get_conflicting_publishes (context item) publish_path publish_name in
        let templates_in_play :=
          bool_decide (is_Some (properties item !! "work_template"%string))
          || truthy (get_publish_template item) in
        (entity_truthy (entity (context item)) = false ->
         validate item st
         = (Raise (PyException link_error),
            add_log st1 [info_note; (Error, link_error)]))
        /\ (entity_truthy (entity (context item)) = true ->
            publishes <> [] -> templates_in_play = true ->
            validate item st
            = (Raise (PyException conflict_error),
               add_log st1 [info_note; conflicts_note; (Error, conflict_error)]))
        /\ (entity_truthy (entity (context item)) = true ->
            publishes <> [] -> templates_in_play = false ->
            validate item st
            = (Ok true,
               add_log st1 ([info_note; conflicts_note; conflicts_warning]
                              ++ linked_notes)))
        /\ (entity_truthy (entity (context item)) = true ->
            publishes = [] ->
            validate item st = (Ok true, add_log st1 (info_note :: linked_notes)))).
Proof.
  split.
  - intros e st1 Hpath. unfold validate. by rewrite (hook_bind_raise _ _ _ _ _ Hpath).
  - intros publish_name publish_path st1 Hpath publishes templates_in_play.
    unfold validate. rewrite (hook_bind_ok _ _ _ _ _ Hpath). simpl.
    fold publishes. fold templates_in_play.
    unfold mbind, hook_bind, log, raise, mret, hook_ret, add_log. simpl.
    split_and!.
    + intros ->. simpl. by rewrite <- app_assoc.
    + intros -> Hne Htmpl. simpl. rewrite bool_decide_eq_false_2 by done. simpl.
      rewrite Htmpl. simpl. by rewrite <- !app_assoc.
    + intros -> Hne Htmpl. simpl. rewrite bool_decide_eq_false_2 by done. simpl.
      rewrite Htmpl. simpl. by rewrite <- !app_assoc.
    + intros -> Hnil. simpl. rewrite bool_decide_eq_true_2 by done. simpl.
      by rewrite <- !app_assoc.
Qed.

(** The exceptions of the publish type. *)
Lemma file_types_loop_raise extension type_defs publish_engine e :
  file_types_loop extension type_defs publish_engine = Raise e -> e = IndexError.
Proof.
  revert publish_engine. induction type_defs as [|type_def rest IH]; [done|].
  intros publish_engine. simpl. destruct type_def as [|? [|? ?]]; try by intros [= <-].
  case_bool_decide; [done|]. apply IH.
Qed.

Lemma get_publish_type_raise s item e :
  get_publish_type s item = Raise e ->
  e = AttributeError \/ e = KeyError \/ e = IndexError.
Proof.
  unfold get_publish_type. destruct (truthy (get_property item "publish_type")); [done|].
  unfold properties_attr. destruct (properties item !! "path"%string) as [path|];
    [|intros [= <-]; auto].
  simpl. destruct (negb (bool_decide (default EmptyString (path_extension path) = _)));
    simpl.
  - destruct (File_Types s) as [type_defs|]; [|intros [= <-]; auto]. simpl.
    destruct (file_types_loop _ type_defs _) as [[found engine]|e'] eqn:Hloop; simpl.
    + destruct found as [[? ?]|]; [done|]. by case_match.
    + apply file_types_loop_raise in Hloop as ->. intros [= <-]. auto.
  - by case_match.
Qed.

(** C1, where the context has no entity: the entity is read while the
    publish path is resolved, before [validate] checks it, so that the
    exception is not the one with the link message, and nothing is logged. *)
Theorem validate_no_entity item st :
  entity (context item) = None ->
  exists e,
    validate item st = (Raise e, st)
    /\ (e = AttributeError \/ e = KeyError \/ e = IndexError \/ e = TypeError)
    /\ (forall msg, e <> PyException msg).
Proof.
  intros Hentity.
  assert (exists e, _get_publish_path item st = (Raise e, st)
            /\ (e = AttributeError \/ e = KeyError \/ e = IndexError \/ e = TypeError))
    as (e & Hpath & He).
  { unfold _get_publish_path, get_settings, mbind, hook_bind, lift. simpl.
    destruct (get_publish_type (settings st) item) as [[publish_type engine]|e] eqn:Htype.
    - simpl. destruct (PyStr.contains "images" engine); simpl.
      + rewrite Hentity. simpl. eauto 10.
      + destruct (py_in "Texture Folder" publish_type) as [is_folder|e] eqn:Hin.
        * simpl. rewrite Hentity. simpl. eauto 10.
        * exists e. split; [done|]. destruct publish_type; simplify_eq/=; auto.
    - exists e. split; [done|].
      destruct (get_publish_type_raise _ _ _ Htype) as [->|[->| ->]]; auto. }
  exists e. split_and!; [|done|].
  - by apply validate_spec.
  - intros msg ->. by destruct He as [?|[?|[?|?]]].
Qed.

End hook_validate.

Lemma validate_no_entity_witness :
  PublishFile.entity (PublishFile.context unlinked_item) = None
  /\ @PublishFile.validate test_toolkit unlinked_item test_state
     = (Raise AttributeError, test_state)
  /\ exists e,
       @PublishFile.validate test_toolkit unlinked_item test_state = (Raise e, test_state)
       /\ (e = AttributeError \/ e = KeyError \/ e = IndexError \/ e = TypeError)
       /\ (forall msg, e <> PyException msg).
Proof.
  split; [reflexivity|]. split; [reflexivity|].
  apply (@validate_no_entity test_toolkit unlinked_item test_state). reflexivity.
Defined.

(** Items in place under their shot: valid, valid with a warning, and
    refused for a conflicting publish. *)
Example validate_linked_items :
  (exists st', @PublishFile.validate test_toolkit placed_item test_state = (Ok true, st'))
  /\ (exists st',
        @PublishFile.validate test_toolkit conflicting_item test_state = (Ok true, st')
        /\ conflicts_warning ∈ PublishFile.logger st')
  /\ (exists st',
        @PublishFile.validate test_toolkit conflicting_template_item test_state
        = (Raise (PyException PublishFile.conflict_error), st')).
Proof.
  split; [|split].
  - eexists.
    eapply (proj2 (proj2 (proj2 (proj2 (@validate_spec test_toolkit placed_item test_state)
                     _ _ _ eq_refl)))); reflexivity.
  - eexists. split.
    + eapply (proj1 (proj2 (proj2 (proj2 (@validate_spec test_toolkit conflicting_item
                        test_state) _ _ _ eq_refl)))); [reflexivity|done|reflexivity].
    + simpl. set_solver.
  - eexists.
    eapply (proj1 (proj2 (proj2 (@validate_spec test_toolkit conflicting_template_item
                     test_state) _ _ _ eq_refl))); [reflexivity|done|reflexivity].
Qed.

(** An item linked to an asset, in a configuration without a location
    template for assets: the lookup of the template fails. *)
Example validate_unconfigured_template :
  PublishFile.entity_truthy (PublishFile.entity (PublishFile.context asset_item)) = true
  /\ (@PublishFile.validate test_toolkit asset_item test_state).1 = Raise KeyError.
Proof. split; done. Qed.

(** * Further properties *)

(** ** Frame strings *)

Lemma token_frames_empty fuel :
  DraftParamParser.token_frames fuel EmptyString = Some (Ok []).
Proof. reflexivity. Qed.

Lemma tokens_frames_app fuel l1 l2 frames :
  DraftParamParser.tokens_frames fuel (l1 ++ l2) frames
  = match DraftParamParser.tokens_frames fuel l1 frames with
    | Some (Ok frames') => DraftParamParser.tokens_frames fuel l2 frames'
    | r => r
    end.
Proof.
  revert frames. induction l1 as [|t l1 IH]; intros frames; [done|]. simpl.
  destruct (DraftParamParser.token_frames fuel t) as [[fs|e]|]; [|done..].
  apply IH.
Qed.

(** The frames already collected are kept in front of the new ones. *)
Lemma tokens_frames_acc fuel l frames :
  DraftParamParser.tokens_frames fuel l frames
  = match DraftParamParser.tokens_frames fuel l [] with
    | Some (Ok fs) => Some (Ok (frames ++ fs))
    | r => r
    end.
Proof.
  revert frames. induction l as [|t l IH]; intros frames.
  { simpl. by rewrite app_nil_r. }
  simpl. destruct (DraftParamParser.token_frames fuel t) as [[fs|e]|]; [|done..].
  rewrite (IH (frames ++ fs)), (IH fs).
  destruct (DraftParamParser.tokens_frames fuel l []) as [[fs'|e]|]; [|done..].
  simpl. by rewrite app_assoc.
Qed.

(** Empty tokens add nothing. *)
Lemma tokens_frames_filter fuel l frames :
  DraftParamParser.tokens_frames fuel l frames
  = DraftParamParser.tokens_frames fuel (filter (fun t => t <> EmptyString) l) frames.
Proof.
  revert frames. induction l as [|t l IH]; intros frames; [done|].
  destruct (decide (t = EmptyString)) as [->|Hne].
  - rewrite filter_cons_False by naive_solver. simpl. rewrite app_nil_r. apply IH.
  - rewrite filter_cons_True by done. simpl.
    destruct (DraftParamParser.token_frames fuel t) as [[fs|e]|]; [|done..].
    apply IH.
Qed.

Lemma frame_tokens_inrun inrun s :
  filter (fun t => t <> EmptyString)
    (PyStr.re_split_runs DraftParamParser.frame_sep_of inrun s)
  = frame_tokens s.
Proof.
  unfold frame_tokens. destruct s as [|c s]; [done|]. simpl.
  destruct (DraftParamParser.frame_sep_of c) as [k|]; [|done].
  destruct (decide (inrun = Some k)) as [->|Hne].
  - by rewrite filter_cons_False by naive_solver.
  - done.
Qed.

Lemma re_split_runs_nonempty {K} `{EqDecision K} (sep_of : ascii -> option K) inrun s :
  PyStr.re_split_runs sep_of inrun s <> [].
Proof.
  revert inrun. induction s as [|c s IH]; intros inrun; [done|]. simpl.
  destruct (sep_of c) as [k|].
  - destruct (decide (inrun = Some k)); [apply IH|done].
  - by destruct (PyStr.re_split_runs sep_of None s).
Qed.

(** Splitting a string that goes on after a separator: the first piece is
    that of the part before the separator. *)
Lemma re_split_runs_app_sep s1 c s2 k :
  DraftParamParser.frame_sep_of c = Some k ->
  exists p ps qs,
    PyStr.re_split_runs DraftParamParser.frame_sep_of None (s1 +:+ String c s2) = p :: ps
    /\ PyStr.re_split_runs DraftParamParser.frame_sep_of None s1 = p :: qs
    /\ filter (fun t => t <> EmptyString) ps
       = filter (fun t => t <> EmptyString) qs ++ frame_tokens s2.
Proof.
  intros Hc. induction s1 as [|a s1 IH].
  - rewrite app_empty_l. simpl. rewrite Hc.
    exists EmptyString, (PyStr.re_split_runs DraftParamParser.frame_sep_of (Some k) s2), [].
    split_and!; [done..|]. by rewrite frame_tokens_inrun.
  - destruct IH as (p & ps & qs & Hfull & Hleft & Hfilter).
    rewrite app_cons. simpl. destruct (DraftParamParser.frame_sep_of a) as [k'|] eqn:Ha.
    + exists EmptyString,
        (PyStr.re_split_runs DraftParamParser.frame_sep_of (Some k') (s1 +:+ String c s2)),
        (PyStr.re_split_runs DraftParamParser.frame_sep_of (Some k') s1).
      split_and!; [done..|].
      rewrite !frame_tokens_inrun. unfold frame_tokens at 1 2. rewrite Hfull, Hleft.
      destruct (decide (p = EmptyString)) as [->|Hp].
      * by rewrite !filter_cons_False by naive_solver.
      * rewrite !filter_cons_True by done. simpl. by rewrite Hfilter.
    + rewrite Hfull, Hleft. by exists (String a p), ps, qs.
Qed.

Lemma frame_tokens_app_sep s1 c s2 :
  is_frame_sep c = true ->
  frame_tokens (s1 +:+ String c s2) = frame_tokens s1 ++ frame_tokens s2.
Proof.
  unfold is_frame_sep. intros [k Hc]%bool_decide_eq_true.
  destruct (re_split_runs_app_sep s1 c s2 k Hc) as (p & ps & qs & Hfull & Hleft & Hfilter).
  unfold frame_tokens at 1 2. rewrite Hfull, Hleft.
  destruct (decide (p = EmptyString)) as [->|Hp].
  - by rewrite !filter_cons_False by naive_solver.
  - rewrite !filter_cons_True by done. simpl. by rewrite Hfilter.
Qed.

Lemma FrameRangeToFrames_tokens fuel s :
  DraftParamParser.FrameRangeToFrames fuel s
  = match DraftParamParser.tokens_frames fuel (frame_tokens s) [] with
    | Some (Ok frames) => Some (Ok (DraftParamParser.set_sorted frames))
    | r => r
    end.
Proof.
  unfold DraftParamParser.FrameRangeToFrames, frame_tokens.
  by rewrite <- tokens_frames_filter.
Qed.

(** X1: two frame strings joined by a separator give the union of what
    each gives. *)
Theorem FrameRangeToFrames_join fuel s1 c s2 l1 l2 :
  is_frame_sep c = true ->
  DraftParamParser.FrameRangeToFrames fuel s1 = Some (Ok l1) ->
  DraftParamParser.FrameRangeToFrames fuel s2 = Some (Ok l2) ->
  exists l,
    DraftParamParser.FrameRangeToFrames fuel (s1 +:+ String c s2) = Some (Ok l)
    /\ forall x, x ∈ l <-> x ∈ l1 \/ x ∈ l2.
Proof.
  intros Hc. rewrite !FrameRangeToFrames_tokens, (frame_tokens_app_sep _ _ _ Hc).
  rewrite tokens_frames_app.
  destruct (DraftParamParser.tokens_frames fuel (frame_tokens s1) [])
    as [[f1|e]|]; [|done..].
  intros [= <-]. rewrite (tokens_frames_acc _ _ f1).
  destruct (DraftParamParser.tokens_frames fuel (frame_tokens s2) [])
    as [[f2|e]|]; [|done..].
  intros [= <-]. eexists. split; [reflexivity|]. intros x.
  rewrite !set_sorted_elem_of. set_solver.
Qed.

Lemma FrameRangeToFrames_join_witness :
  exists l,
    DraftParamParser.FrameRangeToFrames 9 ("7-9" +:+ String "," " 10-3x2") = Some (Ok l)
    /\ forall x, x ∈ l <-> x ∈ [7; 8; 9] \/ x ∈ [4; 6; 8; 10].
Proof.
  apply (FrameRangeToFrames_join 9 "7-9" "," " 10-3x2"); reflexivity.
Defined.

Lemma set_sorted_nil : DraftParamParser.set_sorted [] = [].
Proof. reflexivity. Qed.

Lemma set_sorted_singleton n : DraftParamParser.set_sorted [n] = [n].
Proof.
  apply (StronglySorted_unique Z.le).
  - unfold DraftParamParser.set_sorted. apply StronglySorted_merge_sort; apply _.
  - repeat constructor.
  - apply NoDup_Permutation; [apply set_sorted_NoDup|apply NoDup_singleton|].
    intros x. by rewrite set_sorted_elem_of.
Qed.

Lemma frame_tokens_all_sep s :
  PyStr.all_chars is_frame_sep s = true -> frame_tokens s = [].
Proof.
  induction s as [|c s IH]; [done|]. simpl. intros [Hc Hs]%andb_true_iff.
  change (String c s) with (EmptyString +:+ String c s).
  rewrite (frame_tokens_app_sep _ _ _ Hc). by rewrite (IH Hs).
Qed.

(** X2: a frame string made of separators only, the empty one included,
    gives no frame and no error. *)
Theorem FrameRangeToFrames_separators fuel s :
  PyStr.all_chars is_frame_sep s = true ->
  DraftParamParser.FrameRangeToFrames fuel s = Some (Ok []).
Proof.
  intros Hs. by rewrite FrameRangeToFrames_tokens, (frame_tokens_all_sep _ Hs).
Qed.

Lemma FrameRangeToFrames_separators_witness :
  DraftParamParser.FrameRangeToFrames 0 " ,, , " = Some (Ok [])
  /\ DraftParamParser.FrameRangeToFrames 0 EmptyString = Some (Ok []).
Proof. split; apply FrameRangeToFrames_separators; reflexivity. Defined.

Lemma find_none_digits ds :
  PyStr.all_chars PyStr.is_digit ds = true -> PyStr.find "-" 0 ds = None.
Proof.
  induction ds as [|c ds IH]; [done|]. simpl. intros [Hc Hds]%andb_true_iff.
  by rewrite (digit_not_dash _ Hc), (IH Hds).
Qed.

Lemma find_dash_numeral z : PyStr.find "-" 1 (PyStr.of_Z z) = None.
Proof.
  destruct (of_Z_shape z) as (ds & -> & Hne & Hds). destruct (z <? 0).
  - rewrite app_cons, app_empty_l. simpl. by rewrite find_none_digits.
  - rewrite app_empty_l. destruct ds as [|c ds]; [done|]. simpl in *.
    apply andb_true_iff in Hds as [_ Hds]. by rewrite find_none_digits.
Qed.

(** X3: a token that is one integer, negative ones included, gives that
    frame. *)
Theorem FrameRangeToFrames_single fuel n :
  DraftParamParser.FrameRangeToFrames fuel (PyStr.of_Z n) = Some (Ok [n]).
Proof.
  rewrite FrameRangeToFrames_one_token by apply of_Z_no_frame_sep.
  unfold DraftParamParser.token_frames.
  rewrite of_Z_nonempty, find_dash_numeral, int_of_Z. simpl.
  by rewrite set_sorted_singleton.
Qed.

(** X4: a range written downwards without a step gives no frame and no
    error. *)
Theorem FrameRangeToFrames_reversed fuel a b :
  b < a ->
  DraftParamParser.FrameRangeToFrames fuel (PyStr.of_Z a +:+ "-" +:+ PyStr.of_Z b)
  = Some (Ok []).
Proof.
  intros Hab. rewrite FrameRangeToFrames_one_token
    by (rewrite !all_chars_app, !of_Z_no_frame_sep; done).
  rewrite <- (app_empty_r (PyStr.of_Z b)).
  rewrite token_frames_numerals by auto. rewrite match_step_empty.
  unfold PyStr.range. by replace (Z.to_nat (b + 1 - a)) with 0%nat by lia.
Qed.

Lemma FrameRangeToFrames_reversed_witness :
  DraftParamParser.FrameRangeToFrames 0 (PyStr.of_Z 10 +:+ "-" +:+ PyStr.of_Z 3)
  = Some (Ok []).
Proof. apply FrameRangeToFrames_reversed. lia. Defined.

(** X5: with the step 0 the loop of a stepped token never ends, whatever
    the two frames are. *)
Theorem FrameRangeToFrames_zero_step fuel a b sep :
  sep ∈ DraftParamParser.step_words ->
  DraftParamParser.FrameRangeToFrames fuel
    (PyStr.of_Z a +:+ "-" +:+ PyStr.of_Z b +:+ sep +:+ "0") = None.
Proof.
  intros Hsep. rewrite FrameRangeToFrames_one_token.
  - rewrite token_frames_numerals by (left; by apply step_word_not_digit).
    rewrite (match_step_word _ "0" Hsep) by done.
    change (PyStr.int "0") with (@Ok Z 0). simpl.
    rewrite frame_loop_zero_step; [done|]. destruct (Z.ltb_spec b a); lia.
  - rewrite !all_chars_app, !of_Z_no_frame_sep, (step_word_no_frame_sep _ Hsep). done.
Qed.

Lemma FrameRangeToFrames_zero_step_witness :
  DraftParamParser.FrameRangeToFrames 1000
    (PyStr.of_Z 1 +:+ "-" +:+ PyStr.of_Z 5 +:+ "x" +:+ "0") = None.
Proof.
  apply FrameRangeToFrames_zero_step. unfold DraftParamParser.step_words. set_solver.
Defined.

Lemma prefix_Some w s rest : PyStr.prefix w s = Some rest -> s = w +:+ rest.
Proof.
  revert s. induction w as [|a w IH]; intros s.
  - simpl. by intros [= ->].
  - destruct s as [|b s]; [done|]. simpl.
    destruct (Ascii.eqb_spec a b) as [->|]; [|done].
    intros ->%IH. by rewrite app_cons.
Qed.

Lemma match_step_no_suffix tail :
  no_step_suffix tail ->
  DraftParamParser.match_step DraftParamParser.step_words tail = None.
Proof.
  intros [_ Hwords].
  assert (forall words, words ⊆ DraftParamParser.step_words ->
            DraftParamParser.match_step words tail = None) as Hgo; [|by apply Hgo].
  induction words as [|w words IH]; [done|]. intros Hsub. simpl.
  rewrite IH by set_solver.
  destruct (PyStr.prefix w tail) as [rest|] eqn:Hprefix; [|done].
  apply prefix_Some in Hprefix.
  destruct (Hwords w rest ltac:(set_solver) Hprefix) as [Hdigit| ->]; [|done].
  destruct rest as [|c rest]; [done|]. simpl in *.
  by destruct (PyStr.is_digit c).
Qed.

(** X6: what follows the end frame of a range is not read when it is no
    step: the token gives the plain range. *)
Theorem FrameRangeToFrames_tail_ignored fuel a b tail :
  no_step_suffix tail -> PyStr.all_chars no_frame_sep tail = true ->
  exists frames,
    DraftParamParser.FrameRangeToFrames fuel
      (PyStr.of_Z a +:+ "-" +:+ PyStr.of_Z b +:+ tail) = Some (Ok frames)
    /\ forall x, x ∈ frames <-> a <= x <= b.
Proof.
  intros Htail Hsep. eexists. split.
  - rewrite FrameRangeToFrames_one_token
      by (rewrite !all_chars_app, !of_Z_no_frame_sep, Hsep; done).
    rewrite token_frames_numerals by (left; apply Htail).
    by rewrite (match_step_no_suffix _ Htail).
  - intros x. rewrite set_sorted_elem_of, elem_of_range. lia.
Qed.

Lemma FrameRangeToFrames_tail_ignored_witness :
  exists frames,
    DraftParamParser.FrameRangeToFrames 0
      (PyStr.of_Z 1 +:+ "-" +:+ PyStr.of_Z 5 +:+ "xyz") = Some (Ok frames)
    /\ forall x, x ∈ frames <-> 1 <= x <= 5.
Proof.
  apply FrameRangeToFrames_tail_ignored; [|reflexivity]. split; [reflexivity|].
  intros w rest Hw Heq. left.
  step_word_cases Hw; rewrite ?app_cons, ?app_empty_l in Heq; by simplify_eq.
Defined.

(** ** Parameter files, continued *)

Lemma mem_app c s t : PyStr.mem c (s +:+ t) = PyStr.mem c s || PyStr.mem c t.
Proof.
  induction s as [|a s IH]; [done|]. rewrite app_cons. simpl.
  by rewrite IH, orb_assoc.
Qed.

(** A line read is a text without newline, with or without a newline after
    it; [chomp] gives the text. *)
Lemma readlines_chomp content l :
  l ∈ DraftParamParser.chomp <$> DraftParamParser.readlines content -> one_line l.
Proof.
  unfold one_line.
  assert (forall lines,
            lines = DraftParamParser.readlines content ->
            Forall (fun raw => exists body,
                      PyStr.mem PyStr.newline body = false
                      /\ (raw = body \/ raw = body +:+ DraftParamParser.nl)) lines)
    as Hshape.
  { intros lines ->. induction content as [|c rest IH]; [constructor|]. simpl.
    destruct (Ascii.eqb c PyStr.newline) eqn:Hc.
    - constructor; [|done]. exists EmptyString. split; [done|]. right.
      apply Ascii.eqb_eq in Hc as ->. done.
    - destruct (DraftParamParser.readlines rest) as [|raw lines].
      + constructor; [|done]. exists (String c EmptyString). split; [|by left].
        simpl. by rewrite Hc.
      + inversion IH as [|? ? (body & Hbody & Hraw) Hrest]; subst.
        constructor; [|done]. exists (String c body). split.
        * simpl. by rewrite Hc.
        * destruct Hraw as [->| ->]; [by left|by right]. }
  assert (forall body, PyStr.mem PyStr.newline body = false ->
            DraftParamParser.chomp body = body
            /\ DraftParamParser.chomp (body +:+ DraftParamParser.nl) = body) as Hchomp.
  { induction body as [|c body IH]; [done|].
    intros [Hc Hbody]%orb_false_iff. destruct (IH Hbody) as [IH1 IH2]. split.
    - simpl. destruct body; [by rewrite Hc|]. by rewrite IH1.
    - rewrite app_cons.
      change (DraftParamParser.chomp (String c (body +:+ DraftParamParser.nl)))
        with (match body +:+ DraftParamParser.nl with
              | EmptyString =>
                  if Ascii.eqb c PyStr.newline then EmptyString
                  else String c (body +:+ DraftParamParser.nl)
              | String _ _ =>
                  String c (DraftParamParser.chomp (body +:+ DraftParamParser.nl))
              end).
      rewrite IH2. by destruct body. }
  intros (raw & -> & Hraw)%list_elem_of_fmap.
  specialize (Hshape _ eq_refl). rewrite Forall_forall in Hshape.
  destruct (Hshape raw Hraw) as (body & Hbody & [->| ->]);
    destruct (Hchomp body Hbody) as [H1 H2]; by rewrite ?H1, ?H2.
Qed.

Lemma param_loop_keys params lines params' :
  (forall l, l ∈ DraftParamParser.chomp <$> lines -> one_line l) ->
  DraftParamParser.param_loop params lines = Ok params' ->
  forall key value,
    params' !! key = Some value ->
    params !! key = Some value
    \/ (PyStr.mem "=" key = false /\ no_comment_mark key
        /\ one_line key /\ one_line value).
Proof.
  revert params. induction lines as [|arg lines IH]; intros params Hlines.
  { intros [= <-] key value Hkey. by left. }
  simpl. destruct (param_step_spec params arg)
    as [[_ ->]|[(_ & _ & ->)|(k & v & Ha & ->)]]; simpl; [|done|].
  - apply IH. intros l Hl. apply Hlines. rewrite fmap_cons. by right.
  - intros Hloop key value Hkey.
    destruct (IH _ ltac:(intros l Hl; apply Hlines; rewrite fmap_cons; by right)
                Hloop key value Hkey) as [Hold|Hnew]; [|by right].
    destruct (decide (k = key)) as [->|Hne].
    + rewrite lookup_insert_eq in Hold. injection Hold as ->. right.
      destruct Ha as (Hline & Hmem & Heq).
      pose proof (Hlines (DraftParamParser.chomp arg)
                    ltac:(rewrite fmap_cons; by left)) as Hone.
      unfold one_line in Hone. rewrite Heq, !mem_app in Hone.
      apply orb_false_iff in Hone as [Hone1 [_ Hone2]%orb_false_iff].
      split_and!; [done| |done..].
      intros rest ->. rewrite Heq in Hline. done.
    + rewrite lookup_insert_ne in Hold by done. by left.
Qed.

(** X7: in the dictionary a parameter file parses to, no key has an [=] or
    starts with [#], and neither keys nor values have a newline. *)
Theorem ParseParamFile_TypeAgnostic_keys open_file paramFile params key value :
  DraftParamParser.ParseParamFile_TypeAgnostic open_file paramFile = Ok params ->
  params !! key = Some value ->
  PyStr.mem "=" key = false /\ no_comment_mark key /\ one_line key /\ one_line value.
Proof.
  unfold DraftParamParser.ParseParamFile_TypeAgnostic.
  destruct (open_file paramFile) as [content|]; [|done]. intros Hloop Hkey.
  destruct (param_loop_keys ∅ _ _ (readlines_chomp content) Hloop key value Hkey)
    as [Hold|Hnew]; [|done]. by rewrite lookup_empty in Hold.
Qed.

Lemma ParseParamFile_TypeAgnostic_keys_witness :
  PyStr.mem "=" "b" = false /\ no_comment_mark "b" /\ one_line "b" /\ one_line "2=3".
Proof.
  apply (ParseParamFile_TypeAgnostic_keys (fun _ => Some param_file_good) "job"
           (<["a"%string := "9"%string]> (<["b"%string := "2=3"%string]> ∅))).
  - vm_compute. reflexivity.
  - vm_compute. reflexivity.
Defined.

(** ** Tuples in parameter values *)

Lemma tokenize_go_nonempty d s : DraftParamParser.tokenize_go d s <> [].
Proof.
  revert d. induction s as [|c s IH]; intros d; [done|]. simpl.
  repeat case_match; try done; by (eapply IH).
Qed.

Lemma join_cons sep x l : l <> [] -> join sep (x :: l) = x +:+ sep +:+ join sep l.
Proof. by destruct l. Qed.

Lemma join_keep sep c t ts :
  join sep (String c t :: ts) = String c (join sep (t :: ts)).
Proof. by destruct ts. Qed.

Lemma tokenize_go_join d s : join "," (DraftParamParser.tokenize_go d s) = s.
Proof.
  revert d. induction s as [|c s IH]; intros d; [done|]. simpl.
  destruct (Ascii.eqb c "(") eqn:Ho; [|destruct (Ascii.eqb c ")") eqn:Hc;
    [|destruct (Ascii.eqb c "," && (d =? 0)) eqn:Hs]].
  - pose proof (tokenize_go_nonempty (d + 1) s) as Hne. specialize (IH (d + 1)).
    destruct (DraftParamParser.tokenize_go (d + 1) s); [done|].
    by rewrite join_keep, IH.
  - pose proof (tokenize_go_nonempty (d - 1) s) as Hne. specialize (IH (d - 1)).
    destruct (DraftParamParser.tokenize_go (d - 1) s); [done|].
    by rewrite join_keep, IH.
  - apply andb_true_iff in Hs as [->%Ascii.eqb_eq _].
    rewrite join_cons by apply tokenize_go_nonempty. by rewrite IH.
  - pose proof (tokenize_go_nonempty d s) as Hne. specialize (IH d).
    destruct (DraftParamParser.tokenize_go d s); [done|].
    by rewrite join_keep, IH.
Qed.

(** X8: the tokens of a tuple string, joined again with commas, are the
    string: no character is lost or added, whatever the parentheses. *)
Theorem TokenizeTupleString_join strTuple :
  join "," (DraftParamParser.TokenizeTupleString strTuple) = strTuple.
Proof. apply tokenize_go_join. Qed.

Lemma tokenize_go_closes d s :
  closes d s = true ->
  exists t ts, DraftParamParser.tokenize_go (Z.of_nat d) s = t :: ts
               /\ closes d t = true /\ Forall balanced ts.
Proof.
  revert d. induction s as [|c s IH]; intros d Hd.
  { exists EmptyString, []. done. }
  simpl in Hd |- *.
  destruct (Ascii.eqb c "(") eqn:Ho; [|destruct (Ascii.eqb c ")") eqn:Hc].
  - destruct (IH _ Hd) as (t & ts & Heq & Ht & Hts).
    replace (Z.of_nat d + 1) with (Z.of_nat (S d)) by lia. rewrite Heq.
    exists (String c t), ts. simpl. by rewrite Ho.
  - destruct d as [|d]; [done|]. destruct (IH _ Hd) as (t & ts & Heq & Ht & Hts).
    replace (Z.of_nat (S d) - 1) with (Z.of_nat d) by lia. rewrite Heq.
    exists (String c t), ts. simpl. by rewrite Ho, Hc.
  - destruct (IH _ Hd) as (t & ts & Heq & Ht & Hts).
    destruct (Ascii.eqb c "," && (Z.of_nat d =? 0)) eqn:Hs.
    + apply andb_true_iff in Hs as [_ Hz%Z.eqb_eq].
      assert (d = 0%nat) as -> by lia.
      exists EmptyString, (t :: ts). rewrite Heq. split_and!; [done..|].
      by constructor.
    + rewrite Heq. exists (String c t), ts. simpl. by rewrite Ho, Hc.
Qed.

(** X9: when the parentheses of a tuple string match, they match in every
    token: no token is cut inside a parenthesised group. *)
Theorem TokenizeTupleString_balanced strTuple :
  balanced strTuple ->
  Forall balanced (DraftParamParser.TokenizeTupleString strTuple).
Proof.
  intros Hb. destruct (tokenize_go_closes 0 strTuple Hb) as (t & ts & Heq & Ht & Hts).
  unfold DraftParamParser.TokenizeTupleString. change 0 with (Z.of_nat 0).
  rewrite Heq. by constructor.
Qed.

Lemma TokenizeTupleString_balanced_witness :
  Forall balanced (DraftParamParser.TokenizeTupleString "a,(b,(c,d)),(e)").
Proof. apply TokenizeTupleString_balanced. reflexivity. Defined.

Lemma tokenize_go_app d t s :
  closes d t = true ->
  DraftParamParser.tokenize_go (Z.of_nat d) t = [t] ->
  DraftParamParser.tokenize_go (Z.of_nat d) (t +:+ s)
  = match DraftParamParser.tokenize_go 0 s with
    | u :: us => (t +:+ u) :: us
    | [] => [t]
    end.
Proof.
  revert d. induction t as [|c t IH]; intros d Hd Ht.
  { simpl in Hd. apply bool_decide_eq_true in Hd as ->. rewrite app_empty_l.
    pose proof (tokenize_go_nonempty 0 s). change (Z.of_nat 0) with 0.
    destruct (DraftParamParser.tokenize_go 0 s); [done|reflexivity]. }
  rewrite app_cons. simpl in Hd, Ht |- *.
  destruct (Ascii.eqb c "(") eqn:Ho; [|destruct (Ascii.eqb c ")") eqn:Hc].
  - replace (Z.of_nat d + 1) with (Z.of_nat (S d)) in * by lia.
    pose proof (tokenize_go_nonempty (Z.of_nat (S d)) t) as Hne.
    destruct (DraftParamParser.tokenize_go (Z.of_nat (S d)) t) as [|u us] eqn:Hu; [done|].
    injection Ht as -> ->. rewrite (IH _ Hd Hu).
    by destruct (DraftParamParser.tokenize_go 0 s).
  - destruct d as [|d]; [done|].
    replace (Z.of_nat (S d) - 1) with (Z.of_nat d) in * by lia.
    pose proof (tokenize_go_nonempty (Z.of_nat d) t) as Hne.
    destruct (DraftParamParser.tokenize_go (Z.of_nat d) t) as [|u us] eqn:Hu; [done|].
    injection Ht as -> ->. rewrite (IH _ Hd Hu).
    by destruct (DraftParamParser.tokenize_go 0 s).
  - destruct (Ascii.eqb c "," && (Z.of_nat d =? 0)) eqn:Hs; [done|].
    pose proof (tokenize_go_nonempty (Z.of_nat d) t) as Hne.
    destruct (DraftParamParser.tokenize_go (Z.of_nat d) t) as [|u us] eqn:Hu; [done|].
    injection Ht as -> ->. rewrite (IH _ Hd Hu).
    by destruct (DraftParamParser.tokenize_go 0 s).
Qed.

Lemma TokenizeTupleString_of_join l :
  l <> [] -> Forall one_token l ->
  DraftParamParser.TokenizeTupleString (join "," l) = l.
Proof.
  intros Hne Hl. induction Hl as [|x l [Hb Hx] Hl IH]; [done|].
  destruct l as [|y l]; [done|]. rewrite join_cons by done.
  unfold DraftParamParser.TokenizeTupleString in *. change 0 with (Z.of_nat 0) at 1.
  rewrite tokenize_go_app by done.
  change ("," +:+ join "," (y :: l)) with (String "," (join "," (y :: l))).
  cbn [DraftParamParser.tokenize_go]. simpl (Ascii.eqb _ _). simpl (_ && _).
  cbv iota. rewrite IH by done. by rewrite app_empty_r.
Qed.

(** X10: a list of texts, each with matching parentheses and no comma
    outside them, is what [TokenizeTupleString] gives back from the texts
    joined with commas. *)
Theorem TokenizeTupleString_round_trip tokens :
  tokens <> [] -> Forall one_token tokens ->
  DraftParamParser.TokenizeTupleString (join "," tokens) = tokens.
Proof. apply TokenizeTupleString_of_join. Qed.

Lemma TokenizeTupleString_round_trip_witness :
  DraftParamParser.TokenizeTupleString (join "," ["<int>"; "(<string>,<float>)"; ""])
  = ["<int>"; "(<string>,<float>)"; ""].
Proof.
  apply TokenizeTupleString_round_trip; [done|].
  repeat constructor.
Defined.

Lemma split_nonempty c s : PyStr.split c s <> [].
Proof. destruct s as [|a s]; [done|]. simpl. by repeat case_match. Qed.

(** X11: on a text without parentheses [TokenizeTupleString] is
    [split(',')]. *)
Theorem TokenizeTupleString_flat strTuple :
  PyStr.all_chars no_paren strTuple = true ->
  DraftParamParser.TokenizeTupleString strTuple = PyStr.split "," strTuple.
Proof.
  unfold DraftParamParser.TokenizeTupleString.
  induction strTuple as [|c s IH]; [done|]. simpl.
  intros [Hc Hs]%andb_true_iff. unfold no_paren in Hc.
  apply andb_true_iff in Hc as [Ho%negb_true_iff Hc%negb_true_iff].
  rewrite Ho, Hc, (IH Hs). simpl. rewrite andb_true_r. by destruct (Ascii.eqb c ",").
Qed.

Lemma TokenizeTupleString_flat_witness :
  DraftParamParser.TokenizeTupleString "1, 2,,x" = PyStr.split "," "1, 2,,x".
Proof. apply TokenizeTupleString_flat. reflexivity. Defined.

Lemma last_app_char s c : PyStr.last (s +:+ String c EmptyString) = Some c.
Proof.
  induction s as [|a s IH]; [done|]. rewrite app_cons.
  change (PyStr.last (String a (s +:+ String c EmptyString)))
    with (match s +:+ String c EmptyString with
          | EmptyString => Some a
          | String _ _ => PyStr.last (s +:+ String c EmptyString)
          end).
  rewrite IH. by destruct s.
Qed.

Lemma last_Some s c :
  PyStr.last s = Some c ->
  s = PyStr.take (String.length s - 1) s +:+ String c EmptyString.
Proof.
  induction s as [|a s IH]; [done|]. destruct s as [|b s].
  { by intros [= ->]. }
  intros Hl. change (PyStr.last (String a (String b s))) with (PyStr.last (String b s)) in Hl.
  specialize (IH Hl). simpl String.length in *.
  replace (S (S (String.length s)) - 1)%nat
    with (S (S (String.length s) - 1)) by lia.
  change (PyStr.take (S (S (String.length s) - 1)) (String a (String b s)))
    with (String a (PyStr.take (S (String.length s) - 1) (String b s))).
  rewrite app_cons. f_equal. exact IH.
Qed.

Lemma first_tuple_of s : PyStr.first (tuple_of s) = Some "("%char.
Proof. done. Qed.

Lemma last_tuple_of s : PyStr.last (tuple_of s) = Some ")"%char.
Proof.
  unfold tuple_of. change ("(" +:+ s +:+ ")") with (String "(" s +:+ ")").
  apply last_app_char.
Qed.

Lemma inner_tuple_of s : PyStr.inner (tuple_of s) = s.
Proof.
  unfold PyStr.inner, tuple_of. rewrite app_cons, app_empty_l. simpl String.length.
  rewrite str_length_app. simpl String.length.
  replace (S (String.length s + 1) - 1)%nat with (S (String.length s)) by lia.
  simpl. apply str_take_app.
Qed.

Lemma enclosed_inner s :
  PyStr.first s = Some "("%char -> PyStr.last s = Some ")"%char ->
  s = tuple_of (PyStr.inner s).
Proof.
  destruct s as [|a s]; [done|]. intros [= ->] Hl.
  destruct s as [|b s]; [done|].
  change (PyStr.last (String "(" (String b s))) with (PyStr.last (String b s)) in Hl.
  apply last_Some in Hl. unfold PyStr.inner, tuple_of.
  rewrite app_cons, app_empty_l. f_equal.
  simpl String.length in *.
  replace (S (S (String.length s)) - 1)%nat
    with (S (S (String.length s) - 1)) by lia.
  exact Hl.
Qed.

Lemma enclosed_tuple_of s : DraftParamParser.enclosed (tuple_of s) = Ok true.
Proof.
  unfold DraftParamParser.enclosed. by rewrite first_tuple_of, last_tuple_of.
Qed.

Lemma join_split c s : join (String c EmptyString) (PyStr.split c s) = s.
Proof.
  induction s as [|a s IH]; [done|]. simpl.
  destruct (Ascii.eqb a c) eqn:Ha.
  - apply Ascii.eqb_eq in Ha as ->.
    rewrite join_cons by apply split_nonempty. by rewrite IH.
  - pose proof (split_nonempty c s). destruct (PyStr.split c s); [done|].
    by rewrite join_keep, IH.
Qed.

Lemma split_no_sep c s : Forall (fun e => PyStr.mem c e = false) (PyStr.split c s).
Proof.
  induction s as [|a s IH]; [by repeat constructor|]. simpl.
  destruct (Ascii.eqb a c) eqn:Ha; [by constructor|].
  destruct (PyStr.split c s) as [|p ps]; [by repeat constructor; simpl; rewrite Ha|].
  inversion IH; subst. constructor; [|done]. simpl. by rewrite Ha.
Qed.

Lemma split_app_sep c x s :
  PyStr.mem c x = false ->
  PyStr.split c (x +:+ String c s) = x :: PyStr.split c s.
Proof.
  induction x as [|a x IH]; intros Hx.
  - rewrite app_empty_l. simpl. by rewrite Ascii.eqb_refl.
  - simpl in Hx. apply orb_false_iff in Hx as [Ha Hx].
    rewrite app_cons. simpl. rewrite Ha. by rewrite (IH Hx).
Qed.

Lemma split_none c x : PyStr.mem c x = false -> PyStr.split c x = [x].
Proof.
  induction x as [|a x IH]; [done|]. simpl.
  intros [Ha Hx]%orb_false_iff. by rewrite Ha, (IH Hx).
Qed.

Lemma split_join c l :
  l <> [] -> Forall (fun e => PyStr.mem c e = false) l ->
  PyStr.split c (join (String c EmptyString) l) = l.
Proof.
  intros Hne Hl. induction Hl as [|x l Hx Hl IH]; [done|].
  destruct l as [|y l]; [by apply split_none|].
  rewrite join_cons by done.
  change (String c EmptyString +:+ join (String c EmptyString) (y :: l))
    with (String c (join (String c EmptyString) (y :: l))).
  rewrite split_app_sep by done. by rewrite IH.
Qed.

Lemma StringTupleToStringList_elements elts :
  elts <> [] -> Forall no_comma elts ->
  DraftParamParser.StringTupleToStringList
    (tuple_of (join "," elts)) (Z.of_nat (length elts)) = Ok elts.
Proof.
  intros Hne Hc. unfold DraftParamParser.StringTupleToStringList.
  rewrite first_tuple_of, last_tuple_of, inner_tuple_of. simpl.
  change ","%string with (String "," EmptyString).
  rewrite split_join by done. by rewrite Z.eqb_refl.
Qed.

(** X12: [StringTupleToStringList(s, n)] returns a list exactly when [s]
    is [n] texts without a comma, joined with commas and put in
    parentheses; the list is these texts, and [n] is at least 1. *)
Theorem StringTupleToStringList_spec s n sList :
  DraftParamParser.StringTupleToStringList s n = Ok sList
  <-> s = tuple_of (join "," sList) /\ Z.of_nat (length sList) = n
      /\ 0 < n /\ Forall no_comma sList.
Proof.
  unfold DraftParamParser.StringTupleToStringList. split.
  - destruct (PyStr.first s) as [a|] eqn:Hf; [|done].
    destruct (PyStr.last s) as [b|] eqn:Hl; [|done].
    destruct (Ascii.eqb a "(") eqn:Ha; [|done].
    destruct (Ascii.eqb b ")") eqn:Hb; [|done]. simpl.
    apply Ascii.eqb_eq in Ha as ->. apply Ascii.eqb_eq in Hb as ->.
    destruct (_ =? n) eqn:Hn; [|done]. simpl. intros [= <-].
    apply Z.eqb_eq in Hn. split_and!.
    + change ","%string with (String "," EmptyString). rewrite join_split.
      by apply enclosed_inner.
    + done.
    + pose proof (split_nonempty "," (PyStr.inner s)).
      destruct (PyStr.split "," (PyStr.inner s)); [done|]. simpl in Hn. lia.
    + apply split_no_sep.
  - intros (-> & Hn & Hpos & Hc).
    rewrite first_tuple_of, last_tuple_of, inner_tuple_of. simpl.
    change ","%string with (String "," EmptyString).
    rewrite split_join; [|destruct sList; [simpl in Hn; lia|done]|done].
    by rewrite (proj2 (Z.eqb_eq _ _) Hn).
Qed.

Section number_facts.
Context {Float : Type} (float : string -> option Float).

Lemma num_loop_ints n elts zs :
  Forall2 (fun e z => PyStr.int e = Ok z) elts zs ->
  DraftParamParser.num_loop float n elts = Ok (DraftParamParser.NInt <$> zs).
Proof.
  induction 1 as [|e z elts zs He _ IH]; [done|].
  simpl. rewrite He. cbn [mbind result_bind]. rewrite IH. done.
Qed.

Lemma num_loop_bad n good elt rest :
  Forall (is_number float) good ->
  PyStr.int elt = Raise ValueError -> float elt = None ->
  DraftParamParser.num_loop float n (good ++ elt :: rest)
  = Raise (DraftParamParser.not_a_number n elt).
Proof.
  intros Hgood Hint Hfloat. induction Hgood as [|e good He _ IH].
  - simpl. by rewrite Hint, Hfloat.
  - simpl. rewrite IH.
    destruct He as [[z ->]|[x Hx]]; [done|].
    rewrite Hx. by destruct (PyStr.int e).
Qed.

End number_facts.

(** X13: a tuple of texts that [int] reads is returned as the list of
    these integers, in order; [float] is not asked. *)
Theorem StringTupleToNumList_ints {Float : Type} (float : string -> option Float)
    elts zs :
  elts <> [] -> Forall no_comma elts ->
  Forall2 (fun e z => PyStr.int e = Ok z) elts zs ->
  DraftParamParser.StringTupleToNumList float
    (tuple_of (join "," elts)) (Z.of_nat (length elts))
  = Ok (DraftParamParser.NInt <$> zs).
Proof.
  intros Hne Hc Hz. unfold DraftParamParser.StringTupleToNumList.
  assert (DraftParamParser.StringTupleToStringList
            (tuple_of (join "," elts)) (Z.of_nat (length elts)) = Ok elts) as ->.
  { apply StringTupleToStringList_elements; [|done]. by destruct elts. }
  cbn [mbind result_bind]. by apply num_loop_ints.
Qed.

Lemma StringTupleToNumList_ints_witness :
  DraftParamParser.StringTupleToNumList test_float
    (tuple_of (join "," [" 1"; "-2 "; "+3"])) (Z.of_nat (length [" 1"; "-2 "; "+3"]))
  = Ok (DraftParamParser.NInt <$> [1; -2; 3]).
Proof.
  apply StringTupleToNumList_ints; [done|by repeat constructor|].
  repeat constructor.
Defined.

(** X14: when an element is neither an integer nor a float, the message
    names the element by [n], the number of elements, wherever in the tuple
    the element is. *)
Theorem StringTupleToNumList_bad_element {Float : Type}
    (float : string -> option Float) s n good elt rest :
  DraftParamParser.StringTupleToStringList s n = Ok (good ++ elt :: rest) ->
  Forall (is_number float) good ->
  PyStr.int elt = Raise ValueError -> float elt = None ->
  DraftParamParser.StringTupleToNumList float s n
  = Raise (DraftParamParser.not_a_number n elt).
Proof.
  intros Hs Hgood Hint Hfloat. unfold DraftParamParser.StringTupleToNumList.
  rewrite Hs. cbn [mbind result_bind]. by apply num_loop_bad.
Qed.

Lemma StringTupleToNumList_bad_element_witness :
  DraftParamParser.StringTupleToNumList test_float "(1,1.5,x,4)" 4
  = Raise (DraftParamParser.not_a_number 4 "x").
Proof.
  apply (StringTupleToNumList_bad_element test_float "(1,1.5,x,4)" 4
           ["1"; "1.5"] "x" ["4"]); [reflexivity| |reflexivity..].
  constructor; [left; by exists 1|].
  constructor; [right; by exists "1.5"%string|constructor].
Defined.

(** ** Typed parameters *)

Lemma tokenize_go_length d s :
  Forall (fun t => (String.length t <= String.length s)%nat)
    (DraftParamParser.tokenize_go d s).
Proof.
  revert d. induction s as [|c s IH]; intros d; [by repeat constructor|].
  assert (forall d',
            Forall (fun t => (String.length t <= String.length (String c s))%nat)
              match DraftParamParser.tokenize_go d' s with
              | t :: ts => String c t :: ts
              | [] => [String c EmptyString]
              end) as Hkeep.
  { intros d'. specialize (IH d').
    destruct (DraftParamParser.tokenize_go d' s) as [|t ts].
    - constructor; [simpl; lia|constructor].
    - inversion IH as [|? ? Ht Hts]; subst. constructor; [simpl; lia|].
      eapply Forall_impl; [exact Hts|]. intros t' Ht'. simpl in *. lia. }
  simpl DraftParamParser.tokenize_go.
  destruct (Ascii.eqb c "("); [apply Hkeep|].
  destruct (Ascii.eqb c ")"); [apply Hkeep|].
  destruct (_ && _); [|apply Hkeep].
  constructor; [simpl; lia|].
  eapply Forall_impl; [apply IH|]. intros t' Ht'. simpl in *. lia.
Qed.

Lemma enclosed_true s :
  DraftParamParser.enclosed s = Ok true -> s = tuple_of (PyStr.inner s).
Proof.
  unfold DraftParamParser.enclosed.
  destruct (PyStr.first s) as [a|] eqn:Hf; [|done].
  destruct (PyStr.last s) as [b|] eqn:Hl; [|done].
  intros [= [->%Ascii.eqb_eq ->%Ascii.eqb_eq]%andb_true_iff].
  by apply enclosed_inner.
Qed.

Lemma enclosed_length s :
  DraftParamParser.enclosed s = Ok true ->
  (String.length (PyStr.inner s) < String.length s)%nat.
Proof.
  intros Hs%enclosed_true. rewrite Hs at 2. unfold tuple_of.
  rewrite app_cons, app_empty_l. simpl. rewrite str_length_app. simpl. lia.
Qed.

Section cast_facts.
Context {Float : Type} (float : string -> option Float).

Lemma TypeCastArg_S fuel expectedType arg :
  DraftParamParser.TypeCastArg float (S fuel) expectedType arg
  = let arg := PyStr.strip arg in
    if decide (expectedType = "<string>") then Some (Ok (DraftParamParser.PStr arg))
    else if decide (expectedType = "<int>")
    then Some (DraftParamParser.PInt <$> PyStr.int arg)
    else if decide (expectedType = "<float>")
    then Some (DraftParamParser.PFloat <$> DraftParamParser.py_float float arg)
    else
      match DraftParamParser.enclosed expectedType with
      | Raise e => Some (Raise e)
      | Ok false => Some (Raise (DraftParamParser.unknown_type expectedType))
      | Ok true =>
          match DraftParamParser.enclosed arg with
          | Raise e => Some (Raise e)
          | Ok false => Some (Raise (DraftParamParser.not_a_tuple arg))
          | Ok true =>
              let expectedTypeList :=
                DraftParamParser.TokenizeTupleString (PyStr.inner expectedType) in
              let argList := DraftParamParser.TokenizeTupleString (PyStr.inner arg) in
              if negb (length expectedTypeList =? length argList)%nat
              then Some (Raise (DraftParamParser.tuple_length_mismatch
                                  (length expectedTypeList) (length argList)))
              else
                match DraftParamParser.cast_each
                        (DraftParamParser.TypeCastArg float fuel)
                        expectedTypeList argList with
                | None => None
                | Some (Raise e) => Some (Raise e)
                | Some (Ok list) => Some (Ok (DraftParamParser.PList list))
                end
          end
      end.
Proof. reflexivity. Qed.

Lemma cast_each_enough n tys args :
  (forall ty arg, (String.length ty < n)%nat ->
     exists r, forall fuel, (n <= fuel)%nat ->
       DraftParamParser.TypeCastArg float fuel ty arg = Some r) ->
  Forall (fun ty => (String.length ty < n)%nat) tys ->
  exists r, forall fuel, (n <= fuel)%nat ->
    DraftParamParser.cast_each (DraftParamParser.TypeCastArg float fuel) tys args
    = Some r.
Proof.
  intros Hcast Htys. revert args.
  induction Htys as [|ty tys Hty _ IH]; intros args.
  { exists (Ok []). intros fuel _. by destruct args. }
  destruct args as [|arg args].
  { exists (Ok []). done. }
  destruct (Hcast ty arg Hty) as [r Hr]. destruct (IH args) as [rs Hrs].
  destruct r as [v|e].
  - destruct rs as [vs|e].
    + exists (Ok (v :: vs)). intros fuel Hf. simpl. by rewrite (Hr _ Hf), (Hrs _ Hf).
    + exists (Raise e). intros fuel Hf. simpl. by rewrite (Hr _ Hf), (Hrs _ Hf).
  - exists (Raise e). intros fuel Hf. simpl. by rewrite (Hr _ Hf).
Qed.

Lemma TypeCastArg_enough n ty arg :
  (String.length ty < n)%nat ->
  exists r, forall fuel, (n <= fuel)%nat ->
    DraftParamParser.TypeCastArg float fuel ty arg = Some r.
Proof.
  revert ty arg. induction n as [|n IH]; intros ty arg Hlen; [lia|].
  assert (forall body : nat -> option (result (DraftParamParser.pvalue Float)),
            (exists r, forall fuel, (n <= fuel)%nat -> body fuel = Some r) ->
            (forall fuel, DraftParamParser.TypeCastArg float (S fuel) ty arg = body fuel) ->
            exists r, forall fuel, (S n <= fuel)%nat ->
              DraftParamParser.TypeCastArg float fuel ty arg = Some r) as Hbody.
  { intros body [r Hr] Heq. exists r. intros [|fuel] Hf; [lia|].
    rewrite Heq. apply Hr. lia. }
  destruct (decide (ty = "<string>")) as [Hs|Hs].
  { eapply (Hbody (fun _ => _)); [by eexists|].
    intros fuel. rewrite TypeCastArg_S. cbv zeta. by rewrite decide_True. }
  destruct (decide (ty = "<int>")) as [Hi|Hi].
  { eapply (Hbody (fun _ => _)); [by eexists|].
    intros fuel. rewrite TypeCastArg_S. cbv zeta.
    by rewrite (decide_False (P := ty = "<string>")), decide_True. }
  destruct (decide (ty = "<float>")) as [Hf|Hf].
  { eapply (Hbody (fun _ => _)); [by eexists|].
    intros fuel. rewrite TypeCastArg_S. cbv zeta.
    by rewrite (decide_False (P := ty = "<string>")),
      (decide_False (P := ty = "<int>")), decide_True. }
  assert (forall fuel,
            DraftParamParser.TypeCastArg float (S fuel) ty arg
            = match DraftParamParser.enclosed ty with
              | Raise e => Some (Raise e)
              | Ok false => Some (Raise (DraftParamParser.unknown_type ty))
              | Ok true =>
                  match DraftParamParser.enclosed (PyStr.strip arg) with
                  | Raise e => Some (Raise e)
                  | Ok false =>
                      Some (Raise (DraftParamParser.not_a_tuple (PyStr.strip arg)))
                  | Ok true =>
                      let expectedTypeList :=
                        DraftParamParser.TokenizeTupleString (PyStr.inner ty) in
                      let argList :=
                        DraftParamParser.TokenizeTupleString
                          (PyStr.inner (PyStr.strip arg)) in
                      if negb (length expectedTypeList =? length argList)%nat
                      then Some (Raise (DraftParamParser.tuple_length_mismatch
                                          (length expectedTypeList) (length argList)))
                      else
                        match DraftParamParser.cast_each
                                (DraftParamParser.TypeCastArg float fuel)
                                expectedTypeList argList with
                        | None => None
                        | Some (Raise e) => Some (Raise e)
                        | Some (Ok list) => Some (Ok (DraftParamParser.PList list))
                        end
                  end
              end) as Heq.
  { intros fuel. rewrite TypeCastArg_S. cbv zeta.
    by rewrite (decide_False (P := ty = "<string>")),
      (decide_False (P := ty = "<int>")), (decide_False (P := ty = "<float>")). }
  destruct (DraftParamParser.enclosed ty) as [[]|e] eqn:Hty.
  - destruct (DraftParamParser.enclosed (PyStr.strip arg)) as [[]|e] eqn:Harg.
    + cbv zeta in Heq.
      destruct (negb _) eqn:Hlens.
      * eapply (Hbody (fun _ => _)); [by eexists|]. exact Heq.
      * destruct (cast_each_enough n
                    (DraftParamParser.TokenizeTupleString (PyStr.inner ty))
                    (DraftParamParser.TokenizeTupleString
                       (PyStr.inner (PyStr.strip arg))) IH) as [r Hr].
        { pose proof (enclosed_length _ Hty) as Hin.
          eapply Forall_impl; [apply tokenize_go_length|]. simpl. lia. }
        eapply (Hbody (fun fuel => _)); [|exact Heq].
        destruct r as [vs|e].
        -- exists (Ok (DraftParamParser.PList vs)). intros fuel Hfuel.
           by rewrite (Hr _ Hfuel).
        -- exists (Raise e). intros fuel Hfuel. by rewrite (Hr _ Hfuel).
    + eapply (Hbody (fun _ => _)); [by eexists|]. exact Heq.
    + eapply (Hbody (fun _ => _)); [by eexists|]. exact Heq.
  - eapply (Hbody (fun _ => _)); [by eexists|]. exact Heq.
  - eapply (Hbody (fun _ => _)); [by eexists|]. exact Heq.
Qed.

End cast_facts.

(** X15: the recursion of [TypeCastArg] ends: with room for more nested
    calls than the type has characters the cast returns, and more room does
    not change what it returns. *)
Theorem TypeCastArg_returns {Float : Type} (float : string -> option Float)
    fuel expectedType arg :
  (String.length expectedType < fuel)%nat ->
  is_Some (DraftParamParser.TypeCastArg float fuel expectedType arg)
  /\ DraftParamParser.TypeCastArg float fuel expectedType arg
     = DraftParamParser.TypeCastArg float (S (String.length expectedType))
         expectedType arg.
Proof.
  intros Hfuel.
  destruct (TypeCastArg_enough float (S (String.length expectedType))
              expectedType arg) as [r Hr]; [lia|].
  rewrite (Hr fuel) by lia. rewrite (Hr (S (String.length expectedType))) by lia.
  by split.
Qed.

Lemma TypeCastArg_returns_witness :
  is_Some (DraftParamParser.TypeCastArg test_float 40
             "(<int>,(<string>,<float>))" "(4,(a b, 1.5 ))")
  /\ DraftParamParser.TypeCastArg test_float 40
       "(<int>,(<string>,<float>))" "(4,(a b, 1.5 ))"
     = DraftParamParser.TypeCastArg test_float
         (S (String.length "(<int>,(<string>,<float>))"))
         "(<int>,(<string>,<float>))" "(4,(a b, 1.5 ))".
Proof. apply TypeCastArg_returns. simpl. lia. Defined.

Lemma rstrip_paren s : PyStr.rstrip (s +:+ ")") = s +:+ ")".
Proof.
  induction s as [|c s IH]; [done|]. rewrite app_cons.
  change (PyStr.rstrip (String c (s +:+ ")")))
    with (match PyStr.rstrip (s +:+ ")") with
          | EmptyString =>
              if PyStr.is_ws c then EmptyString else String c EmptyString
          | r => String c r
          end).
  rewrite IH. by destruct s.
Qed.

Lemma strip_tuple_of s : PyStr.strip (tuple_of s) = tuple_of s.
Proof.
  unfold PyStr.strip, tuple_of. rewrite app_cons, app_empty_l.
  change (PyStr.lstrip (String "(" (s +:+ ")"))) with (String "(" (s +:+ ")")).
  change (String "(" (s +:+ ")")) with (String "(" s +:+ ")").
  apply rstrip_paren.
Qed.

Section tuple_facts.
Context {Float : Type} (float : string -> option Float).

(** The call on a type in parentheses. *)
Lemma TypeCastArg_S_enclosed fuel ty arg :
  DraftParamParser.enclosed ty = Ok true ->
  DraftParamParser.TypeCastArg float (S fuel) ty arg
  = match DraftParamParser.enclosed (PyStr.strip arg) with
    | Raise e => Some (Raise e)
    | Ok false => Some (Raise (DraftParamParser.not_a_tuple (PyStr.strip arg)))
    | Ok true =>
        let expectedTypeList :=
          DraftParamParser.TokenizeTupleString (PyStr.inner ty) in
        let argList :=
          DraftParamParser.TokenizeTupleString (PyStr.inner (PyStr.strip arg)) in
        if negb (length expectedTypeList =? length argList)%nat
        then Some (Raise (DraftParamParser.tuple_length_mismatch
                            (length expectedTypeList) (length argList)))
        else
          match DraftParamParser.cast_each
                  (DraftParamParser.TypeCastArg float fuel)
                  expectedTypeList argList with
          | None => None
          | Some (Raise e) => Some (Raise e)
          | Some (Ok list) => Some (Ok (DraftParamParser.PList list))
          end
    end.
Proof.
  intros Hty. rewrite TypeCastArg_S. cbv zeta.
  rewrite !decide_False; [by rewrite Hty|intros Heq; by rewrite Heq in Hty..].
Qed.

Lemma cast_each_ok fuel tys args vs :
  Forall3 (fun ty arg v =>
             DraftParamParser.TypeCastArg float fuel ty arg = Some (Ok v))
    tys args vs ->
  DraftParamParser.cast_each (DraftParamParser.TypeCastArg float fuel) tys args
  = Some (Ok vs).
Proof.
  induction 1 as [|ty arg v tys args vs Hv _ IH]; [done|].
  simpl. by rewrite Hv, IH.
Qed.

Lemma TypeCastArg_empty_type fuel arg v :
  DraftParamParser.TypeCastArg float fuel EmptyString arg <> Some (Ok v).
Proof. by destruct fuel. Qed.

Lemma cast_each_empty fuel tys args vs :
  EmptyString ∈ tys -> length tys = length args ->
  DraftParamParser.cast_each (DraftParamParser.TypeCastArg float fuel) tys args
  <> Some (Ok vs).
Proof.
  revert args vs. induction tys as [|ty tys IH]; intros args vs Hin Hlen.
  { by apply elem_of_nil in Hin. }
  destruct args as [|arg args]; [done|]. injection Hlen as Hlen. simpl.
  destruct (DraftParamParser.TypeCastArg float fuel ty arg) as [[v|e]|] eqn:Hc;
    [|done..].
  apply elem_of_cons in Hin as [<-|Hin].
  { by apply TypeCastArg_empty_type in Hc. }
  specialize (IH args).
  destruct (DraftParamParser.cast_each _ tys args) as [[vs'|e]|]; [|done..].
  by destruct (IH vs' Hin Hlen).
Qed.

End tuple_facts.

(** X16: a tuple type casts a tuple element by element: when every element
    casts to a value, the tuple casts to the list of the values.  The
    elements may be tuples themselves. *)
Theorem TypeCastArg_tuple {Float : Type} (float : string -> option Float)
    fuel tys args vs :
  Forall one_token tys -> Forall one_token args ->
  Forall3 (fun ty arg v =>
             DraftParamParser.TypeCastArg float fuel ty arg = Some (Ok v))
    tys args vs ->
  tys <> [] ->
  DraftParamParser.TypeCastArg float (S fuel)
    (tuple_of (join "," tys)) (tuple_of (join "," args))
  = Some (Ok (DraftParamParser.PList vs)).
Proof.
  intros Htys Hargs Hvs Hne.
  rewrite TypeCastArg_S_enclosed by apply enclosed_tuple_of.
  rewrite strip_tuple_of, enclosed_tuple_of, !inner_tuple_of. cbv zeta.
  assert (args <> []) as Hne' by (by destruct Hvs).
  rewrite !TokenizeTupleString_of_join by done.
  rewrite (Forall3_length_lm _ _ _ _ Hvs), Nat.eqb_refl. simpl negb. cbv iota.
  by rewrite (cast_each_ok float _ _ _ _ Hvs).
Qed.

Lemma TypeCastArg_tuple_witness :
  DraftParamParser.TypeCastArg test_float 3
    (tuple_of (join "," ["<int>"; "(<string>,<float>)"]))
    (tuple_of (join "," [" 4 "; "(a b, 1.5)"]))
  = Some (Ok (DraftParamParser.PList
                [DraftParamParser.PInt 4;
                 DraftParamParser.PList
                   [DraftParamParser.PStr "a b"; DraftParamParser.PFloat "1.5"%string]])).
Proof.
  apply TypeCastArg_tuple; [by repeat constructor..| |done].
  repeat constructor.
Defined.

(** X17: a tuple type with an empty element, as [()] or [(<int>,)], casts
    no argument: every call on it raises. *)
Theorem TypeCastArg_empty_element {Float : Type} (float : string -> option Float)
    fuel expectedType arg :
  (String.length expectedType < fuel)%nat ->
  DraftParamParser.enclosed expectedType = Ok true ->
  EmptyString ∈ DraftParamParser.TokenizeTupleString (PyStr.inner expectedType) ->
  exists e, DraftParamParser.TypeCastArg float fuel expectedType arg = Some (Raise e).
Proof.
  intros Hfuel Hty Hin.
  destruct (TypeCastArg_enough float fuel expectedType arg Hfuel) as [r Hr].
  specialize (Hr fuel (le_n _)). destruct r as [v|e]; [|by exists e].
  exfalso. destruct fuel as [|fuel]; [done|].
  rewrite TypeCastArg_S_enclosed in Hr by done.
  destruct (DraftParamParser.enclosed (PyStr.strip arg)) as [[]|]; [|done..].
  cbv zeta in Hr. destruct (_ =? _)%nat eqn:Hlen; [|done]. simpl in Hr.
  apply Nat.eqb_eq in Hlen.
  destruct (DraftParamParser.cast_each _ _ _) as [[vs|]|] eqn:Hc; [|done..].
  by apply cast_each_empty in Hc.
Qed.

Lemma TypeCastArg_empty_element_witness :
  exists e, DraftParamParser.TypeCastArg test_float 9 "(<int>,)" "(1,)"
            = Some (Raise e).
Proof.
  apply TypeCastArg_empty_element; [simpl; lia|reflexivity|].
  vm_compute. apply list_elem_of_In. simpl. tauto.
Defined.

(** ** Expected parameters *)

Section params_facts.
Context {Float : Type} (float : string -> option Float).

Lemma ParseParams_app fuel l1 l2 params :
  DraftParamParser.ParseParams float fuel (l1 ++ l2) params
  = match DraftParamParser.ParseParams float fuel l1 params with
    | Some (params1, None) => DraftParamParser.ParseParams float fuel l2 params1
    | o => o
    end.
Proof.
  revert params. induction l1 as [|[key ty] l1 IH]; intros params; [done|].
  simpl. destruct (params !! key) as [v|]; [|done].
  destruct (DraftParamParser.cast_value float fuel ty v) as [[v'|e]|]; [|done..].
  apply IH.
Qed.

Lemma ParseParams_keys fuel expected params params' o :
  DraftParamParser.ParseParams float fuel expected params = Some (params', o) ->
  forall k, is_Some (params' !! k) <-> is_Some (params !! k).
Proof.
  revert params. induction expected as [|[key ty] rest IH]; intros params.
  { by intros [= <- <-]. }
  simpl. destruct (params !! key) as [v|] eqn:Hkey; [|by intros [= <- <-]].
  destruct (DraftParamParser.cast_value float fuel ty v) as [[v'|e]|];
    [|by intros [= <- <-]|done].
  intros Hrest k. rewrite (IH _ Hrest k).
  destruct (decide (key = k)) as [<-|Hne].
  - rewrite lookup_insert_eq, Hkey. split; by eexists.
  - by rewrite lookup_insert_ne.
Qed.

End params_facts.

(** X18: when [ParseParams] returns, every expected key was in the
    dictionary and now holds the cast of its text to the expected type; the
    other keys are as they were. *)
Theorem ParseParams_returns {Float : Type} (float : string -> option Float)
    fuel expectedTypes params params' :
  NoDup expectedTypes.*1 ->
  DraftParamParser.ParseParams float fuel expectedTypes params
  = Some (params', None) ->
  (forall key ty, (key, ty) ∈ expectedTypes ->
     exists v v', params !! key = Some v
                  /\ DraftParamParser.cast_value float fuel ty v = Some (Ok v')
                  /\ params' !! key = Some v')
  /\ (forall key, key ∉ expectedTypes.*1 -> params' !! key = params !! key).
Proof.
  revert params. induction expectedTypes as [|[key ty] rest IH]; intros params Hnd.
  { intros [= <-]. split; [|done]. intros key ty Hin. by apply elem_of_nil in Hin. }
  simpl in Hnd. apply NoDup_cons in Hnd as [Hkey Hnd].
  simpl. destruct (params !! key) as [v|] eqn:Hv; [|done].
  destruct (DraftParamParser.cast_value float fuel ty v) as [[v'|e]|] eqn:Hc;
    [|done..].
  intros Hrest. destruct (IH _ Hnd Hrest) as [IH1 IH2]. split.
  - intros k t [[= -> ->]|Hin]%elem_of_cons.
    + exists v, v'. split_and!; [done..|].
      by rewrite (IH2 _ Hkey), lookup_insert_eq.
    + destruct (IH1 _ _ Hin) as (w & w' & Hw & Hcw & Hw').
      exists w, w'. split_and!; [|done..].
      rewrite lookup_insert_ne in Hw; [done|].
      intros <-. apply Hkey. apply list_elem_of_fmap. by exists (key, t).
  - intros k Hk. apply not_elem_of_cons in Hk as [Hne Hk].
    rewrite (IH2 _ Hk). by rewrite lookup_insert_ne.
Qed.

Lemma ParseParams_returns_witness :
  let params : gmap string (DraftParamParser.pvalue string) :=
    <["a"%string := DraftParamParser.PStr " 7"]>
      (<["b"%string := DraftParamParser.PStr "(1,2)"]>
         (<["c"%string := DraftParamParser.PStr "x"]> ∅)) in
  let params' : gmap string (DraftParamParser.pvalue string) :=
    <["a"%string := DraftParamParser.PInt 7]>
      (<["b"%string := DraftParamParser.PList
                         [DraftParamParser.PInt 1; DraftParamParser.PInt 2]]>
         (<["c"%string := DraftParamParser.PStr "x"]> ∅)) in
  let expectedTypes := [("a"%string, "<int>"%string);
                        ("b"%string, "(<int>,<int>)"%string)] in
  (forall key ty, (key, ty) ∈ expectedTypes ->
     exists v v', params !! key = Some v
                  /\ DraftParamParser.cast_value test_float 9 ty v = Some (Ok v')
                  /\ params' !! key = Some v')
  /\ (forall key, key ∉ expectedTypes.*1 -> params' !! key = params !! key).
Proof.
  apply (ParseParams_returns test_float 9).
  - vm_compute. repeat constructor; intros Hin%list_elem_of_In; simpl in Hin;
      intuition discriminate.
  - vm_compute. reflexivity.
Defined.

(** X19: when an expected key is missing, the call raises with the keys
    visited before it already cast in the caller's dictionary. *)
Theorem ParseParams_missing {Float : Type} (float : string -> option Float)
    fuel visited key ty rest params params1 :
  DraftParamParser.ParseParams float fuel visited params = Some (params1, None) ->
  params !! key = None ->
  DraftParamParser.ParseParams float fuel (visited ++ (key, ty) :: rest) params
  = Some (params1, Some (DraftParamParser.not_found key)).
Proof.
  intros Hvisited Hkey. rewrite ParseParams_app, Hvisited. simpl.
  destruct (params1 !! key) as [v|] eqn:Hv; [|done].
  assert (is_Some (params !! key)) as [w Hw].
  { apply (ParseParams_keys float _ _ _ _ _ Hvisited). by eexists. }
  congruence.
Qed.

Lemma ParseParams_missing_witness :
  DraftParamParser.ParseParams test_float 9
    ([("a"%string, "<int>"%string)] ++ ("b"%string, "<int>"%string) :: [])
    (<["a"%string := DraftParamParser.PStr " 7"]> ∅)
  = Some (<["a"%string := DraftParamParser.PInt 7]> ∅,
          Some (DraftParamParser.not_found "b")).
Proof. apply ParseParams_missing; vm_compute; reflexivity. Defined.

(** ** The command line *)

Lemma arg_step_gives params arg key value :
  gives arg key value ->
  DraftParamParser.arg_step params arg = Ok (<[key := value]> params).
Proof.
  intros [Hkey ->]. unfold DraftParamParser.arg_step.
  by rewrite split_once_some.
Qed.

Lemma arg_loop_raise params good bad rest :
  Forall (fun arg => PyStr.mem "=" arg = true) good ->
  PyStr.mem "=" bad = false ->
  DraftParamParser.arg_loop params (good ++ bad :: rest)
  = Raise (DraftParamParser.bad_argument bad).
Proof.
  intros Hgood Hbad. revert params.
  induction Hgood as [|arg good Harg _ IH]; intros params.
  - simpl. unfold DraftParamParser.arg_step. by rewrite split_once_none.
  - destruct (mem_split _ Harg) as (key & value & Hkey & ->).
    simpl. rewrite (arg_step_gives _ _ key value) by done.
    cbn [mbind result_bind]. apply IH.
Qed.

Lemma arg_loop_ok params args :
  Forall (fun arg => PyStr.mem "=" arg = true) args ->
  exists params', DraftParamParser.arg_loop params args = Ok params'.
Proof.
  intros Hargs. revert params.
  induction Hargs as [|arg args Harg _ IH]; intros params; [by eexists|].
  destruct (mem_split _ Harg) as (key & value & Hkey & ->).
  simpl. rewrite (arg_step_gives _ _ key value) by done.
  cbn [mbind result_bind]. apply IH.
Qed.

Lemma arg_loop_other params args params' key :
  Forall (fun arg => exists k v, gives arg k v /\ k <> key) args ->
  DraftParamParser.arg_loop params args = Ok params' ->
  params' !! key = params !! key.
Proof.
  intros Hargs. revert params.
  induction Hargs as [|arg args (k & v & Hg & Hne) _ IH]; intros params.
  { by intros [= <-]. }
  simpl. rewrite (arg_step_gives _ _ k v) by done. cbn [mbind result_bind].
  intros Hrest. rewrite (IH _ Hrest). by rewrite lookup_insert_ne.
Qed.

Lemma arg_loop_app params l1 l2 :
  DraftParamParser.arg_loop params (l1 ++ l2)
  = (params1 ← DraftParamParser.arg_loop params l1;
     DraftParamParser.arg_loop params1 l2).
Proof.
  revert params. induction l1 as [|arg l1 IH]; intros params; [done|].
  simpl. destruct (DraftParamParser.arg_step params arg); [|done].
  cbn [mbind result_bind]. apply IH.
Qed.

Lemma arg_loop_paramFile pre paramFile post :
  Forall (fun arg => PyStr.mem "=" arg = true) pre ->
  Forall (fun arg => exists k v, gives arg k v /\ k <> "paramFile"%string) post ->
  exists params,
    DraftParamParser.arg_loop ∅ (pre ++ ("paramFile=" +:+ paramFile) :: post)
    = Ok params
    /\ params !! "paramFile"%string = Some paramFile.
Proof.
  intros Hpre Hpost. rewrite arg_loop_app.
  destruct (arg_loop_ok ∅ pre Hpre) as [params1 ->]. cbn [mbind result_bind].
  cbn [DraftParamParser.arg_loop].
  rewrite (arg_step_gives _ _ "paramFile" paramFile) by done.
  cbn [mbind result_bind].
  destruct (arg_loop_ok (<["paramFile"%string := paramFile]> params1) post)
    as [params Hparams].
  { eapply Forall_impl; [exact Hpost|]. intros arg (k & v & [Hk ->] & _).
    apply mem_app_eq. }
  exists params. split; [done|].
  rewrite (arg_loop_other _ _ _ _ Hpost Hparams). apply lookup_insert_eq.
Qed.

(** X20: an argument without [=] is refused before any file is opened:
    the first one is named in the error, whatever [paramFile] arguments the
    command line has and whatever the files hold. *)
Theorem ParseCommandLine_TypeAgnostic_bad_argument open_file prog good bad rest :
  Forall (fun arg => PyStr.mem "=" arg = true) good ->
  PyStr.mem "=" bad = false ->
  DraftParamParser.ParseCommandLine_TypeAgnostic open_file
    (prog :: good ++ bad :: rest)
  = Raise (DraftParamParser.bad_argument bad).
Proof.
  intros Hgood Hbad. unfold DraftParamParser.ParseCommandLine_TypeAgnostic.
  simpl tail. by rewrite arg_loop_raise.
Qed.

Lemma ParseCommandLine_TypeAgnostic_bad_argument_witness :
  DraftParamParser.ParseCommandLine_TypeAgnostic test_files
    ("draft.py" :: ["paramFile=first.txt"; "a=1"] ++ "verbose" :: ["b=2"])
  = Raise (DraftParamParser.bad_argument "verbose").
Proof.
  apply ParseCommandLine_TypeAgnostic_bad_argument; [|reflexivity].
  by repeat constructor.
Defined.

(** X21: with a [paramFile] argument the result is what the file parses
    to: the other arguments of the command line, sound as they must be, are
    dropped.  The last [paramFile] argument counts. *)
Theorem ParseCommandLine_TypeAgnostic_paramFile open_file prog pre paramFile post :
  Forall (fun arg => PyStr.mem "=" arg = true) pre ->
  Forall (fun arg => exists k v, gives arg k v /\ k <> "paramFile"%string) post ->
  DraftParamParser.ParseCommandLine_TypeAgnostic open_file
    (prog :: pre ++ ("paramFile=" +:+ paramFile) :: post)
  = DraftParamParser.ParseParamFile_TypeAgnostic open_file paramFile.
Proof.
  intros Hpre Hpost. unfold DraftParamParser.ParseCommandLine_TypeAgnostic.
  simpl tail.
  destruct (arg_loop_paramFile pre paramFile post Hpre Hpost) as (params & -> & Hf).
  cbn [mbind result_bind]. by rewrite Hf.
Qed.

Lemma ParseCommandLine_TypeAgnostic_paramFile_witness :
  DraftParamParser.ParseCommandLine_TypeAgnostic test_files
    ("draft.py" :: ["a=5"; "paramFile=none.txt"]
       ++ ("paramFile=" +:+ "second.txt") :: ["c=6"])
  = DraftParamParser.ParseParamFile_TypeAgnostic test_files "second.txt".
Proof.
  apply ParseCommandLine_TypeAgnostic_paramFile; [by repeat constructor|].
  constructor; [|constructor]. exists "c"%string, "6"%string. by repeat split.
Defined.

(** X22: [ParseCommandLine] with a [paramFile] argument reads the
    expected parameters from that file, and from the file that this file
    names in a [paramFile] line of its own when it has one; what else the
    first file sets is dropped then. *)
Theorem ParseCommandLine_paramFile {Float : Type} (float : string -> option Float)
    fuel open_file expected prog pre paramFile post params :
  Forall (fun arg => PyStr.mem "=" arg = true) pre ->
  Forall (fun arg => exists k v, gives arg k v /\ k <> "paramFile"%string) post ->
  DraftParamParser.ParseParamFile_TypeAgnostic open_file paramFile = Ok params ->
  DraftParamParser.ParseCommandLine float fuel open_file expected
    (prog :: pre ++ ("paramFile=" +:+ paramFile) :: post)
  = DraftParamParser.ParseParamFile float fuel open_file expected
      (default paramFile (params !! "paramFile"%string)).
Proof.
  intros Hpre Hpost Hfile. unfold DraftParamParser.ParseCommandLine.
  unfold DraftParamParser.ParseCommandLine_TypeAgnostic. simpl tail.
  destruct (arg_loop_paramFile pre paramFile post Hpre Hpost) as (args & -> & Hf).
  cbn [mbind result_bind]. rewrite Hf, Hfile.
  destruct (params !! "paramFile"%string) as [second|] eqn:Hsecond; [done|].
  simpl. unfold DraftParamParser.ParseParamFile. by rewrite Hfile.
Qed.

Lemma ParseCommandLine_paramFile_witness :
  DraftParamParser.ParseCommandLine test_float 9 test_files
    [("a"%string, "<int>"%string)]
    ("draft.py" :: [] ++ ("paramFile=" +:+ "first.txt") :: ["a=0"])
  = DraftParamParser.ParseParamFile test_float 9 test_files
      [("a"%string, "<int>"%string)]
      (default "first.txt"%string
         ((<["a"%string := "1"%string]>
             (<["paramFile"%string := "second.txt"%string]> ∅) : gmap string string)
            !! "paramFile"%string)).
Proof.
  apply ParseCommandLine_paramFile; [constructor| |vm_compute; reflexivity].
  constructor; [|constructor]. exists "a"%string, "0"%string. by repeat split.
Defined.

(** ** Data types *)

Lemma span_digits_span s : PyStr.span_digits s = PyStr.span PyStr.is_digit s.
Proof.
  induction s as [|c s IH]; [done|]. simpl. rewrite IH. done.
Qed.

Lemma span_inv P s a r :
  PyStr.span P s = (a, r) ->
  s = a +:+ r /\ PyStr.all_chars P a = true
  /\ PyStr.all_chars P (PyStr.take 1 r) = false \/ s = a +:+ r
     /\ PyStr.all_chars P a = true /\ r = EmptyString.
Proof.
  revert a r. induction s as [|c s IH]; intros a r.
  { intros [= <- <-]. by right. }
  simpl. destruct (P c) eqn:Hc.
  - destruct (PyStr.span P s) as [d r'] eqn:Hs. intros [= <- <-].
    destruct (IH _ _ eq_refl) as [(-> & Hd & Hr)|(-> & Hd & ->)].
    + left. simpl. by rewrite Hc, Hd.
    + right. simpl. by rewrite Hc, Hd.
  - intros [= <- <-]. left. simpl. by rewrite Hc.
Qed.

Lemma span_app P a r :
  PyStr.all_chars P a = true ->
  PyStr.all_chars P (PyStr.take 1 r) = false \/ r = EmptyString ->
  PyStr.span P (a +:+ r) = (a, r).
Proof.
  intros Ha Hr. induction a as [|c a IH].
  - rewrite app_empty_l. destruct Hr as [Hr| ->]; [|done].
    destruct r as [|c r]; [done|]. simpl in Hr |- *.
    rewrite andb_true_r in Hr. by rewrite Hr.
  - simpl in Ha. apply andb_true_iff in Ha as [Hc Ha].
    rewrite app_cons. simpl. by rewrite Hc, (IH Ha).
Qed.

Lemma letter_not_digit c :
  DraftParamParser.is_letter c = true -> PyStr.is_digit c = false.
Proof. destruct c as [[] [] [] [] [] [] [] []]; done. Qed.

(** X23: [SplitDataType] returns for a run of digits, other than the one
    digit 0, followed by letters and nothing else but a newline at the
    end; it returns the digits and the letters.  A number written with
    more zeros than one is taken. *)
Theorem SplitDataType_spec dataTypeString number letters :
  DraftParamParser.SplitDataType dataTypeString = Ok (number, letters)
  <-> (dataTypeString = number +:+ letters
       \/ dataTypeString = number +:+ letters +:+ DraftParamParser.nl)
      /\ PyStr.all_chars PyStr.is_digit number = true
      /\ PyStr.all_chars DraftParamParser.is_letter letters = true
      /\ number <> EmptyString /\ number <> "0"%string.
Proof.
  unfold DraftParamParser.SplitDataType. rewrite span_digits_span. split.
  - destruct (PyStr.span PyStr.is_digit dataTypeString) as [n r] eqn:Hn.
    destruct (PyStr.span DraftParamParser.is_letter r) as [l r'] eqn:Hl.
    destruct (bool_decide (n = EmptyString)) eqn:Hne; [done|].
    apply bool_decide_eq_false in Hne.
    destruct (bool_decide (n = "0"%string)) eqn:Hz;
      [by rewrite orb_true_r|].
    apply bool_decide_eq_false in Hz.
    assert (dataTypeString = n +:+ r /\ PyStr.all_chars PyStr.is_digit n = true)
      as [-> Hdigits] by (apply span_inv in Hn; tauto).
    assert (r = l +:+ r' /\ PyStr.all_chars DraftParamParser.is_letter l = true)
      as [-> Hletters] by (apply span_inv in Hl; tauto).
    destruct (bool_decide (r' = EmptyString)) eqn:He.
    + apply bool_decide_eq_true in He as ->. simpl. intros [= <- <-].
      rewrite app_empty_r. tauto.
    + destruct (bool_decide (r' = DraftParamParser.nl)) eqn:Hnl; [|done].
      apply bool_decide_eq_true in Hnl as ->. simpl. intros [= <- <-]. tauto.
  - intros (Hs & Hdigits & Hletters & Hne & Hz).
    assert (exists tail, dataTypeString = number +:+ letters +:+ tail
                         /\ (tail = EmptyString \/ tail = DraftParamParser.nl))
      as (tail & -> & Htail).
    { destruct Hs as [->| ->].
      - exists EmptyString. rewrite app_empty_r. auto.
      - exists DraftParamParser.nl. auto. }
    assert (PyStr.span DraftParamParser.is_letter (letters +:+ tail)
            = (letters, tail)) as Hl.
    { apply span_app; [done|]. destruct Htail as [->| ->]; [by right|by left]. }
    rewrite span_app; [|done|].
    + rewrite Hl. rewrite (bool_decide_eq_false_2 _ Hne), (bool_decide_eq_false_2 _ Hz).
      destruct Htail as [->| ->]; done.
    + destruct letters as [|c letters].
      * rewrite app_empty_l. destruct Htail as [->| ->]; [by right|by left].
      * left. rewrite app_cons. simpl in Hletters |- *.
        apply andb_true_iff in Hletters as [Hc _].
        by rewrite (letter_not_digit _ Hc).
Qed.

(** ** The publish hook, continued *)

Section hook_types.
Context `{PublishFile.Toolkit}.
Import PublishFile.

Lemma unlisted_last extension row rest :
  unlisted extension (row :: rest) ->
  is_Some (last (row :: rest) ≫= (.!! 1%nat)).
Proof.
  revert row. induction rest as [|row' rest IH]; intros row Hrows.
  - inversion Hrows as [|? ? (ty & engine & exts & -> & _) _]; subst. by eexists.
  - inversion Hrows; subst. by apply IH.
Qed.

Lemma file_types_loop_unlisted extension type_defs publish_engine :
  unlisted extension type_defs ->
  file_types_loop extension type_defs publish_engine
  = Ok (None, default publish_engine (last type_defs ≫= (.!! 1%nat))).
Proof.
  intros Hrows. revert publish_engine.
  induction Hrows as [|type_def rest (ty & engine & exts & -> & Hext) Hrest IH];
    intros publish_engine; [done|].
  simpl. rewrite bool_decide_eq_false_2 by done. rewrite IH.
  destruct rest as [|row rest]; [done|].
  change (last (_ :: row :: rest)) with (last (row :: rest)).
  by destruct (unlisted_last _ _ _ Hrest) as [e ->].
Qed.

(** X24: for a file whose extension no row of the [File Types] setting
    lists, the type is made from the extension and the engine is the
    second entry of the last row of the table, which the loop left in
    [publish_engine]: not the engine [elements] set before the loop. *)
Theorem get_publish_type_unlisted s item path ext type_defs :
  truthy (get_property item "publish_type") = false ->
  properties item !! "path"%string = Some path ->
  path_extension path = Some ext -> ext <> EmptyString ->
  File_Types s = Some type_defs ->
  unlisted (lower (lstrip_dots ext)) type_defs ->
  get_publish_type s item
  = Ok (VStr (if decide (lower (lstrip_dots ext) = EmptyString)
              then "Texture Folder"%string
              else capitalize (lower (lstrip_dots ext)) +:+ " File"),
        last_engine type_defs).
Proof.
  intros Htype Hpath Hext Hne Htable Hrows. unfold get_publish_type.
  rewrite Htype. unfold properties_attr. rewrite Hpath. cbn [mbind result_bind].
  rewrite Hext. cbn [default]. rewrite bool_decide_eq_false_2 by done.
  cbn [negb]. rewrite Htable. change (id ext) with ext.
  rewrite (file_types_loop_unlisted _ _ _ Hrows).
  cbn [mbind result_bind]. unfold last_engine.
  destruct (decide (lower (lstrip_dots ext) = EmptyString)) as [->|Hne'].
  - done.
  - by rewrite bool_decide_eq_false_2 by done.
Qed.

End hook_types.

Lemma get_publish_type_unlisted_witness :
  @PublishFile.get_publish_type test_toolkit default_settings pdf_item
  = Ok (PublishFile.VStr "Pdf File", "vdb"%string).
Proof.
  apply (@get_publish_type_unlisted test_toolkit default_settings pdf_item
           (PublishFile.VStr "/shots/notes.PDF") "PDF"
           (default [] (PublishFile.File_Types default_settings)));
    [reflexivity..|done|reflexivity|].
  repeat (constructor;
          [eexists _, _, _; split; [reflexivity|];
           intros Hin%list_elem_of_In; simpl in Hin; intuition discriminate|]).
  constructor.
Defined.

Section hook_settings.
Context `{PublishFile.Toolkit}.
Import PublishFile.

(** [get_publish_version] writes to the log only. *)
Lemma get_publish_version_settings item st r st1 :
  get_publish_version item st = (r, st1) -> settings st1 = settings st.
Proof.
  unfold get_publish_version, work_fields_of, mbind, hook_bind, lift, log, mret,
    hook_ret.
  repeat case_match; intros; simplify_eq/=; done.
Qed.

Lemma accept_settings item st d st' :
  accept item st = (Ok d, st') ->
  exists v st1,
    get_publish_version item st = (Ok v, st1)
    /\ Publish_Version (settings st') = Some v
    /\ Export_Name (settings st')
       = (if truthy (properties_get item "tex_variation")
          then Some (properties_get item "tex_variation")
          else Export_Name (settings st))
    /\ File_Types (settings st') = File_Types (settings st).
Proof.
  unfold accept. intros Hrun.
  apply hook_bind_inv in Hrun as (path & st0 & Hpath & Hrun).
  unfold lift in Hpath. injection Hpath as _ <-.
  apply hook_bind_inv in Hrun as (v & st1 & Hv & Hrun).
  exists v, st1. split; [done|].
  apply get_publish_version_settings in Hv.
  apply hook_bind_inv in Hrun as ([] & st2 & Hset & Hrun).
  apply hook_bind_inv in Hrun as ([] & st3 & Hexp & Hrun).
  apply hook_bind_inv in Hrun as ([] & st4 & Hlog & Hrun).
  injection Hrun as _ <-. unfold log in Hlog. injection Hlog as <-.
  unfold set_publish_version in Hset.
  destruct (Publish_Version (settings st1)) eqn:Hpv; [|done].
  injection Hset as <-.
  destruct (truthy (properties_get item "tex_variation")).
  - unfold set_export_name in Hexp. simpl in Hexp.
    destruct (Export_Name (settings st1)) eqn:Hen; [|done].
    injection Hexp as <-. simpl. by rewrite Hv.
  - injection Hexp as <-. simpl. by rewrite Hv.
Qed.

(** X25: [accept] writes to the settings of the plugin, which the later
    calls read: when it returns, [Publish Version] holds what
    [get_publish_version] gave for the item, [None] included, and
    [Export Name] the [tex_variation] of the item if it has a true one. *)
Theorem accept_stores_version item st d st' :
  accept item st = (Ok d, st') ->
  exists v st1,
    get_publish_version item st = (Ok v, st1)
    /\ Publish_Version (settings st') = Some v
    /\ Export_Name (settings st')
       = (if truthy (properties_get item "tex_variation")
          then Some (properties_get item "tex_variation")
          else Export_Name (settings st))
    /\ File_Types (settings st') = File_Types (settings st).
Proof. apply accept_settings. Qed.

Lemma _get_publish_path_no_version item st :
  Publish_Version (settings st) = Some VNone ->
  context_from_path_entity (properties_get item "path") <> entity (context item) ->
  exists e st', _get_publish_path item st = (Raise e, st').
Proof.
  intros Hpv Hplace. unfold _get_publish_path.
  unfold mbind at 1. unfold hook_bind at 1. unfold get_settings.
  destruct (get_publish_type (settings st) item) as [publish_type|e] eqn:Htype;
    [|by eexists _, _].
  unfold mbind at 1. unfold hook_bind at 1. unfold lift at 1.
  unfold mbind at 1. unfold hook_bind at 1. unfold lift at 1.
  destruct (py_in "images" (VStr publish_type.2)) as [is_images|e];
    [|by eexists _, _].
  unfold mbind at 1. unfold hook_bind at 1.
  destruct ((if is_images then mret false
             else lift (py_in "Texture Folder" publish_type.1)) st)
    as [[is_folder|e] st0] eqn:Hfolder; [|by eexists _, _].
  assert (st0 = st) as ->.
  { destruct is_images; [by injection Hfolder|].
    unfold lift in Hfolder. by injection Hfolder. }
  unfold mbind at 1. unfold hook_bind at 1.
  destruct (entity (context item)) as [ent|] eqn:Hent; [|by eexists _, _].
  unfold mret at 1. unfold hook_ret at 1.
  rewrite bool_decide_eq_false_2 by done.
  unfold mbind at 1. unfold hook_bind at 1.
  match goal with
  | |- context [let (_, _) := ?m st in _] =>
      assert (exists e st', m st = (Raise e, st')) as (e & st' & ->);
        [|by eexists _, _]
  end.
  rewrite Hpv. unfold mbind, hook_bind, mret, hook_ret, raise, lift. simpl.
  repeat case_match; simplify_eq/=; eauto.
Qed.

(** X26: after [accept] has stored [None] as the version, which is what
    [get_publish_version] gives for a work template without a [version]
    field, [validate] raises for every item that is not in the place of its
    entity: the publish path needs the version as an integer. *)
Theorem accept_then_validate item st d st1 :
  accept item st = (Ok d, st1) ->
  (get_publish_version item st).1 = Ok VNone ->
  context_from_path_entity (properties_get item "path") <> entity (context item) ->
  exists e st2, validate item st1 = (Raise e, st2).
Proof.
  intros Haccept Hversion Hplace.
  destruct (accept_settings _ _ _ _ Haccept) as (v & st0 & Hv & Hpv & _).
  rewrite Hv in Hversion. simpl in Hversion. injection Hversion as ->.
  destruct (_get_publish_path_no_version item st1 Hpv Hplace) as (e & st2 & Hpath).
  exists e, st2. by apply (proj1 (validate_spec item st1)).
Qed.

End hook_settings.

Lemma accept_stores_version_witness :
  exists v st1,
    @PublishFile.get_publish_version test_toolkit accepted_item test_state = (Ok v, st1)
    /\ PublishFile.Publish_Version
         (PublishFile.settings
            (@PublishFile.accept test_toolkit accepted_item test_state).2) = Some v
    /\ PublishFile.Export_Name
         (PublishFile.settings
            (@PublishFile.accept test_toolkit accepted_item test_state).2)
       = (if PublishFile.truthy (PublishFile.properties_get accepted_item "tex_variation")
          then Some (PublishFile.properties_get accepted_item "tex_variation")
          else PublishFile.Export_Name (PublishFile.settings test_state))
    /\ PublishFile.File_Types
         (PublishFile.settings
            (@PublishFile.accept test_toolkit accepted_item test_state).2)
       = PublishFile.File_Types (PublishFile.settings test_state).
Proof.
  apply (@accept_stores_version test_toolkit accepted_item test_state
           {[ "accepted"%string := true ]}).
  vm_compute. reflexivity.
Defined.

Lemma accept_then_validate_witness :
  exists e st2,
    @PublishFile.validate test_toolkit named_item
      (@PublishFile.accept test_toolkit named_item test_state).2
    = (Raise e, st2).
Proof.
  apply (@accept_then_validate test_toolkit named_item test_state
           {[ "accepted"%string := true ]}).
  - vm_compute. reflexivity.
  - reflexivity.
  - done.
Defined.

Section hook_save.
Context `{PublishFile.Toolkit}.
Import PublishFile.

(** X27: [_save_to_next_version] returns [None] without calling the
    callback, whatever the callback is, or it returns the next path, which
    was not on the disk, after the callback has run on it and returned:
    the callback is never run on a path that exists. *)
Theorem _save_to_next_version_spec path_exists save_callback path item st v st' :
  _save_to_next_version path_exists save_callback path item st = (Ok v, st') ->
  (v = VNone
   /\ forall callback,
        _save_to_next_version path_exists callback path item st = (Ok VNone, st'))
  \/ (exists s version st1 st2,
        _get_next_version_info path item st = (Ok (VStr s, version), st1)
        /\ v = VStr s /\ path_exists s = false
        /\ save_callback (VStr s) (add_log st1 [bump_note]) = (Ok (), st2)
        /\ st' = add_log st2 [saved_note]).
Proof.
  intros Hrun. unfold _save_to_next_version in Hrun.
  apply hook_bind_inv in Hrun as ([next version] & st1 & Hinfo & Hrun).
  simpl in Hrun.
  assert (forall callback,
            _save_to_next_version path_exists callback path item st
            = (let next_version_path := next in
               if bool_decide (version = VNone) then
                 _ ← log Debug
                       "No version number detected in the publish path. Skipping the bump file version step.";
                 mret VNone
               else
                 _ ← log Info "Incrementing file version number...";
                 if negb (truthy next_version_path) then
                   _ ← log Warn "Could not determine the next version path.";
                   mret VNone
                 else
                   found ← lift (os_path_exists path_exists next_version_path);
                   if (found : bool) then
                     _ ← log Warn "The next version of the path already exists";
                     mret VNone
                   else
                     _ ← callback next_version_path;
                     _ ← log Info "File saved as: %s";
                     mret next_version_path) st1) as Hany.
  { intros callback. unfold _save_to_next_version.
    by rewrite (hook_bind_ok _ _ _ _ _ Hinfo). }
  cbv zeta in Hany.
  destruct (bool_decide (version = VNone)) eqn:Hversion.
  { left. injection Hrun as <- <-. split; [done|]. intros callback.
    by rewrite Hany. }
  apply hook_bind_inv in Hrun as ([] & st2 & Hlog & Hrun).
  unfold log in Hlog. injection Hlog as <-.
  destruct (truthy next) eqn:Hnext; simpl in Hrun.
  - apply hook_bind_inv in Hrun as (found & st3 & Hfound & Hrun).
    unfold lift in Hfound. injection Hfound as Hfound <-.
    destruct next as [| |s| |]; try done. simpl in Hfound. injection Hfound as <-.
    destruct (path_exists s) eqn:Hexists.
    + left. injection Hrun as <- <-. split; [done|]. intros callback.
      rewrite Hany. unfold mbind, hook_bind, log, lift. simpl.
      by rewrite Hexists.
    + right. apply hook_bind_inv in Hrun as ([] & st4 & Hcb & Hrun).
      injection Hrun as <- <-. by exists s, version, st1, st4.
  - left. injection Hrun as <- <-. split; [done|]. intros callback.
    by rewrite Hany.
Qed.

End hook_save.

Lemma _save_to_next_version_witness :
  let st' :=
    add_log test_state
      [bump_note; (PublishFile.Debug, "save_callback"%string); saved_note] in
  (PublishFile.VStr "/work/next.ma" = PublishFile.VNone
   /\ forall callback,
        @PublishFile._save_to_next_version eager_toolkit (fun _ => false) callback
          (PublishFile.VStr "/work/shot.ma") unlinked_item test_state
        = (Ok PublishFile.VNone, st'))
  \/ (exists s version st1 st2,
        @PublishFile._get_next_version_info eager_toolkit
          (PublishFile.VStr "/work/shot.ma") unlinked_item test_state
        = (Ok (PublishFile.VStr s, version), st1)
        /\ PublishFile.VStr "/work/next.ma" = PublishFile.VStr s
        /\ (fun _ : string => false) s = false
        /\ test_callback (PublishFile.VStr s) (add_log st1 [bump_note]) = (Ok (), st2)
        /\ st' = add_log st2 [saved_note]).
Proof.
  apply (@_save_to_next_version_spec eager_toolkit (fun _ => false) test_callback
           (PublishFile.VStr "/work/shot.ma") unlinked_item test_state).
  reflexivity.
Defined.

(** ** Job properties *)

Lemma foldl_insert_last {A V} (key : A -> option string) (val : A -> V) l
    (d : gmap string V) k :
  foldl (fun d x => match key x with
                    | Some k' => <[k' := val x]> d
                    | None => d
                    end) d l !! k
  = match last (filter (fun x => key x = Some k) l) with
    | Some x => Some (val x)
    | None => d !! k
    end.
Proof.
  revert d. induction l as [|x l IH]; intros d; [done|].
  simpl. rewrite IH. rewrite filter_cons.
  destruct (decide (key x = Some k)) as [Hx|Hx].
  - destruct (filter _ l) as [|y l'] eqn:Hl.
    + simpl. rewrite Hx. by rewrite lookup_insert_eq.
    + change (last (x :: y :: l')) with (last (y :: l')).
      destruct (last (y :: l')) eqn:Hlast; [done|]. by apply last_None in Hlast.
  - destruct (last (filter _ l)); [done|].
    destruct (key x) as [k'|]; [|done].
    rewrite lookup_insert_ne; [done|]. by intros ->.
Qed.

Lemma job_props_lookup root t :
  DraftParamParser.job_props root !! t
  = DraftParamParser.element_prop
      <$> last (filter (fun e => DraftParamParser.tag e = t)
                  (DraftParamParser.children root)).
Proof.
  unfold DraftParamParser.job_props.
  pose proof (foldl_insert_last (fun e => Some (DraftParamParser.tag e))
                DraftParamParser.element_prop (DraftParamParser.children root) ∅ t)
    as Hlast.
  simpl in Hlast. rewrite Hlast.
  assert (filter (fun e => Some (DraftParamParser.tag e) = Some t)
            (DraftParamParser.children root)
          = filter (fun e => DraftParamParser.tag e = t)
              (DraftParamParser.children root)) as ->.
  { apply list_filter_iff. intros e. split; [by intros [= ->]|by intros ->]. }
  by destruct (last _).
Qed.

(** X28: the dictionary of a job file that is read and parsed has one
    entry for each tag among the elements under the root, made from the
    last element with the tag; the elements before it with the same tag
    leave no trace. *)
Theorem GetDeadlineJobProperties_last normpath isfile read fromstring
    repoPath jobID strData root :
  let jobFileName :=
    DraftParamParser.posix_join (normpath repoPath)
      ["jobs"%string; jobID; jobID +:+ ".job"] in
  isfile jobFileName = true -> read jobFileName = Ok strData ->
  fromstring strData = Ok root ->
  exists jobProps,
    DraftParamParser.GetDeadlineJobProperties normpath isfile read fromstring
      repoPath jobID = Ok jobProps
    /\ forall t,
         jobProps !! t
         = DraftParamParser.element_prop
             <$> last (filter (fun e => DraftParamParser.tag e = t)
                         (DraftParamParser.children root)).
Proof.
  intros jobFileName Hfile Hread Hparse.
  exists (DraftParamParser.job_props root). split; [|apply job_props_lookup].
  unfold DraftParamParser.GetDeadlineJobProperties. fold jobFileName.
  rewrite Hfile, Hread. cbn [negb mbind result_bind]. by rewrite Hparse.
Qed.

Lemma GetDeadlineJobProperties_last_witness :
  exists jobProps,
    DraftParamParser.GetDeadlineJobProperties (fun p => p) test_isfile test_read
      test_fromstring "/repo" "/tmp/job" = Ok jobProps
    /\ forall t,
         jobProps !! t
         = DraftParamParser.element_prop
             <$> last (filter (fun e => DraftParamParser.tag e = t)
                         (DraftParamParser.children test_job)).
Proof.
  apply (GetDeadlineJobProperties_last (fun p => p) test_isfile test_read
           test_fromstring "/repo" "/tmp/job" "<Job/>" test_job); reflexivity.
Defined.

(** X29: in the dictionary of the extra info, a key holds the value of
    the last sub element that has this [Key]; an element without [Key] is
    left out, and one without [Value], or with an empty one, gives the
    empty string. *)
Theorem extra_info_last element key :
  DraftParamParser.extra_info element !! key
  = (fun child => default EmptyString (DraftParamParser.findtext child "Value"))
      <$> last (filter (fun child => DraftParamParser.findtext child "Key" = Some key)
                  (DraftParamParser.children element)).
Proof.
  unfold DraftParamParser.extra_info.
  rewrite (foldl_insert_last (fun child => DraftParamParser.findtext child "Key")
             (fun child => default EmptyString (DraftParamParser.findtext child "Value"))).
  by destruct (last _).
Qed.

Lemma posix_join_absolute path jobID :
  PyStr.first jobID = Some "/"%char ->
  DraftParamParser.posix_join path ["jobs"%string; jobID; jobID +:+ ".job"]
  = jobID +:+ ".job".
Proof.
  intros Habs. unfold DraftParamParser.posix_join. simpl.
  destruct jobID as [|c jobID]; [done|]. injection Habs as ->.
  rewrite app_cons. reflexivity.
Qed.

(** X30: when [jobID] starts with a slash, the repository path is not
    used: the file that is looked for and read is [jobID] with [.job]
    added, for every repository. *)
Theorem GetDeadlineJobProperties_absolute normpath isfile read fromstring
    repoPath repoPath' jobID :
  PyStr.first jobID = Some "/"%char ->
  DraftParamParser.GetDeadlineJobProperties normpath isfile read fromstring
    repoPath jobID
  = DraftParamParser.GetDeadlineJobProperties normpath isfile read fromstring
      repoPath' jobID.
Proof.
  intros Habs. unfold DraftParamParser.GetDeadlineJobProperties.
  by rewrite !posix_join_absolute.
Qed.

Lemma GetDeadlineJobProperties_absolute_witness :
  DraftParamParser.GetDeadlineJobProperties (fun p => p) test_isfile test_read
    test_fromstring "/repo" "/tmp/job"
  = DraftParamParser.GetDeadlineJobProperties (fun p => p) test_isfile test_read
      test_fromstring "/elsewhere" "/tmp/job".
Proof. apply GetDeadlineJobProperties_absolute. reflexivity. Defined.
